(** * AdminKingsCare: the REST handlers of the clinic back office

    A shallow embedding of the route handlers under [src/app/api]:
    appointments (admin and public booking), patients with their
    service-usage reconciliation, users, services and uploads.

    Conventions of the embedding.
    - A JS string is a [string]; each character is one code unit (code
      units above 255 are outside the model).
    - A request body is the value [request.json()] produced, a [Json].
    - A handler is a function from the database (or the storage world) to
      a response and the database afterwards.  Prisma calls are functions
      in the monad [M]: they either return a value or throw a [JsError],
      and the state at the throw is kept so that [transaction] has
      something to roll back.
    - What the JS engine or an npm package decides (date parsing, the
      e-mail pattern, password hashing, id generation, the clock, the
      argument check of the generated Prisma client) is a field of [Env]. *)

From Stdlib Require Import String Ascii List ZArith NArith Bool Lia.
From Stdlib Require Import Strings.Byte.
From Stdlib Require Import Sorting.Sorted Sorting.Permutation.
Import ListNotations.
Open Scope string_scope.
Open Scope Z_scope.

(* ================================================================= *)
(** ** JavaScript strings *)

Module Js.

(** [WhiteSpace] and [LineTerminator] code units below 256, the ones
    [String.prototype.trim] strips. *)
Definition is_white_space (c : ascii) : bool :=
  let n := N_of_ascii c in
  ((9 <=? n) && (n <=? 13) || (n =? 32) || (n =? 160))%N.

Fixpoint trimStart (s : string) : string :=
  match s with
  | EmptyString => EmptyString
  | String c t => if is_white_space c then trimStart t else s
  end.

Fixpoint trimEnd (s : string) : string :=
  match s with
  | EmptyString => EmptyString
  | String c t =>
      match trimEnd t with
      | EmptyString => if is_white_space c then EmptyString else String c EmptyString
      | t' => String c t'
      end
  end.

Definition trim (s : string) : string := trimEnd (trimStart s).

(** Truthiness of a string: the empty string is the only falsy one. *)
Definition truthy_string (s : string) : bool :=
  match s with EmptyString => false | _ => true end.

(** [x || undefined] for a string [x]. *)
Definition or_undefined (s : string) : option string :=
  if truthy_string s then Some s else None.

Fixpoint starts_with (p s : string) : bool :=
  match p, s with
  | EmptyString, _ => true
  | String a p', String b s' => Ascii.eqb a b && starts_with p' s'
  | String _ _, EmptyString => false
  end.

(** [hay.includes(needle)] *)
Fixpoint includes (hay needle : string) : bool :=
  starts_with needle hay ||
  match hay with
  | EmptyString => false
  | String _ t => includes t needle
  end.

(** [new Set(items)] followed by [[...set]] or [Array.from(set)]:
    insertion order, first occurrence kept. *)
Fixpoint set_add (x : string) (seen : list string) : list string :=
  match seen with
  | [] => [x]
  | y :: r => if String.eqb x y then seen else y :: set_add x r
  end.

Definition new_Set (items : list string) : list string :=
  fold_left (fun acc x => set_add x acc) items [].

(** [set.has(x)] and [array.includes(x)] *)
Definition has (l : list string) (x : string) : bool :=
  existsb (String.eqb x) l.

End Js.

(* ================================================================= *)
(** ** JSON values and the zod combinators the schemas use *)

#[local] Set Warnings "-register-all".

Inductive Json : Type :=
| JNull
| JBool (b : bool)
| JNum (n : Z)
| JStr (s : string)
| JArr (items : list Json)
| JObj (fields : list (string * Json)).

#[local] Set Warnings "register-all".

(** [T | null] *)
Inductive nullable (A : Type) : Type :=
| Null
| NotNull (a : A).
Arguments Null {A}.
Arguments NotNull {A} a.

Definition nullable_or {A} (v : nullable A) (d : A) : A :=
  match v with Null => d | NotNull a => a end.

Module Zod.

(** A schema maps a present value to its output, [None] when parsing
    raises an issue.  A field schema also sees an absent key. *)
Definition Schema (A : Type) := Json -> option A.
Definition Field (A : Type) := option Json -> option A.

Fixpoint lookup (k : string) (fs : list (string * Json)) : option Json :=
  match fs with
  | [] => None
  | (k', v) :: r => if String.eqb k k' then Some v else lookup k r
  end.

Definition object (body : Json) : option (list (string * Json)) :=
  match body with JObj fs => Some fs | _ => None end.

Definition str : Schema string :=
  fun v => match v with JStr s => Some s | _ => None end.

Definition then_ {A B} (p : Schema A) (f : A -> option B) : Schema B :=
  fun v => match p v with Some a => f a | None => None end.

Definition min (n : nat) (s : string) : option string :=
  if (n <=? String.length s)%nat then Some s else None.

Definition max (n : nat) (s : string) : option string :=
  if (String.length s <=? n)%nat then Some s else None.

Definition trimmed (s : string) : option string := Some (Js.trim s).

Definition check (ok : string -> bool) (s : string) : option string :=
  if ok s then Some s else None.

Definition required {A} (p : Schema A) : Field A :=
  fun o => match o with Some v => p v | None => None end.

Definition optional {A} (p : Schema A) : Field (option A) :=
  fun o => match o with
           | None => Some None
           | Some v => option_map Some (p v)
           end.

Definition nullable_ {A} (p : Schema A) : Schema (nullable A) :=
  fun v => match v with
           | JNull => Some Null
           | _ => option_map NotNull (p v)
           end.

Definition with_default {A} (p : Schema A) (d : A) : Field A :=
  fun o => match o with Some v => p v | None => Some d end.

Fixpoint array_of {A} (p : Schema A) (items : list Json) : option (list A) :=
  match items with
  | [] => Some []
  | v :: r =>
      match p v, array_of p r with
      | Some a, Some l => Some (a :: l)
      | _, _ => None
      end
  end.

Definition array {A} (p : Schema A) : Schema (list A) :=
  fun v => match v with JArr items => array_of p items | _ => None end.

(** [Boolean(v)], the coercion of [z.coerce.boolean()] *)
Definition truthy (v : Json) : bool :=
  match v with
  | JNull => false
  | JBool b => b
  | JNum n => negb (n =? 0)
  | JStr s => Js.truthy_string s
  | JArr _ | JObj _ => true
  end.

Definition coerce_boolean : Schema bool := fun v => Some (truthy v).

(** The pattern of [z.string().cuid()]: [/^c[^\s-]{8,}$/i]. *)
Definition cuid_tail_char (c : ascii) : bool :=
  negb (Js.is_white_space c) && negb (Ascii.eqb c "-"%char).

Fixpoint all_chars (ok : ascii -> bool) (s : string) : bool :=
  match s with
  | EmptyString => true
  | String c t => ok c && all_chars ok t
  end.

Definition is_cuid (s : string) : bool :=
  match s with
  | String c t =>
      (Ascii.eqb c "c"%char || Ascii.eqb c "C"%char)
      && (8 <=? String.length t)%nat && all_chars cuid_tail_char t
  | EmptyString => false
  end.

End Zod.

(* ================================================================= *)
(** ** Calls that may throw, over a state *)

Module Eff.

Definition t (S E A : Type) : Type := S -> (E + A) * S.

Definition ret {S E A} (a : A) : t S E A := fun s => (inr a, s).
Definition throw {S E A} (e : E) : t S E A := fun s => (inl e, s).
Definition bind {S E A B} (m : t S E A) (k : A -> t S E B) : t S E B :=
  fun s =>
    match m s with
    | (inr a, s') => k a s'
    | (inl e, s') => (inl e, s')
    end.

(** [try { m } catch (e) { h e }] *)
Definition try_catch {S E A} (m : t S E A) (h : E -> t S E A) : t S E A :=
  fun s =>
    match m s with
    | (inl e, s') => h e s'
    | r => r
    end.

Definition when_ {S E} (b : bool) (m : t S E unit) : t S E unit :=
  if b then m else ret tt.

End Eff.

Declare Scope eff_scope.
Delimit Scope eff_scope with eff.
Notation "x <- m ;; k" := (Eff.bind m (fun x => k))
  (at level 61, m at next level, right associativity) : eff_scope.
Notation "m ;;; k" := (Eff.bind m (fun _ => k))
  (at level 61, right associativity) : eff_scope.

(* ================================================================= *)
(** ** The environment of a request *)

(** The [data] argument of [prisma.service.create] and
    [prisma.service.update]: a key that is absent from the object is
    [None]; [parent] carries [connect] or [disconnect]. *)
Inductive ParentOp : Type :=
| Connect (id : string)
| Disconnect.

Record ServiceArgs : Type := mkServiceArgs {
  d_name : option string;
  d_description : option string;
  d_durationMin : option Z;
  d_priceCents : option Z;
  d_shortDescription : option (nullable string);
  d_priority : option (nullable Z);
  d_parent : option ParentOp;
  d_images : option (list string);
  d_active : option bool;
}.

(** The [include] argument of those calls: the fields selected on
    [parent] and on [subServices]. *)
Record ServiceInclude : Type := mkInclude {
  inc_parent : list string;
  inc_subServices : list string;
}.

Record Env : Type := mkEnv {
  (** [new Date(v).getTime()], [None] for an invalid date *)
  date_of : Json -> option Z;
  (** [Number(v)] when it is an integer, [None] otherwise *)
  integer_of : Json -> option Z;
  (** the pattern behind [z.string().email()] *)
  is_email : string -> bool;
  (** [bcrypt.hash(password, 10)] *)
  bcrypt_hash : string -> string;
  (** [CURRENT_TIMESTAMP] of the request *)
  now : Z;
  (** the ids the database generates during the request, in order *)
  cuid : nat -> string;
  (** the argument check of the generated Prisma client for the Service
      model, on the [data] and the [include] of a call: the message of
      the [PrismaClientValidationError] it throws, if it throws one
      ([schema.prisma] is not part of the sources) *)
  client_check : ServiceArgs -> ServiceInclude -> option string;
}.

(* ================================================================= *)
(** ** The database and the Prisma calls *)

Module Prisma.

Inductive Status : Type := BOOKED | COMPLETED | CANCELLED | NO_SHOW.
Inductive Role : Type := ADMIN | STAFF.

Record Patient : Type := mkPatient {
  pt_id : string;
  pt_firstName : string;
  pt_lastName : string;
  pt_phone : option string;
  pt_email : option string;
  pt_dob : option Z;
  pt_notes : option string;
}.

Record Service : Type := mkService {
  sv_id : string;
  sv_name : string;
  sv_description : string;
  sv_durationMin : option Z;
  sv_priceCents : option Z;
  sv_shortDescription : option string;
  sv_priority : option Z;
  sv_parentId : option string;
  sv_images : list string;
  sv_active : bool;
}.

Record User : Type := mkUser {
  us_id : string;
  us_email : string;
  us_name : option string;
  us_role : Role;
  us_passwordHash : string;
}.

Record Appointment : Type := mkAppointment {
  ap_id : string;
  ap_patientId : option string;
  ap_customPatientName : option string;
  ap_serviceId : string;
  ap_staffId : option string;
  ap_date : Z;
  ap_status : Status;
  ap_notes : option string;
}.

Record PatientServiceUsage : Type := mkUsage {
  pu_id : string;
  pu_patientId : string;
  pu_serviceId : string;
  pu_usedAt : Z;
}.

Record Db : Type := mkDb {
  patients : list Patient;
  services : list Service;
  users : list User;
  appointments : list Appointment;
  usages : list PatientServiceUsage;
}.

(** [error.meta?.target] *)
Inductive Target : Type :=
| NoTarget
| OneTarget (field : string)
| ManyTargets (fields : list string).

Inductive JsError : Type :=
| ZodError
| PrismaClientKnownRequestError (code : string) (target : Target) (message : string)
| PrismaClientValidationError (message : string)
| Error (message : string).

Definition message (e : JsError) : string :=
  match e with
  | ZodError => "Invalid input"
  | PrismaClientKnownRequestError _ _ m => m
  | PrismaClientValidationError m => m
  | Error m => m
  end.

Definition P2002 (field : string) : JsError :=
  PrismaClientKnownRequestError "P2002" (ManyTargets [field])
    "Unique constraint failed".
Definition P2003 (field : string) : JsError :=
  PrismaClientKnownRequestError "P2003" NoTarget
    "Foreign key constraint violated".
Definition P2025 : JsError :=
  PrismaClientKnownRequestError "P2025" NoTarget
    "An operation failed because it depends on one or more records that were required but not found.".

(** *** Prisma calls *)

Definition M (A : Type) : Type := Eff.t Db JsError A.

Definition ret {A} (a : A) : M A := Eff.ret a.
Definition throw {A} (e : JsError) : M A := Eff.throw e.
Definition try_catch {A} (m : M A) (h : JsError -> M A) : M A := Eff.try_catch m h.
Definition when_ (b : bool) (m : M unit) : M unit := Eff.when_ b m.

(** [prisma.$transaction(async (tx) => m)]: a throw inside restores the
    database of the start and is thrown again. *)
Definition transaction {A} (m : M A) : M A :=
  fun db =>
    match m db with
    | (inl e, _) => (inl e, db)
    | r => r
    end.

(** [await request.json()] followed by [schema.parse] *)
Definition parse {A} (r : option A) : M A :=
  match r with Some a => ret a | None => throw ZodError end.

(** *** Reading and writing fields *)

(** A field of an update: [undefined] leaves the column, [null] clears
    it, a value sets it. *)
Definition set_nullable {A} (old : option A) (upd : option (nullable A)) : option A :=
  match upd with
  | None => old
  | Some Null => None
  | Some (NotNull a) => Some a
  end.

Definition set_field {A} (old : A) (upd : option A) : A :=
  match upd with None => old | Some a => a end.

Definition set_optional {A} (old : option A) (upd : option A) : option A :=
  match upd with None => old | Some a => Some a end.

Definition exists_id {R} (id_of : R -> string) (rows : list R) (id : string) : bool :=
  existsb (fun r => String.eqb (id_of r) id) rows.

Definition opt_eqb (a : option string) (b : string) : bool :=
  match a with Some x => String.eqb x b | None => false end.

(** A reference that is set must point at a row. *)
Definition ref_ok {R} (id_of : R -> string) (rows : list R) (ref : option string) : bool :=
  match ref with None => true | Some id => exists_id id_of rows id end.

(** *** Appointment *)

Record AppointmentCreateInput : Type := mkAppointmentCreate {
  ac_patientId : option string;
  ac_customPatientName : option string;
  ac_serviceId : string;
  ac_staffId : option string;
  ac_date : Z;
  ac_status : Status;
  ac_notes : option string;
}.

Record AppointmentUpdateInput : Type := mkAppointmentUpdate {
  au_patientId : option (nullable string);
  au_customPatientName : option (nullable string);
  au_serviceId : option string;
  au_staffId : option (nullable string);
  au_date : option Z;
  au_status : option Status;
  au_notes : option (nullable string);
}.

Definition appointment_fk_ok (db : Db) (a : Appointment) : bool :=
  exists_id sv_id (services db) (ap_serviceId a)
  && ref_ok pt_id (patients db) (ap_patientId a)
  && ref_ok us_id (users db) (ap_staffId a).

Definition set_appointments (db : Db) (l : list Appointment) : Db :=
  mkDb (patients db) (services db) (users db) l (usages db).

(** [prisma.appointment.create({ data })]: a key left [undefined] takes
    the column default, NULL for the optional columns. *)
Definition appointment_create (e : Env) (data : AppointmentCreateInput) : M Appointment :=
  fun db =>
    let row := mkAppointment (cuid e 0) (ac_patientId data) (ac_customPatientName data)
                 (ac_serviceId data) (ac_staffId data) (ac_date data)
                 (ac_status data) (ac_notes data) in
    if exists_id ap_id (appointments db) (ap_id row) then throw (P2002 "id") db
    else if appointment_fk_ok db row
    then (inr row, set_appointments db (appointments db ++ [row]))
    else throw (P2003 "Appointment") db.

Definition appointment_apply (a : Appointment) (data : AppointmentUpdateInput) : Appointment :=
  mkAppointment (ap_id a)
    (set_nullable (ap_patientId a) (au_patientId data))
    (set_nullable (ap_customPatientName a) (au_customPatientName data))
    (set_field (ap_serviceId a) (au_serviceId data))
    (set_nullable (ap_staffId a) (au_staffId data))
    (set_field (ap_date a) (au_date data))
    (set_field (ap_status a) (au_status data))
    (set_nullable (ap_notes a) (au_notes data)).

Fixpoint find_by {R} (id_of : R -> string) (id : string) (rows : list R) : option R :=
  match rows with
  | [] => None
  | r :: rest => if String.eqb (id_of r) id then Some r else find_by id_of id rest
  end.

Fixpoint replace_by {R} (id_of : R -> string) (id : string) (r' : R) (rows : list R) : list R :=
  match rows with
  | [] => []
  | r :: rest =>
      if String.eqb (id_of r) id then r' :: rest
      else r :: replace_by id_of id r' rest
  end.

(** [prisma.appointment.update({ where: { id }, data })] *)
Definition appointment_update (id : string) (data : AppointmentUpdateInput) : M Appointment :=
  fun db =>
    match find_by ap_id id (appointments db) with
    | None => throw P2025 db
    | Some a =>
        let a' := appointment_apply a data in
        if appointment_fk_ok db a'
        then (inr a', set_appointments db (replace_by ap_id id a' (appointments db)))
        else throw (P2003 "Appointment") db
    end.

Definition status_eqb (a b : Status) : bool :=
  match a, b with
  | BOOKED, BOOKED | COMPLETED, COMPLETED
  | CANCELLED, CANCELLED | NO_SHOW, NO_SHOW => true
  | _, _ => false
  end.

(** The [where] of the appointment listing: a key left [undefined] does
    not filter. *)
Record AppointmentWhere : Type := mkAppointmentWhere {
  w_status : option Status;
  w_patientId : option string;
  w_gte : option Z;
  w_lte : option Z;
}.

Definition appointment_matches (w : AppointmentWhere) (a : Appointment) : bool :=
  match w_status w with None => true | Some s => status_eqb (ap_status a) s end
  && match w_patientId w with None => true | Some p => opt_eqb (ap_patientId a) p end
  && match w_gte w with None => true | Some d => d <=? ap_date a end
  && match w_lte w with None => true | Some d => ap_date a <=? d end.

(** [orderBy: { key: 'desc' }], rows of equal key in table order *)
Fixpoint insert_desc {R} (key : R -> Z) (a : R) (l : list R) : list R :=
  match l with
  | [] => [a]
  | b :: r => if key b <? key a then a :: l else b :: insert_desc key a r
  end.

Definition order_by_desc {R} (key : R -> Z) (l : list R) : list R :=
  fold_right (insert_desc key) [] l.

(** [prisma.appointment.findMany({ where, orderBy: { date: 'desc' } })] *)
Definition appointment_findMany (w : AppointmentWhere) : M (list Appointment) :=
  fun db => (inr (order_by_desc ap_date (filter (appointment_matches w) (appointments db))), db).

(** *** Patient and PatientServiceUsage *)

Record PatientCreateInput : Type := mkPatientCreate {
  pc_firstName : string;
  pc_lastName : string;
  pc_phone : option string;
  pc_email : option string;
  pc_dob : option Z;
  pc_notes : option string;
}.

Record PatientUpdateInput : Type := mkPatientUpdate {
  pp_firstName : option string;
  pp_lastName : option string;
  pp_phone : option (nullable string);
  pp_email : option (nullable string);
  pp_dob : option (nullable Z);
  pp_notes : option (nullable string);
}.

Definition set_patients (db : Db) (l : list Patient) : Db :=
  mkDb l (services db) (users db) (appointments db) (usages db).

Definition set_usages (db : Db) (l : list PatientServiceUsage) : Db :=
  mkDb (patients db) (services db) (users db) (appointments db) l.

Definition same_opt (a b : option string) : bool :=
  match a, b with
  | Some x, Some y => String.eqb x y
  | _, _ => false
  end.

(** The unique indexes of Patient: [email] and [phone], NULL never
    clashing; [None] when [p] clashes with no row other than itself.
    The migrations do not tell which index the database reports when
    both are violated; [email] is looked at first here. *)
Definition patient_conflict (rows : list Patient) (p : Patient) : option string :=
  let others := filter (fun q => negb (String.eqb (pt_id q) (pt_id p))) rows in
  if existsb (fun q => same_opt (pt_email q) (pt_email p)) others then Some "email"
  else if existsb (fun q => same_opt (pt_phone q) (pt_phone p)) others then Some "phone"
  else None.

(** [tx.patient.create({ data })] *)
Definition patient_create (e : Env) (data : PatientCreateInput) : M Patient :=
  fun db =>
    let row := mkPatient (cuid e 0) (pc_firstName data) (pc_lastName data)
                 (pc_phone data) (pc_email data) (pc_dob data) (pc_notes data) in
    if exists_id pt_id (patients db) (pt_id row) then throw (P2002 "id") db
    else match patient_conflict (patients db) row with
         | Some f => throw (P2002 f) db
         | None => (inr row, set_patients db (patients db ++ [row]))
         end.

Definition patient_apply (p : Patient) (data : PatientUpdateInput) : Patient :=
  mkPatient (pt_id p)
    (set_field (pt_firstName p) (pp_firstName data))
    (set_field (pt_lastName p) (pp_lastName data))
    (set_nullable (pt_phone p) (pp_phone data))
    (set_nullable (pt_email p) (pp_email data))
    (set_nullable (pt_dob p) (pp_dob data))
    (set_nullable (pt_notes p) (pp_notes data)).

(** [tx.patient.update({ where: { id }, data })] *)
Definition patient_update (id : string) (data : PatientUpdateInput) : M Patient :=
  fun db =>
    match find_by pt_id id (patients db) with
    | None => throw P2025 db
    | Some p =>
        let p' := patient_apply p data in
        match patient_conflict (patients db) p' with
        | Some f => throw (P2002 f) db
        | None => (inr p', set_patients db (replace_by pt_id id p' (patients db)))
        end
    end.

Definition usage_of (patientId : string) (u : PatientServiceUsage) : bool :=
  String.eqb (pu_patientId u) patientId.

(** [tx.patientServiceUsage.findMany({ where: { patientId } })] *)
Definition usage_findMany (patientId : string) : M (list PatientServiceUsage) :=
  fun db => (inr (filter (usage_of patientId) (usages db)), db).

(** [tx.patientServiceUsage.deleteMany({ where: { patientId,
    serviceId: { in: ids } } })] *)
Definition usage_deleteMany (patientId : string) (ids : list string) : M unit :=
  fun db =>
    (inr tt,
     set_usages db
       (filter (fun u => negb (usage_of patientId u && Js.has ids (pu_serviceId u)))
          (usages db))).

Definition usage_clash (rows : list PatientServiceUsage) (patientId serviceId : string) : bool :=
  existsb (fun u => usage_of patientId u && String.eqb (pu_serviceId u) serviceId) rows.

(** The rows one [createMany] statement adds to [rows]: a pair that
    clashes with the unique index is skipped, a pair that points at no
    patient or no service fails the statement ([None]). *)
Fixpoint usage_insert_all (e : Env) (db : Db) (k : nat) (data : list (string * string))
    (rows : list PatientServiceUsage) : option (list PatientServiceUsage) :=
  match data with
  | [] => Some rows
  | (patientId, serviceId) :: rest =>
      if usage_clash rows patientId serviceId
      then usage_insert_all e db (S k) rest rows
      else if exists_id pt_id (patients db) patientId
              && exists_id sv_id (services db) serviceId
           then usage_insert_all e db (S k) rest
                  (rows ++ [mkUsage (cuid e k) patientId serviceId (now e)])
           else None
  end.

(** [tx.patientServiceUsage.createMany({ data, skipDuplicates: true })];
    [k] is the number of ids the request has generated so far. *)
Definition usage_createMany (e : Env) (k : nat) (data : list (string * string)) : M unit :=
  fun db =>
    match usage_insert_all e db k data (usages db) with
    | Some rows => (inr tt, set_usages db rows)
    | None => throw (P2003 "PatientServiceUsage") db
    end.

(** [tx.patient.findUniqueOrThrow({ where: { id }, include:
    patientInclude })] *)
Definition patient_findUniqueOrThrow (id : string)
    : M (Patient * list PatientServiceUsage) :=
  fun db =>
    match find_by pt_id id (patients db) with
    | Some p => (inr (p, order_by_desc pu_usedAt (filter (usage_of id) (usages db))), db)
    | None => throw P2025 db
    end.

(** *** User *)

Record UserCreateInput : Type := mkUserCreate {
  uc_email : string;
  uc_name : option string;
  uc_role : Role;
  uc_passwordHash : string;
}.

Definition set_users (db : Db) (l : list User) : Db :=
  mkDb (patients db) (services db) l (appointments db) (usages db).

(** [prisma.user.create({ data })]; [email] carries a unique index. *)
Definition user_create (e : Env) (data : UserCreateInput) : M User :=
  fun db =>
    let row := mkUser (cuid e 0) (uc_email data) (uc_name data) (uc_role data)
                 (uc_passwordHash data) in
    if exists_id us_id (users db) (us_id row) then throw (P2002 "id") db
    else if existsb (fun u => String.eqb (us_email u) (us_email row)) (users db)
    then throw (P2002 "email") db
    else (inr row, set_users db (users db ++ [row])).

(** *** Service *)

Definition set_services (db : Db) (l : list Service) : Db :=
  mkDb (patients db) l (users db) (appointments db) (usages db).

Definition parent_ok (db : Db) (p : option ParentOp) : bool :=
  match p with
  | Some (Connect id) => exists_id sv_id (services db) id
  | _ => true
  end.

Definition parent_of (old : option string) (p : option ParentOp) : option string :=
  match p with
  | None => old
  | Some (Connect id) => Some id
  | Some Disconnect => None
  end.

Definition flatten {A} (v : option (nullable A)) : option A :=
  set_nullable None v.

(** [prisma.service.create({ data, include })].  The generated client
    checks the arguments first; [durationMin] and [priceCents] are [None]
    when the data leaves them to the column default. *)
Definition service_create (e : Env) (data : ServiceArgs) (include : ServiceInclude)
  : M Service :=
  fun db =>
    match client_check e data include with
    | Some msg => throw (PrismaClientValidationError msg) db
    | None =>
        match d_name data, d_description data with
        | Some name, Some description =>
            let row := mkService (cuid e 0) name description
                         (d_durationMin data)
                         (d_priceCents data)
                         (flatten (d_shortDescription data))
                         (flatten (d_priority data))
                         (parent_of None (d_parent data))
                         (set_field [] (d_images data))
                         (set_field true (d_active data)) in
            if exists_id sv_id (services db) (sv_id row) then throw (P2002 "id") db
            else if parent_ok db (d_parent data)
            then (inr row, set_services db (services db ++ [row]))
            else throw P2025 db
        | _, _ => throw (PrismaClientValidationError "Argument is missing.") db
        end
    end.

Definition service_apply (s : Service) (data : ServiceArgs) : Service :=
  mkService (sv_id s)
    (set_field (sv_name s) (d_name data))
    (set_field (sv_description s) (d_description data))
    (set_optional (sv_durationMin s) (d_durationMin data))
    (set_optional (sv_priceCents s) (d_priceCents data))
    (set_nullable (sv_shortDescription s) (d_shortDescription data))
    (set_nullable (sv_priority s) (d_priority data))
    (parent_of (sv_parentId s) (d_parent data))
    (set_field (sv_images s) (d_images data))
    (set_field (sv_active s) (d_active data)).

(** [prisma.service.update({ where: { id }, data, include })] *)
Definition service_update (e : Env) (id : string) (data : ServiceArgs)
    (include : ServiceInclude) : M Service :=
  fun db =>
    match client_check e data include with
    | Some msg => throw (PrismaClientValidationError msg) db
    | None =>
        match find_by sv_id id (services db) with
        | None => throw P2025 db
        | Some s =>
            if parent_ok db (d_parent data)
            then let s' := service_apply s data in
                 (inr s', set_services db (replace_by sv_id id s' (services db)))
            else throw P2025 db
        end
    end.

(** *** Reading and deleting one row *)

Fixpoint remove_by {R} (id_of : R -> string) (id : string) (rows : list R) : list R :=
  match rows with
  | [] => []
  | r :: rest =>
      if String.eqb (id_of r) id then rest
      else r :: remove_by id_of id rest
  end.

(** [prisma.appointment.delete({ where: { id } })] *)
Definition appointment_delete (id : string) : M Appointment :=
  fun db =>
    match find_by ap_id id (appointments db) with
    | None => throw P2025 db
    | Some a => (inr a, set_appointments db (remove_by ap_id id (appointments db)))
    end.

(** [prisma.appointment.findUnique({ where: { id } })] *)
Definition appointment_findUnique (id : string) : M (option Appointment) :=
  fun db => (inr (find_by ap_id id (appointments db)), db).

(** [prisma.patient.findUnique({ where: { id }, include: patientInclude })] *)
Definition patient_findUnique (id : string)
    : M (option (Patient * list PatientServiceUsage)) :=
  fun db =>
    (inr (match find_by pt_id id (patients db) with
          | Some p => Some (p, order_by_desc pu_usedAt (filter (usage_of id) (usages db)))
          | None => None
          end),
     db).

End Prisma.

Notation "'let?' x ':=' e 'in' k" :=
  (match e with Some x => k | None => None end)
  (at level 10, x pattern, e at level 100, k at level 200).

(* ================================================================= *)
(** ** Responses *)

Inductive Payload : Type :=
| ErrorBody (error : string)
(** [{ error: v }] for a [v] read from [Object.prototype] under [key]: a
    function, which the serialisation drops, or the prototype itself *)
| InheritedErrorBody (key : string)
| OkBody
| AppointmentBody (a : Prisma.Appointment)
| AppointmentsBody (l : list Prisma.Appointment)
| PatientBody (p : Prisma.Patient) (serviceUsages : list Prisma.PatientServiceUsage)
| UserBody (u : Prisma.User)
| ServiceBody (s : Prisma.Service)
| UrlBody (url : string).

Record Response : Type := mkResponse {
  status : Z;
  payload : Payload;
}.

(** [NextResponse.json(body, { status })] *)
Definition json (body : Payload) (st : Z) : Response := mkResponse st body.

(** The [try { ... } catch (error) { ... }] around a handler body. *)
Definition handler {A} (body : Prisma.M A) (ok : A -> Response)
    (caught : Prisma.JsError -> Response) (db : Prisma.Db) : Response * Prisma.Db :=
  match body db with
  | (inr a, db') => (ok a, db')
  | (inl e, db') => (caught e, db')
  end.

Definition STATUS_ENUM : list string := ["BOOKED"; "COMPLETED"; "CANCELLED"; "NO_SHOW"].

Definition status_of_string (s : string) : option Prisma.Status :=
  if String.eqb s "BOOKED" then Some Prisma.BOOKED
  else if String.eqb s "COMPLETED" then Some Prisma.COMPLETED
  else if String.eqb s "CANCELLED" then Some Prisma.CANCELLED
  else if String.eqb s "NO_SHOW" then Some Prisma.NO_SHOW
  else None.

(** [z.enum(STATUS_ENUM)] *)
Definition status_enum : Zod.Schema Prisma.Status :=
  Zod.then_ Zod.str status_of_string.

(* ================================================================= *)
(** ** [src/app/api/appointments/route.ts] *)

Module Appointments.
Import Prisma.
Local Open Scope eff_scope.

Record CreateAppointmentPayload : Type := mkPayload {
  patientId : option string;
  patientName : option string;
  serviceId : string;
  staffId : option string;
  date : Z;
  status_ : option Status;
  notes : option (nullable string);
}.

(** [Boolean(value.patientId || value.patientName)] *)
Definition refinement (pid pname : option string) : bool :=
  match pid with
  | Some s => if Js.truthy_string s then true
              else match pname with Some n => Js.truthy_string n | None => false end
  | None => match pname with Some n => Js.truthy_string n | None => false end
  end.

Definition createSchema (e : Env) (body : Json) : option CreateAppointmentPayload :=
  let? fs := Zod.object body in
  let? pid := Zod.optional (Zod.then_ Zod.str (Zod.min 1)) (Zod.lookup "patientId" fs) in
  let? pname := Zod.optional (Zod.then_ (Zod.then_ Zod.str Zod.trimmed) (Zod.min 1))
                  (Zod.lookup "patientName" fs) in
  let? sid := Zod.required (Zod.then_ Zod.str (Zod.min 1)) (Zod.lookup "serviceId" fs) in
  let? staff := Zod.optional (Zod.then_ Zod.str (Zod.min 1)) (Zod.lookup "staffId" fs) in
  let? d := Zod.required (date_of e) (Zod.lookup "date" fs) in
  let? st := Zod.optional status_enum (Zod.lookup "status" fs) in
  let? n := Zod.optional (Zod.nullable_ Zod.str) (Zod.lookup "notes" fs) in
  if refinement pid pname then Some (mkPayload pid pname sid staff d st n) else None.

(** [name?.trim() || undefined] *)
Definition sanitizePatientName (name : option string) : option string :=
  match name with
  | Some n => Js.or_undefined (Js.trim n)
  | None => None
  end.

(** [searchParams.get(key)] *)
Fixpoint searchParams_get (key : string) (q : list (string * string)) : option string :=
  match q with
  | [] => None
  | (k, v) :: r => if String.eqb k key then Some v else searchParams_get key r
  end.

(** [param ? new Date(param) : undefined]; the outer [None] is the
    invalid [Date] that Prisma refuses as a filter value. *)
Definition date_param (e : Env) (p : option string) : option (option Z) :=
  match p with
  | None => Some None
  | Some s =>
      if Js.truthy_string s
      then match date_of e (JStr s) with Some d => Some (Some d) | None => None end
      else Some None
  end.

Definition status_filter (statusParam : option string) : option Status :=
  match statusParam with
  | Some s =>
      if Js.truthy_string s && Js.has STATUS_ENUM s then status_of_string s else None
  | None => None
  end.

Definition GET (e : Env) (query : list (string * string)) : Db -> Response * Db :=
  handler
    (let statusParam := searchParams_get "status" query in
     let fromParam := searchParams_get "from" query in
     let toParam := searchParams_get "to" query in
     let patientId := searchParams_get "patientId" query in
     let status := status_filter statusParam in
     match date_param e fromParam, date_param e toParam with
     | Some from, Some to =>
         appointment_findMany
           (mkAppointmentWhere status
              (match patientId with Some p => Js.or_undefined p | None => None end)
              from to)
     | _, _ => throw (PrismaClientValidationError "Provided Date object is invalid")
     end)
    (fun l => json (AppointmentsBody l) 200)
    (fun _ => json (ErrorBody "Unable to list appointments") 500).

(** The 201 carries the created row; the [include] of the source prints
    the patient and the names of the service and the staff member
    beside its columns. *)
Definition POST (e : Env) (body : Json) : Db -> Response * Db :=
  handler
    (payload <- parse (createSchema e body) ;;
     let patientName := sanitizePatientName (patientName payload) in
     appointment_create e
       (mkAppointmentCreate
          (patientId payload)
          (match patientId payload with
           | Some p => if Js.truthy_string p then None else patientName
           | None => patientName
           end)
          (serviceId payload)
          (staffId payload)
          (date payload)
          (match status_ payload with Some s => s | None => BOOKED end)
          (match notes payload with Some (NotNull n) => Some n | _ => None end)))
    (fun a => json (AppointmentBody a) 201)
    (fun _ => json (ErrorBody "Unable to create appointment") 400).

End Appointments.

(* ================================================================= *)
(** ** The public booking route ([POST /api/public/appointments]) *)

Module PublicAppointments.
Import Prisma.
Local Open Scope eff_scope.

Definition STATUS_DEFAULT : Status := BOOKED.

Record BookingPayload : Type := mkPayload {
  patientId : option string;
  patientName : option string;
  serviceId : string;
  date : Z;
  notes : option string;
}.

Definition bookingSchema (e : Env) (body : Json) : option BookingPayload :=
  let? fs := Zod.object body in
  let? pid := Zod.optional (Zod.then_ Zod.str (Zod.min 1)) (Zod.lookup "patientId" fs) in
  let? pname := Zod.optional (Zod.then_ (Zod.then_ Zod.str Zod.trimmed) (Zod.min 1))
                  (Zod.lookup "patientName" fs) in
  let? sid := Zod.required (Zod.then_ Zod.str (Zod.min 1)) (Zod.lookup "serviceId" fs) in
  let? d := Zod.required (date_of e) (Zod.lookup "date" fs) in
  let? n := Zod.optional (Zod.then_ Zod.str Zod.trimmed) (Zod.lookup "notes" fs) in
  if Appointments.refinement pid pname then Some (mkPayload pid pname sid d n) else None.

(** [value?.trim() || undefined] *)
Definition sanitize (value : option string) : option string :=
  match value with
  | Some v => Js.or_undefined (Js.trim v)
  | None => None
  end.

(** The 201 carries the created row; the [select] of the source prints
    its id, date, status, guest name and notes, with the patient and
    the service beside them, and leaves the other columns out. *)
Definition POST (e : Env) (body : Json) : Db -> Response * Db :=
  handler
    (payload <- parse (bookingSchema e body) ;;
     let customName := sanitize (patientName payload) in
     appointment_create e
       (mkAppointmentCreate
          (patientId payload)
          (match patientId payload with
           | Some p => if Js.truthy_string p then None else customName
           | None => customName
           end)
          (serviceId payload)
          None
          (date payload)
          STATUS_DEFAULT
          (sanitize (notes payload))))
    (fun a => json (AppointmentBody a) 201)
    (fun _ => json (ErrorBody "Unable to create appointment request.") 400).

End PublicAppointments.

(* ================================================================= *)
(** ** [/api/appointments/[id]] *)

Module AppointmentById.
Import Prisma.
Local Open Scope eff_scope.

Record UpdatePayload : Type := mkPayload {
  patientId : option (nullable string);
  patientName : option (nullable string);
  serviceId : option string;
  staffId : option (nullable string);
  date : option Z;
  status_ : option Status;
  notes : option (nullable string);
}.

Definition updateSchema (e : Env) (body : Json) : option UpdatePayload :=
  let? fs := Zod.object body in
  let? pid := Zod.optional (Zod.nullable_ (Zod.then_ Zod.str (Zod.min 1)))
                (Zod.lookup "patientId" fs) in
  let? pname := Zod.optional
                  (Zod.nullable_ (Zod.then_ (Zod.then_ Zod.str Zod.trimmed) (Zod.min 1)))
                  (Zod.lookup "patientName" fs) in
  let? sid := Zod.optional (Zod.then_ Zod.str (Zod.min 1)) (Zod.lookup "serviceId" fs) in
  let? staff := Zod.optional (Zod.nullable_ (Zod.then_ Zod.str (Zod.min 1)))
                  (Zod.lookup "staffId" fs) in
  let? d := Zod.optional (date_of e) (Zod.lookup "date" fs) in
  let? st := Zod.optional status_enum (Zod.lookup "status" fs) in
  let? n := Zod.optional (Zod.nullable_ Zod.str) (Zod.lookup "notes" fs) in
  Some (mkPayload pid pname sid staff d st n).

(** [name?.trim() || undefined] for [name : string | null | undefined] *)
Definition sanitizePatientName (name : option (nullable string)) : option string :=
  match name with
  | Some (NotNull n) => Js.or_undefined (Js.trim n)
  | _ => None
  end.

(** The [customPatientName] entry of the update data:
    [patientId !== undefined && patientId ? null
     : patientName !== undefined ? sanitizePatientName(patientName) ?? null
     : undefined] *)
Definition customPatientName (patientId patientName : option (nullable string))
    : option (nullable string) :=
  if match patientId with
     | Some (NotNull p) => Js.truthy_string p
     | _ => false
     end
  then Some Null
  else match patientName with
       | Some _ =>
           Some (match sanitizePatientName patientName with
                 | Some n => NotNull n
                 | None => Null
                 end)
       | None => None
       end.

Definition PATCH (e : Env) (id : string) (body : Json) : Db -> Response * Db :=
  handler
    (payload <- parse (updateSchema e body) ;;
     appointment_update id
       (mkAppointmentUpdate
          (patientId payload)
          (customPatientName (patientId payload) (patientName payload))
          (serviceId payload)
          (staffId payload)
          (date payload)
          (status_ payload)
          (notes payload)))
    (fun a => json (AppointmentBody a) 200)
    (fun _ => json (ErrorBody "Unable to update appointment") 400).

(** A handler without [try]: a throw is the 500 of the framework. *)
Definition uncaught : JsError -> Response :=
  fun _ => json (ErrorBody "Internal Server Error") 500.

Definition DELETE (id : string) : Db -> Response * Db :=
  handler (appointment_delete id)
    (fun _ => json OkBody 200)
    (fun _ => json (ErrorBody "Unable to delete appointment") 400).

Definition GET (id : string) : Db -> Response * Db :=
  handler (appointment_findUnique id)
    (fun appointment =>
       match appointment with
       | None => json (ErrorBody "Not found") 404
       | Some a => json (AppointmentBody a) 200
       end)
    uncaught.

End AppointmentById.

(* ================================================================= *)
(** ** [/api/patients/[id]] *)

Module PatientById.
Import Prisma.
Local Open Scope eff_scope.

Record UpdatePayload : Type := mkPayload {
  firstName : option string;
  lastName : option string;
  phone : option (nullable string);
  email : option (nullable string);
  dob : option (nullable Z);
  notes : option (nullable string);
  serviceIds : option (list string);
}.

(** [.optional().nullable()]: [undefined] and [null] pass as they are *)
Definition optional_nullable {A} (p : Zod.Schema A) : Zod.Field (option (nullable A)) :=
  Zod.optional (Zod.nullable_ p).

Definition updateSchema (e : Env) (body : Json) : option UpdatePayload :=
  let? fs := Zod.object body in
  let? fn := Zod.optional (Zod.then_ Zod.str (Zod.min 1)) (Zod.lookup "firstName" fs) in
  let? ln := Zod.optional (Zod.then_ Zod.str (Zod.min 1)) (Zod.lookup "lastName" fs) in
  let? ph := optional_nullable (Zod.then_ Zod.str (Zod.min 5)) (Zod.lookup "phone" fs) in
  let? em := optional_nullable (Zod.then_ Zod.str (Zod.check (is_email e)))
               (Zod.lookup "email" fs) in
  let? d := optional_nullable (date_of e) (Zod.lookup "dob" fs) in
  let? n := optional_nullable Zod.str (Zod.lookup "notes" fs) in
  let? ids := Zod.optional (Zod.array (Zod.then_ Zod.str (Zod.min 1)))
                (Zod.lookup "serviceIds" fs) in
  Some (mkPayload fn ln ph em d n ids).

(** The keys an object literal inherits from [Object.prototype]. *)
Definition OBJECT_PROTOTYPE_KEYS : list string :=
  ["constructor"; "__defineGetter__"; "__defineSetter__"; "hasOwnProperty";
   "__lookupGetter__"; "__lookupSetter__"; "isPrototypeOf"; "propertyIsEnumerable";
   "toString"; "valueOf"; "__proto__"; "toLocaleString"].

(** What a property read on the object literal gives when it is there:
    an entry of the table, or what the prototype holds under the key (a
    function, the prototype itself under [__proto__]), which is truthy
    as well. *)
Inductive Property : Type :=
| Entry (message : string)
| Inherited (key : string).

(** [uniqueFieldMessage[field]] *)
Definition uniqueFieldMessage (field : string) : option Property :=
  if String.eqb field "email" then Some (Entry "Email already in use.")
  else if String.eqb field "phone" then Some (Entry "Phone number already in use.")
  else if Js.has OBJECT_PROTOTYPE_KEYS field then Some (Inherited field)
  else None.

Definition isUniqueConstraintError (err : JsError) : bool :=
  match err with
  | PrismaClientKnownRequestError code _ _ => String.eqb code "P2002"
  | _ => false
  end.

Definition target_fields (err : JsError) : list string :=
  match err with
  | PrismaClientKnownRequestError _ (ManyTargets fs) _ => fs
  | PrismaClientKnownRequestError _ (OneTarget f) _ => [f]
  | _ => []
  end.

Fixpoint first_message (fields : list string) : option Property :=
  match fields with
  | [] => None
  | f :: r =>
      match uniqueFieldMessage f with
      | Some m => Some m
      | None => first_message r
      end
  end.

Definition handleKnownError (error : JsError) : option Response :=
  if isUniqueConstraintError error then
    match first_message (target_fields error) with
    | Some (Entry m) => Some (json (ErrorBody m) 409)
    | Some (Inherited key) => Some (json (InheritedErrorBody key) 409)
    | None => Some (json (ErrorBody "Duplicate value detected.") 409)
    end
  else None.

(** The body of the [$transaction] callback. *)
Definition reconcile (e : Env) (id : string) (payload : UpdatePayload)
    : M (Patient * list PatientServiceUsage) :=
  _ <- patient_update id
         (mkPatientUpdate (firstName payload) (lastName payload) (phone payload)
            (email payload) (dob payload) (notes payload)) ;;
  match serviceIds payload with
  | Some ids =>
      existingUsages <- usage_findMany id ;;
      let existingIds := Js.new_Set (map pu_serviceId existingUsages) in
      let incomingIds := Js.new_Set ids in
      let toDelete := filter (fun i => negb (Js.has incomingIds i)) existingIds in
      let toCreate := filter (fun i => negb (Js.has existingIds i)) incomingIds in
      when_ (negb (Nat.eqb (length toDelete) 0)) (usage_deleteMany id toDelete) ;;;
      when_ (negb (Nat.eqb (length toCreate) 0))
        (usage_createMany e 0 (map (fun serviceId => (id, serviceId)) toCreate))
  | None => ret tt
  end ;;;
  patient_findUniqueOrThrow id.

Definition PUT (e : Env) (id : string) (body : Json) : Db -> Response * Db :=
  handler
    (payload <- parse (updateSchema e body) ;;
     transaction (reconcile e id payload))
    (fun r => json (PatientBody (fst r) (snd r)) 200)
    (fun error =>
       match handleKnownError error with
       | Some handled => handled
       | None => json (ErrorBody "Unable to update patient") 400
       end).

Definition PATCH := PUT.

Definition GET (id : string) : Db -> Response * Db :=
  handler (patient_findUnique id)
    (fun patient =>
       match patient with
       | None => json (ErrorBody "Not found") 404
       | Some r => json (PatientBody (fst r) (snd r)) 200
       end)
    AppointmentById.uncaught.

End PatientById.

(* ================================================================= *)
(** ** [src/app/api/patients/route.ts] *)

Module Patients.
Import Prisma.
Local Open Scope eff_scope.

Record PatientPayload : Type := mkPayload {
  firstName : string;
  lastName : string;
  phone : option (nullable string);
  email : option (nullable string);
  dob : option (nullable Z);
  notes : option (nullable string);
  serviceIds : option (list string);
}.

Definition patientSchema (e : Env) (body : Json) : option PatientPayload :=
  let? fs := Zod.object body in
  let? fn := Zod.required (Zod.then_ Zod.str (Zod.min 1)) (Zod.lookup "firstName" fs) in
  let? ln := Zod.required (Zod.then_ Zod.str (Zod.min 1)) (Zod.lookup "lastName" fs) in
  let? ph := PatientById.optional_nullable (Zod.then_ Zod.str (Zod.min 5))
               (Zod.lookup "phone" fs) in
  let? em := PatientById.optional_nullable (Zod.then_ Zod.str (Zod.check (is_email e)))
               (Zod.lookup "email" fs) in
  let? d := PatientById.optional_nullable (date_of e) (Zod.lookup "dob" fs) in
  let? n := PatientById.optional_nullable Zod.str (Zod.lookup "notes" fs) in
  let? ids := Zod.optional (Zod.array (Zod.then_ Zod.str (Zod.min 1)))
                (Zod.lookup "serviceIds" fs) in
  Some (mkPayload fn ln ph em d n ids).

(** The handler of this file has the table and the loop of
    [PatientById.handleKnownError]. *)
Definition handleKnownError := PatientById.handleKnownError.

Definition POST (e : Env) (body : Json) : Db -> Response * Db :=
  handler
    (payload <- parse (patientSchema e body) ;;
     let serviceIds := match serviceIds payload with Some l => l | None => [] end in
     transaction
       (created <- patient_create e
                     (mkPatientCreate (firstName payload) (lastName payload)
                        (flatten (phone payload)) (flatten (email payload))
                        (flatten (dob payload)) (flatten (notes payload))) ;;
        when_ (negb (Nat.eqb (length serviceIds) 0))
          (usage_createMany e 1
             (map (fun serviceId => (pt_id created, serviceId)) serviceIds)) ;;;
        patient_findUniqueOrThrow (pt_id created)))
    (fun r => json (PatientBody (fst r) (snd r)) 201)
    (fun error =>
       match handleKnownError error with
       | Some handled => handled
       | None => json (ErrorBody "Unable to create patient") 400
       end).

End Patients.

(* ================================================================= *)
(** ** [src/app/api/users/route.ts] *)

Module Users.
Import Prisma.
Local Open Scope eff_scope.

Record CreatePayload : Type := mkPayload {
  email : string;
  name : option string;
  role : option Role;
  password : string;
}.

Definition role_enum : Zod.Schema Role :=
  Zod.then_ Zod.str
    (fun s => if String.eqb s "ADMIN" then Some ADMIN
              else if String.eqb s "STAFF" then Some STAFF
              else None).

Definition createSchema (e : Env) (body : Json) : option CreatePayload :=
  let? fs := Zod.object body in
  let? em := Zod.required (Zod.then_ Zod.str (Zod.check (is_email e))) (Zod.lookup "email" fs) in
  let? nm := Zod.optional (Zod.then_ Zod.str (Zod.min 1)) (Zod.lookup "name" fs) in
  let? rl := Zod.optional role_enum (Zod.lookup "role" fs) in
  let? pw := Zod.required (Zod.then_ Zod.str (Zod.min 6)) (Zod.lookup "password" fs) in
  Some (mkPayload em nm rl pw).

Definition POST (e : Env) (body : Json) : Db -> Response * Db :=
  handler
    (payload <- parse (createSchema e body) ;;
     let passwordHash := bcrypt_hash e (password payload) in
     user_create e
       (mkUserCreate (email payload) (name payload)
          (match role payload with Some r => r | None => STAFF end)
          passwordHash))
    (fun u => json (UserBody u) 201)
    (fun _ => json (ErrorBody "Unable to create user") 400).

End Users.

(* ================================================================= *)
(** ** [src/app/api/services/route.ts] *)

Module Services.
Import Prisma.
Local Open Scope eff_scope.

(** [baseIncludes] *)
Definition baseIncludes : ServiceInclude :=
  mkInclude ["id"; "name"] ["id"; "name"; "active"; "images"; "shortDescription"].

(** [z.array(z.string().trim().min(1)).transform(dedupe).refine(nonempty)] *)
Definition imagesSchema : Zod.Schema (list string) :=
  fun v =>
    let? items := Zod.array (Zod.then_ (Zod.then_ Zod.str Zod.trimmed) (Zod.min 1)) v in
    let items := Js.new_Set items in
    if (0 <? length items)%nat then Some items else None.

Definition in_range (lo hi : Z) (n : Z) : option Z :=
  if (lo <=? n) && (n <=? hi) then Some n else None.

Definition at_least (lo : Z) (n : Z) : option Z :=
  if lo <=? n then Some n else None.

Record ServicePayload : Type := mkPayload {
  name : string;
  durationMin : Z;
  priceCents : option Z;
  description : string;
  shortDescription : option (nullable string);
  active : option bool;
  parentId : option (nullable string);
  images : list string;
}.

Definition serviceSchema (e : Env) (body : Json) : option ServicePayload :=
  let? fs := Zod.object body in
  let? nm := Zod.required (Zod.then_ (Zod.then_ Zod.str Zod.trimmed) (Zod.min 1))
               (Zod.lookup "name" fs) in
  let? dur := Zod.with_default (Zod.then_ (integer_of e) (in_range 1 480)) 30
                (Zod.lookup "durationMin" fs) in
  let? price := Zod.optional (Zod.then_ (integer_of e) (at_least 0))
                  (Zod.lookup "priceCents" fs) in
  let? desc := Zod.required (Zod.then_ (Zod.then_ Zod.str Zod.trimmed) (Zod.min 1))
                 (Zod.lookup "description" fs) in
  let? short := Zod.optional
                  (Zod.nullable_ (Zod.then_ (Zod.then_ Zod.str Zod.trimmed) (Zod.max 200)))
                  (Zod.lookup "shortDescription" fs) in
  let? act := Zod.optional Zod.coerce_boolean (Zod.lookup "active" fs) in
  let? par := Zod.optional (Zod.nullable_ (Zod.then_ Zod.str (Zod.check Zod.is_cuid)))
                (Zod.lookup "parentId" fs) in
  let? imgs := Zod.required imagesSchema (Zod.lookup "images" fs) in
  Some (mkPayload nm dur price desc short act par imgs).

(** [...(payload.parentId ? { parent: { connect: { id } } } : {})] *)
Definition connect_parent (parentId : option (nullable string)) : option ParentOp :=
  match parentId with
  | Some (NotNull p) => if Js.truthy_string p then Some (Connect p) else None
  | _ => None
  end.

(** [payload.x ?? null], the key always present *)
Definition or_null {A} (v : option (nullable A)) : option (nullable A) :=
  match v with
  | Some (NotNull a) => Some (NotNull a)
  | _ => Some Null
  end.

Definition unknown_shortDescription := "Unknown argument `shortDescription`".
Definition unknown_priority := "Unknown argument `priority`".

Definition first_data (payload : ServicePayload) : ServiceArgs :=
  mkServiceArgs (Some (name payload)) (Some (description payload))
    (Some (durationMin payload))
    (Some (match priceCents payload with Some c => c | None => 0 end))
    (or_null (shortDescription payload))
    None
    (connect_parent (parentId payload))
    (Some (images payload))
    (Some (match active payload with Some b => b | None => true end)).

Definition second_data (payload : ServicePayload) : ServiceArgs :=
  mkServiceArgs (Some (name payload)) (Some (description payload))
    (Some (durationMin payload))
    (Some (match priceCents payload with Some c => c | None => 0 end))
    None
    None
    (connect_parent (parentId payload))
    (Some (images payload))
    (Some (match active payload with Some b => b | None => true end)).

Definition POST (e : Env) (body : Json) : Db -> Response * Db :=
  handler
    (payload <- parse (serviceSchema e body) ;;
     try_catch
       (service_create e (first_data payload) baseIncludes)
       (fun innerErr =>
          let msg := message innerErr in
          if Js.includes msg unknown_shortDescription
          then service_create e (second_data payload) baseIncludes
          else throw innerErr))
    (fun sv => json (ServiceBody sv) 201)
    (fun _ => json (ErrorBody "Unable to create service") 400).

End Services.

(* ================================================================= *)
(** ** The services route with [priority] (the second copy of
       [api/services/route.ts] in the sources) *)

Module ServicesWithPriority.
Import Prisma.
Local Open Scope eff_scope.

(** [baseIncludes] *)
Definition baseIncludes : ServiceInclude :=
  mkInclude ["id"; "name"] ["id"; "name"; "active"; "images"; "shortDescription"].

Record ServicePayload : Type := mkPayload {
  name : string;
  description : string;
  shortDescription : option (nullable string);
  priority : option (nullable Z);
  active : option bool;
  parentId : option (nullable string);
  images : list string;
}.

Definition serviceSchema (e : Env) (body : Json) : option ServicePayload :=
  let? fs := Zod.object body in
  let? nm := Zod.required (Zod.then_ (Zod.then_ Zod.str Zod.trimmed) (Zod.min 1))
               (Zod.lookup "name" fs) in
  let? desc := Zod.required (Zod.then_ (Zod.then_ Zod.str Zod.trimmed) (Zod.min 1))
                 (Zod.lookup "description" fs) in
  let? short := Zod.optional
                  (Zod.nullable_ (Zod.then_ (Zod.then_ Zod.str Zod.trimmed) (Zod.max 200)))
                  (Zod.lookup "shortDescription" fs) in
  let? prio := Zod.optional
                 (Zod.nullable_ (Zod.then_ (integer_of e) (Services.in_range 0 1000)))
                 (Zod.lookup "priority" fs) in
  let? act := Zod.optional Zod.coerce_boolean (Zod.lookup "active" fs) in
  let? par := Zod.optional (Zod.nullable_ (Zod.then_ Zod.str (Zod.check Zod.is_cuid)))
                (Zod.lookup "parentId" fs) in
  let? imgs := Zod.required Services.imagesSchema (Zod.lookup "images" fs) in
  Some (mkPayload nm desc short prio act par imgs).

Definition data (payload : ServicePayload) : ServiceArgs :=
  mkServiceArgs (Some (name payload)) (Some (description payload))
    None None
    (Services.or_null (shortDescription payload))
    (Services.or_null (priority payload))
    (Services.connect_parent (parentId payload))
    (Some (images payload))
    (Some (match active payload with Some b => b | None => true end)).

Definition fallback (payload : ServicePayload) : ServiceArgs :=
  mkServiceArgs (Some (name payload)) (Some (description payload))
    None None
    None
    None
    (Services.connect_parent (parentId payload))
    (Some (images payload))
    (Some (match active payload with Some b => b | None => true end)).

Definition POST (e : Env) (body : Json) : Db -> Response * Db :=
  handler
    (payload <- parse (serviceSchema e body) ;;
     try_catch
       (service_create e (data payload) baseIncludes)
       (fun innerErr =>
          let msg := message innerErr in
          if Js.includes msg Services.unknown_shortDescription
             || Js.includes msg Services.unknown_priority
          then service_create e (fallback payload) baseIncludes
          else throw innerErr))
    (fun sv => json (ServiceBody sv) 201)
    (fun _ => json (ErrorBody "Unable to create service") 400).

End ServicesWithPriority.

(* ================================================================= *)
(** ** [/api/services/[id]] *)

Module ServiceById.
Import Prisma.
Local Open Scope eff_scope.

(** [baseIncludes] *)
Definition baseIncludes : ServiceInclude :=
  mkInclude ["id"; "name"] ["id"; "name"; "active"; "images"; "shortDescription"].

Record UpdatePayload : Type := mkPayload {
  name : option string;
  description : option string;
  shortDescription : option (nullable string);
  priority : option (nullable Z);
  active : option bool;
  parentId : option (nullable string);
  images : option (list string);
}.

Definition updateSchema (e : Env) (body : Json) : option UpdatePayload :=
  let? fs := Zod.object body in
  let? nm := Zod.optional (Zod.then_ (Zod.then_ Zod.str Zod.trimmed) (Zod.min 1))
               (Zod.lookup "name" fs) in
  let? desc := Zod.optional (Zod.then_ (Zod.then_ Zod.str Zod.trimmed) (Zod.min 1))
                 (Zod.lookup "description" fs) in
  let? short := Zod.optional
                  (Zod.nullable_ (Zod.then_ (Zod.then_ Zod.str Zod.trimmed) (Zod.max 200)))
                  (Zod.lookup "shortDescription" fs) in
  let? prio := Zod.optional
                 (Zod.nullable_ (Zod.then_ (integer_of e) (Services.in_range 0 1000)))
                 (Zod.lookup "priority" fs) in
  let? act := Zod.optional Zod.coerce_boolean (Zod.lookup "active" fs) in
  let? par := Zod.optional (Zod.nullable_ (Zod.then_ Zod.str (Zod.check Zod.is_cuid)))
                (Zod.lookup "parentId" fs) in
  let? imgs := Zod.optional Services.imagesSchema (Zod.lookup "images" fs) in
  Some (mkPayload nm desc short prio act par imgs).

(** [payload.parentId && payload.parentId === id] *)
Definition own_parent (payload : UpdatePayload) (id : string) : bool :=
  match parentId payload with
  | Some (NotNull p) => Js.truthy_string p && String.eqb p id
  | _ => false
  end.

(** The [data] object the handler fills key by key. *)
Definition data (payload : UpdatePayload) : ServiceArgs :=
  mkServiceArgs (name payload) (description payload)
    None None
    (shortDescription payload)
    (priority payload)
    (match parentId payload with
     | Some (NotNull p) => if Js.truthy_string p then Some (Connect p) else Some Disconnect
     | Some Null => Some Disconnect
     | None => None
     end)
    (images payload)
    (active payload).

(** [delete rest["shortDescription"]; delete rest["priority"]] *)
Definition rest (d : ServiceArgs) : ServiceArgs :=
  mkServiceArgs (d_name d) (d_description d) (d_durationMin d) (d_priceCents d)
    None None (d_parent d) (d_images d) (d_active d).

Definition PATCH (e : Env) (id : string) (body : Json) : Db -> Response * Db :=
  handler
    (payload <- parse (updateSchema e body) ;;
     if own_parent payload id then ret (inl tt)
     else
       sv <- try_catch
               (service_update e id (data payload) baseIncludes)
               (fun innerErr =>
                  let msg := message innerErr in
                  if Js.includes msg Services.unknown_shortDescription
                     || Js.includes msg Services.unknown_priority
                  then service_update e id (rest (data payload)) baseIncludes
                  else throw innerErr) ;;
       ret (inr sv))
    (fun r =>
       match r with
       | inl _ => json (ErrorBody "A service cannot be its own parent") 400
       | inr sv => json (ServiceBody sv) 200
       end)
    (fun _ => json (ErrorBody "Unable to update service") 400).

End ServiceById.

(* ================================================================= *)
(** ** [src/app/api/uploads/route.ts] *)

Module Uploads.
Local Open Scope eff_scope.

Definition MAX_FILE_SIZE : Z := 4 * 1024 * 1024.

Definition ALLOWED_MIME : list string :=
  ["image/jpeg"; "image/png"; "image/webp"; "image/gif"; "image/svg+xml"].

Record File : Type := mkFile {
  file_name : string;
  file_type : string;
  file_bytes : list byte;
}.

Inductive FormValue : Type :=
| FormString (s : string)
| FormFile (f : File).

Inductive FsEntry : Type :=
| Directory
| RegularFile (data : list byte).

(** What [await import("@vercel/blob")] gives. *)
Inductive BlobModule : Type :=
| ImportFails
| NoPut
| PutFails
| PutStores (base_url : string).

(** The storage backends and the process the handler runs in. *)
Record World : Type := mkWorld {
  blob_module : BlobModule;
  blob_objects : list (string * list byte);
  disk : list (string * FsEntry);
  disk_writable : bool;
  serverless : bool;
  tmpdir : string;
  cwd : string;
}.

(** Per request: [Date.now()] and [randomUUID()] as printed in the file
    name, and [path.extname]. *)
Record Stamp : Type := mkStamp {
  date_now : string;
  randomUUID : string;
  extname : string -> string;
}.

Definition W (A : Type) : Type := Eff.t World string A.

(** The entry the disk has under a path. *)
Fixpoint entry (path : string) (d : list (string * FsEntry)) : option FsEntry :=
  match d with
  | [] => None
  | (p, en) :: r => if String.eqb p path then Some en else entry path r
  end.

(** The directories above a path: its prefixes that end before a [/],
    the root apart. *)
Fixpoint ancestors (path : string) : list string :=
  match path with
  | EmptyString => []
  | String c t =>
      ((if Js.starts_with "/" t then [String c EmptyString] else [])
       ++ map (String c) (ancestors t))%list
  end.

Definition is_regular_file (d : list (string * FsEntry)) (path : string) : bool :=
  match entry path d with
  | Some (RegularFile _) => true
  | _ => false
  end.

Definition is_missing (d : list (string * FsEntry)) (path : string) : bool :=
  match entry path d with
  | None => true
  | Some _ => false
  end.

(** [stat(path)]: the entry, or the error of a path that is not there
    ([ENOENT]) or that leads through a regular file ([ENOTDIR]). *)
Inductive StatResult : Type :=
| Stat (info : FsEntry)
| ENOENT
| ENOTDIR.

Definition stat (path : string) (d : list (string * FsEntry)) : StatResult :=
  if existsb (is_regular_file d) (ancestors path) then ENOTDIR
  else match entry path d with
       | Some info => Stat info
       | None => ENOENT
       end.

Definition set_disk (w : World) (d : list (string * FsEntry)) : World :=
  mkWorld (blob_module w) (blob_objects w) d (disk_writable w) (serverless w)
    (tmpdir w) (cwd w).

Definition set_blob_objects (w : World) (o : list (string * list byte)) : World :=
  mkWorld (blob_module w) o (disk w) (disk_writable w) (serverless w)
    (tmpdir w) (cwd w).

(** [mkdir(dirPath, { recursive: true })]: the directory and the
    directories above it that are missing. *)
Definition mkdir (dirPath : string) : W unit :=
  fun w =>
    if disk_writable w
    then (inr tt,
          set_disk w
            ((dirPath, Directory)
               :: map (fun a => (a, Directory))
                    (filter (is_missing (disk w)) (ancestors dirPath))
               ++ disk w)%list)
    else (inl "EROFS: read-only file system", w).

(** [writeFile(diskPath, buffer)], for a path whose directory is there:
    the handler has run [ensureUploadsDir], and the file name, made of
    [Date.now()], [randomUUID()] and [path.extname], holds no [/]. *)
Definition writeFile (diskPath : string) (buffer : list byte) : W unit :=
  fun w =>
    if disk_writable w
    then match entry diskPath (disk w) with
         | Some Directory =>
             (inl ("EISDIR: illegal operation on a directory, open '" ++ diskPath ++ "'"), w)
         | _ => (inr tt, set_disk w ((diskPath, RegularFile buffer) :: disk w))
         end
    else (inl "EROFS: read-only file system", w).

(** The [catch] calls [mkdir] for [ENOENT] and throws every other error
    again, its own included. *)
Definition ensureUploadsDir (dirPath : string) : W unit :=
  fun w =>
    match stat dirPath (disk w) with
    | Stat Directory => (inr tt, w)
    | Stat (RegularFile _) => (inl "Uploads path exists and is not a directory", w)
    | ENOENT => mkdir dirPath w
    | ENOTDIR => (inl ("ENOTDIR: not a directory, stat '" ++ dirPath ++ "'"), w)
    end.

(** The [try { ... put ... } catch {}] block: [Some url] when the blob
    store took the file. *)
Definition try_blob (filename : string) (buffer : list byte) : W (option string) :=
  fun w =>
    match blob_module w with
    | PutStores base =>
        let key := "uploads/" ++ filename in
        (inr (Some (base ++ key)), set_blob_objects w ((key, buffer) :: blob_objects w))
    | _ => (inr None, w)
    end.

Definition join (a b : string) : string := a ++ "/" ++ b.

Definition saveFile (st : Stamp) (file : File) : W string :=
  let buffer := file_bytes file in
  if MAX_FILE_SIZE <? Z.of_nat (length buffer) then Eff.throw "File too large"
  else if negb (Js.has ALLOWED_MIME (file_type file)) then Eff.throw "Unsupported file type"
  else
    let ext := extname st (file_name file) in
    let filename := date_now st ++ "-" ++ randomUUID st ++ ext in
    stored <- try_blob filename buffer ;;
    match stored with
    | Some url => Eff.ret url
    | None =>
        fun w =>
          let uploadsDir :=
            if serverless w then join (tmpdir w) "uploads"
            else join (join (cwd w) "public") "uploads" in
          (ensureUploadsDir uploadsDir ;;;
           writeFile (join uploadsDir filename) buffer ;;;
           Eff.ret ("/uploads/" ++ filename)) w
    end.

(** [formData.get("file")] *)
Fixpoint formData_get (key : string) (form : list (string * FormValue)) : option FormValue :=
  match form with
  | [] => None
  | (k, v) :: r => if String.eqb k key then Some v else formData_get key r
  end.

Definition POST (st : Stamp) (form : list (string * FormValue)) (w : World)
    : Response * World :=
  match formData_get "file" form with
  | Some (FormFile fileEntry) =>
      match saveFile st fileEntry w with
      | (inr url, w') => (json (UrlBody url) 201, w')
      | (inl msg, w') => (json (ErrorBody msg) 400, w')
      end
  | _ => (json (ErrorBody "No file provided") 400, w)
  end.

End Uploads.

(* ================================================================= *)
(** ** The string schema of the doctors routes *)

Module Doctors.

(** The [.pipe(z.string())] after the transform: the piped schema takes
    strings, [null] raises an issue. *)
Definition pipe_string (min : nat) (v : nullable string) : option string :=
  match v with
  | Null => None
  | NotNull s => if (0 <? min)%nat then Zod.min min s else Some s
  end.

(** [nullableStr(min)]:
    [z.string().trim().transform((value) => (value.length === 0 ? null : value))
      .pipe(min ? z.string().min(min) : z.string()).nullable().optional()];
    [min] absent is 0. *)
Definition nullableStr (min : nat) : Zod.Field (option (nullable string)) :=
  Zod.optional
    (Zod.nullable_
       (Zod.then_ Zod.str
          (fun s =>
             let value := Js.trim s in
             pipe_string min
               (if Nat.eqb (String.length value) 0 then Null else NotNull value)))).

End Doctors.

(* ================================================================= *)
(** ** Reading requests and outcomes *)

(** The value a JSON body carries under a key, if it carries one. *)
Definition supplied (k : string) (body : Json) : option Json :=
  match body with
  | JObj fs => Zod.lookup k fs
  | _ => None
  end.

(** An appointment row holds a patient or a guest name, never both and
    never neither. *)
Definition exactly_one (a : Prisma.Appointment) : Prop :=
  (Prisma.ap_patientId a <> None /\ Prisma.ap_customPatientName a = None)
  \/ (Prisma.ap_patientId a = None /\ Prisma.ap_customPatientName a <> None).

(** The outcome of a create that answered 201 with row [a]: the
    database of before with [a] appended to the appointments. *)
Definition created (db : Prisma.Db) (a : Prisma.Appointment)
    (r : Response * Prisma.Db) : Prop :=
  r = (json (AppointmentBody a) 201,
       Prisma.set_appointments db (Prisma.appointments db ++ [a])).

(** The outcome of a request answered with [st] and an error message,
    the database as before. *)
Definition rejected (st : Z) (msg : string) (db : Prisma.Db)
    (r : Response * Prisma.Db) : Prop :=
  r = (json (ErrorBody msg) st, db).

(** No usable patient in a create body: no [patientId] key, and the
    [patientName] key absent or a string that is empty once trimmed. *)
Definition no_patient (body : Json) : Prop :=
  supplied "patientId" body = None
  /\ (supplied "patientName" body = None
      \/ exists s, supplied "patientName" body = Some (JStr s) /\ Js.trim s = "").

(** The guest name the two create handlers store, from the parsed
    [patientId] and [patientName]:
    [payload.patientId ? undefined : sanitize(payload.patientName)]. *)
Definition stored_name (pid pname : option string) : option string :=
  match pid with
  | Some i => if Js.truthy_string i then None else Appointments.sanitizePatientName pname
  | None => Appointments.sanitizePatientName pname
  end.

(** The row the admin create stores for a parsed payload. *)
Definition admin_row (e : Env) (p : Appointments.CreateAppointmentPayload)
    : Prisma.Appointment :=
  Prisma.mkAppointment (cuid e 0)
    (Appointments.patientId p)
    (stored_name (Appointments.patientId p) (Appointments.patientName p))
    (Appointments.serviceId p)
    (Appointments.staffId p)
    (Appointments.date p)
    (match Appointments.status_ p with Some s => s | None => Prisma.BOOKED end)
    (match Appointments.notes p with Some (NotNull n) => Some n | _ => None end).

(** The row the public booking stores for a parsed payload. *)
Definition public_row (e : Env) (p : PublicAppointments.BookingPayload)
    : Prisma.Appointment :=
  Prisma.mkAppointment (cuid e 0)
    (PublicAppointments.patientId p)
    (stored_name (PublicAppointments.patientId p) (PublicAppointments.patientName p))
    (PublicAppointments.serviceId p)
    None
    (PublicAppointments.date p)
    PublicAppointments.STATUS_DEFAULT
    (PublicAppointments.sanitize (PublicAppointments.notes p)).

(** The patient a create body names, with the patient id and the guest
    name stored for it: a non-empty patient id, alone or beside a name
    that is not blank, or else a name that is not blank. *)
Inductive names_patient (body : Json) : option string -> option string -> Prop :=
| names_id (pid : string) :
    supplied "patientId" body = Some (JStr pid) -> pid <> "" ->
    (supplied "patientName" body = None
     \/ exists n, supplied "patientName" body = Some (JStr n) /\ Js.trim n <> "") ->
    names_patient body (Some pid) None
| names_guest (n : string) :
    supplied "patientId" body = None ->
    supplied "patientName" body = Some (JStr n) -> Js.trim n <> "" ->
    names_patient body None (Some (Js.trim n)).

(** An optional key that holds a non-empty string when it is there. *)
Definition optional_text (v : option Json) (r : option string) : Prop :=
  (v = None /\ r = None) \/ (exists s, v = Some (JStr s) /\ s <> "" /\ r = Some s).

(** An optional key that holds a status of the enumeration when it is
    there. *)
Definition optional_status (v : option Json) (r : option Prisma.Status) : Prop :=
  (v = None /\ r = None)
  \/ (exists s st, v = Some (JStr s) /\ status_of_string s = Some st /\ r = Some st).

(** A booking body for service [sid] with a date the engine reads as
    [d] and without notes. *)
Definition books (e : Env) (body : Json) (sid : string) (d : Z) : Prop :=
  supplied "serviceId" body = Some (JStr sid) /\ sid <> ""
  /\ (exists v, supplied "date" body = Some v /\ date_of e v = Some d)
  /\ supplied "notes" body = None.

(** The database takes a new appointment with these references: the id
    of the new row is free, the service exists, and so do the patient
    and the staff member when there is one. *)
Definition can_book (e : Env) (db : Prisma.Db) (sid : string) (pid staff : option string)
    : Prop :=
  Prisma.exists_id Prisma.ap_id (Prisma.appointments db) (cuid e 0) = false
  /\ Prisma.exists_id Prisma.sv_id (Prisma.services db) sid = true
  /\ Prisma.ref_ok Prisma.pt_id (Prisma.patients db) pid = true
  /\ Prisma.ref_ok Prisma.us_id (Prisma.users db) staff = true.

(** The [data] the update handler passes for a parsed payload. *)
Definition patch_data (p : AppointmentById.UpdatePayload) : Prisma.AppointmentUpdateInput :=
  Prisma.mkAppointmentUpdate
    (AppointmentById.patientId p)
    (AppointmentById.customPatientName (AppointmentById.patientId p)
       (AppointmentById.patientName p))
    (AppointmentById.serviceId p)
    (AppointmentById.staffId p)
    (AppointmentById.date p)
    (AppointmentById.status_ p)
    (AppointmentById.notes p).

(** The rule of the specification for a body whose [patientId] is null
    or empty: after the request the row [id] holds the trimmed
    [patientName] of the body as its guest name. *)
Definition guest_name_from_body (e : Env) (id : string) (body : Json) (db : Prisma.Db)
    : Prop :=
  forall n, supplied "patientName" body = Some (JStr n) ->
    exists a', Prisma.find_by Prisma.ap_id id
                 (Prisma.appointments (snd (AppointmentById.PATCH e id body db))) = Some a'
               /\ Prisma.ap_customPatientName a' = Some (Js.trim n).

(** The outcome of an update of row [id] answered 200 with [a']. *)
Definition updated (db : Prisma.Db) (id : string) (a' : Prisma.Appointment)
    (r : Response * Prisma.Db) : Prop :=
  r = (json (AppointmentBody a') 200,
       Prisma.set_appointments db (Prisma.replace_by Prisma.ap_id id a' (Prisma.appointments db))).

(* ================================================================= *)
(** ** Sample requests *)

Module Sample.
Import Prisma.

Definition env : Env :=
  mkEnv
    (fun v => match v with
              | JNum n => Some n
              | JStr s => if String.eqb s "2025-01-01T10:00:00Z" then Some 1735725600000
                          else None
              | _ => None
              end)
    (fun v => match v with JNum n => Some n | _ => None end)
    (fun s => Js.includes s "@")
    (fun password => "$2a$10$" ++ password)
    1767225600000
    (fun k => "cnew0000" ++ String (ascii_of_nat (48 + k)) "")
    (fun _ _ => None).

Definition db : Db :=
  mkDb
    [mkPatient "pat1" "Jane" "Doe" None (Some "jane@example.com") None None;
     mkPatient "pat2" "John" "Roe" (Some "55512345") None None None]
    [mkService "svc1" "Checkup" "General checkup" None None None None None [] true;
     mkService "svc2" "Vaccine" "Vaccination" None None None None None [] true;
     mkService "svc3" "X-ray" "Imaging" None None None None None [] true]
    [mkUser "usr1" "admin@example.com" (Some "Admin") ADMIN "$2a$10$secret"]
    [mkAppointment "apt1" None (Some "Guest A") "svc1" None 1735725600000 BOOKED None;
     mkAppointment "apt2" (Some "pat1") None "svc2" None 1735812000000 COMPLETED None]
    [mkUsage "use1" "pat1" "svc1" 1000;
     mkUsage "use2" "pat1" "svc2" 2000;
     mkUsage "use3" "pat2" "svc2" 3000].

(** [{serviceId:"svc1", patientName:"Guest A", date:"2025-01-01T10:00:00Z"}] *)
Definition guest_body : Json :=
  JObj [("serviceId", JStr "svc1"); ("patientName", JStr "Guest A");
        ("date", JStr "2025-01-01T10:00:00Z")].

Definition padded_guest_body : Json :=
  JObj [("serviceId", JStr "svc1"); ("patientName", JStr "  Guest A ");
        ("date", JStr "2025-01-01T10:00:00Z"); ("status", JStr "CANCELLED");
        ("staffId", JStr "usr1")].

Definition both_body : Json :=
  JObj [("serviceId", JStr "svc1"); ("patientId", JStr "pat1");
        ("patientName", JStr "Guest A"); ("date", JStr "2025-01-01T10:00:00Z")].

Definition blank_name_body : Json :=
  JObj [("serviceId", JStr "svc1"); ("patientName", JStr "   ");
        ("date", JStr "2025-01-01T10:00:00Z")].

End Sample.

Module SampleUpdate.

(** [{patientId: null, patientName: " Walk In "}] *)
Definition to_guest_body : Json :=
  JObj [("patientId", JNull); ("patientName", JStr " Walk In ")].

(** [{patientId: "pat2"}] *)
Definition to_patient_body : Json := JObj [("patientId", JStr "pat2")].

(** [{patientId: null}] *)
Definition detach_body : Json := JObj [("patientId", JNull)].

(** [{patientId: "", patientName: "Bob"}] *)
Definition empty_id_body : Json :=
  JObj [("patientId", JStr ""); ("patientName", JStr "Bob")].

End SampleUpdate.

(** The query string without the entries of one key. *)
Definition without (key : string) (query : list (string * string)) : list (string * string) :=
  filter (fun kv => negb (String.eqb (fst kv) key)) query.

Module SampleQuery.

(** [?status=PENDING&patientId=pat1] *)
Definition bad_status : list (string * string) :=
  [("status", "PENDING"); ("patientId", "pat1")].

End SampleQuery.

Module SampleService.
Import Prisma.

Definition db : Db :=
  mkDb [] 
    [mkService "cparent00" "Dental" "Dental care" None None None None None ["/a.png"] true;
     mkService "cchild000" "Cleaning" "Teeth cleaning" None None (Some "old") (Some 3)
       (Some "cparent00") ["/b.png"] true]
    [] [] [].

(** [{parentId: "cchild000"}] sent to [/api/services/cchild000] *)
Definition own_parent_body : Json := JObj [("parentId", JStr "cchild000")].

End SampleService.

Module SampleUser.

(** [{email: "admin@example.com", password: "secret1"}], the e-mail of
    the user [usr1] of the sample database *)
Definition duplicate_body : Json :=
  JObj [("email", JStr "admin@example.com"); ("password", JStr "secret1")].

(** [{firstName: "Ann", lastName: "Poe", email: "jane@example.com"}],
    the e-mail of the patient [pat1] *)
Definition duplicate_patient_body : Json :=
  JObj [("firstName", JStr "Ann"); ("lastName", JStr "Poe");
        ("email", JStr "jane@example.com")].

End SampleUser.

Module SampleUpload.
Import Uploads.

Definition stamp : Stamp := mkStamp "1767225600000" "3f2b" (fun _ => ".png").

(** A PNG of 4 MB and one byte. *)
Definition big_file : File :=
  mkFile "scan.png" "image/png" (repeat x00 (N.to_nat 4194305)).

Definition world : World :=
  mkWorld (PutStores "https://blob.example/") [] [] true false "/tmp" "/app".

End SampleUpload.









Module SampleDrift.
Import Prisma.

(** The optional columns a [data] object names. *)
Definition data_keys (d : ServiceArgs) : list string :=
  (match d_shortDescription d with Some _ => ["shortDescription"] | None => [] end)
  ++ (match d_priority d with Some _ => ["priority"] | None => [] end).

(** The check of a generated client whose Service model lacks the
    columns [missing]: it names the first unknown key of [data], or else
    the first unknown field selected on [subServices]. *)
Definition client_lacking (missing : list string) (d : ServiceArgs)
    (inc : ServiceInclude) : option string :=
  match filter (Js.has missing) (data_keys d) with
  | k :: _ => Some ("Unknown argument `" ++ k ++ "`. Available options are marked with ?.")
  | [] =>
      match filter (Js.has missing) (inc_subServices inc) with
      | k :: _ =>
          Some ("Unknown field `" ++ k ++ "` for select statement on model `Service`.")
      | [] => None
      end
  end.

Definition with_client (check : ServiceArgs -> ServiceInclude -> option string) : Env :=
  mkEnv (date_of Sample.env) (integer_of Sample.env) (is_email Sample.env)
    (bcrypt_hash Sample.env) (now Sample.env) (cuid Sample.env) check.




(** [{name, description, shortDescription: "Short", priority: 5, images}] *)
Definition create_body : Json :=
  JObj [("name", JStr "Whitening"); ("description", JStr "Teeth whitening");
        ("shortDescription", JStr "Short"); ("priority", JNum 5);
        ("images", JArr [JStr "/w.png"])].

(** [{shortDescription: "New", priority: 9, name: "Scaling"}] *)
Definition update_body : Json :=
  JObj [("shortDescription", JStr "New"); ("priority", JNum 9); ("name", JStr "Scaling")].



End SampleDrift.

(** What stays of the usage table under an update of patient [id]
    with service ids [S]: the rows of other patients and the rows of
    [id] whose service is in [S]. *)
Definition kept (id : string) (S : list string) (u : Prisma.PatientServiceUsage) : bool :=
  negb (Prisma.usage_of id u) || Js.has S (Prisma.pu_serviceId u).

(** The service ids of the usage rows of patient [id]. *)
Definition usage_ids (id : string) (db : Prisma.Db) : list string :=
  map Prisma.pu_serviceId (filter (Prisma.usage_of id) (Prisma.usages db)).

Definition usage_key (u : Prisma.PatientServiceUsage) : string * string :=
  (Prisma.pu_patientId u, Prisma.pu_serviceId u).

(** The unique index on (patientId, serviceId). *)
Definition usage_unique (rows : list Prisma.PatientServiceUsage) : Prop :=
  NoDup (map usage_key rows).

Module SamplePatient.
Import Prisma.

(** [{firstName: "Janet", serviceIds: ["svc2", "svc3", "svc2"]}] *)
Definition update_body : Json :=
  JObj [("firstName", JStr "Janet");
        ("serviceIds", JArr (map JStr ["svc2"; "svc3"; "svc2"]))].

(** [{firstName: "Janet", serviceIds: ["svc3", "svc9"]}]: no service
    [svc9] exists *)
Definition failing_body : Json :=
  JObj [("firstName", JStr "Janet"); ("serviceIds", JArr (map JStr ["svc3"; "svc9"]))].

Definition failing_payload : PatientById.UpdatePayload :=
  PatientById.mkPayload (Some "Janet") None None None None None (Some ["svc3"; "svc9"]).

End SamplePatient.

(** Newest first: each row is at least as late as the rows after it. *)
Definition newest_first {R : Type} (key : R -> Z) (l : list R) : Prop :=
  StronglySorted (fun a b => key b <= key a) l.

(** The value of the first entry of a query string under a key. *)
Inductive first_value (key : string) : list (string * string) -> string -> Prop :=
| first_here (v : string) (rest : list (string * string)) :
    first_value key ((key, v) :: rest) v
| first_later (k v' : string) (rest : list (string * string)) (v : string) :
    k <> key -> first_value key rest v -> first_value key ((k, v') :: rest) v.

(** A parameter the query string gives a value that is not empty. *)
Definition asked (key : string) (query : list (string * string)) (v : string) : Prop :=
  first_value key query v /\ v <> "".

(** What the query string asks of a listed appointment: the status it
    names, when it names one of the enumeration; the patient; a date
    from the [from] bound to the [to] bound, both included. *)
Definition listed (e : Env) (query : list (string * string)) (a : Prisma.Appointment)
    : Prop :=
  (forall s st, asked "status" query s -> status_of_string s = Some st ->
                Prisma.ap_status a = st)
  /\ (forall p, asked "patientId" query p -> Prisma.ap_patientId a = Some p)
  /\ (forall f d, asked "from" query f -> date_of e (JStr f) = Some d ->
                  d <= Prisma.ap_date a)
  /\ (forall t d, asked "to" query t -> date_of e (JStr t) = Some d ->
                  Prisma.ap_date a <= d).

(** The [from] and [to] parameters that are asked are dates. *)
Definition valid_dates (e : Env) (query : list (string * string)) : Prop :=
  forall key v, In key ["from"; "to"] -> asked key query v -> date_of e (JStr v) <> None.

(** No service of the table is its own parent. *)
Definition no_self_parent (db : Prisma.Db) : Prop :=
  forall s, In s (Prisma.services db) -> Prisma.sv_parentId s <> Some (Prisma.sv_id s).

(** The primary key of the appointments. *)
Definition appointment_ids_unique (db : Prisma.Db) : Prop :=
  NoDup (map Prisma.ap_id (Prisma.appointments db)).

Module SampleMore.
Import Prisma.

(** [{patientName: "Late Guest"}] *)
Definition name_only_body : Json := JObj [("patientName", JStr "Late Guest")].

(** [{serviceId: "svc1", patientId: "pat1", date: ..., status: "COMPLETED"}] *)
Definition completed_body : Json :=
  JObj [("serviceId", JStr "svc1"); ("patientId", JStr "pat1");
        ("date", JStr "2025-01-01T10:00:00Z"); ("status", JStr "COMPLETED")].

(** The same with [status: "PENDING"] *)
Definition pending_body : Json :=
  JObj [("serviceId", JStr "svc1"); ("patientId", JStr "pat1");
        ("date", JStr "2025-01-01T10:00:00Z"); ("status", JStr "PENDING")].

(** [?status=COMPLETED] *)
Definition completed_query : list (string * string) := [("status", "COMPLETED")].

(** [?from=yesterday] *)
Definition bad_from_query : list (string * string) := [("from", "yesterday")].

(** [{firstName: "Ann", lastName: "Poe", serviceIds: ["svc1", "svc3", "svc1"]}] *)
Definition new_patient_body : Json :=
  JObj [("firstName", JStr "Ann"); ("lastName", JStr "Poe");
        ("serviceIds", JArr (map JStr ["svc1"; "svc3"; "svc1"]))].

(** [{firstName: "Ann", lastName: "Poe", serviceIds: ["svc1", "svc9"]}] *)
Definition bad_patient_body : Json :=
  JObj [("firstName", JStr "Ann"); ("lastName", JStr "Poe");
        ("serviceIds", JArr (map JStr ["svc1"; "svc9"]))].

(** [{email: "jane@example.com"}] sent to [/api/patients/pat2] *)
Definition taken_email_body : Json := JObj [("email", JStr "jane@example.com")].

(** [?patientId=&from=2025-01-01T10:00:00Z] *)
Definition empty_patient_query : list (string * string) :=
  [("patientId", ""); ("from", "2025-01-01T10:00:00Z")].

(** [{email: "new@example.com", password: "12345"}] *)
Definition short_password_body : Json :=
  JObj [("email", JStr "new@example.com"); ("password", JStr "12345")].

(** [{parentId: "cparent00", name: "Polish"}] sent to [/api/services/cchild000] *)
Definition reparent_body : Json :=
  JObj [("parentId", JStr "cparent00"); ("name", JStr "Polish")].

Definition small_png : Uploads.File :=
  Uploads.mkFile "scan.png" "image/png" [x89; x50].

Definition small_pdf : Uploads.File :=
  Uploads.mkFile "scan.pdf" "application/pdf" [x25; x50].




End SampleMore.

Module PatientCreateTx.
Import Prisma.

(** The body of the create transaction. *)
Definition create_body (e : Env) (p : Patients.PatientPayload)
    : M (Patient * list PatientServiceUsage) :=
  Eff.bind
    (patient_create e
       (mkPatientCreate (Patients.firstName p) (Patients.lastName p)
          (flatten (Patients.phone p)) (flatten (Patients.email p))
          (flatten (Patients.dob p)) (flatten (Patients.notes p))))
    (fun created =>
       Eff.bind
         (when_ (negb (Nat.eqb (length (match Patients.serviceIds p with
                                        | Some l => l
                                        | None => []
                                        end)) 0))
            (usage_createMany e 1
               (map (fun serviceId => (pt_id created, serviceId))
                  (match Patients.serviceIds p with Some l => l | None => [] end))))
         (fun _ => patient_findUniqueOrThrow (pt_id created))).

End PatientCreateTx.

(** The fields the unique indexes of the database name in a P2002. *)
Definition table_targets (err : Prisma.JsError) : Prop :=
  forall f, In f (PatientById.target_fields err) -> In f ["id"; "email"; "phone"].

(** A call throws errors with such targets only. *)
Definition throws_table_targets {A : Type} (m : Prisma.M A) : Prop :=
  forall db err db', m db = (inl err, db') -> table_targets err.

(** No patient other than [id] has the phone number [phone]. *)
Definition phone_is_free (id : string) (phone : option string) (db : Prisma.Db) : Prop :=
  forall r ph, In r (Prisma.patients db) -> Prisma.pt_id r <> id ->
               Prisma.pt_phone r = Some ph -> phone <> Some ph.

(** A field the loop of [handleKnownError] passes over. *)
Definition passed_over (f : string) : Prop :=
  f <> "email" /\ f <> "phone" /\ ~ In f PatientById.OBJECT_PROTOTYPE_KEYS.

(** A call keeps a property of the database, whatever it returns or
    throws. *)
Definition keeps {A : Type} (P : Prisma.Db -> Prop) (m : Prisma.M A) : Prop :=
  forall db r db', P db -> m db = (r, db') -> P db'.

(** The directory the disk fallback of the upload writes to. *)
Definition uploads_dir (w : Uploads.World) : string :=
  if Uploads.serverless w then Uploads.join (Uploads.tmpdir w) "uploads"
  else Uploads.join (Uploads.join (Uploads.cwd w) "public") "uploads".

(** The name the upload gives a file. *)
Definition upload_name (st : Uploads.Stamp) (file : Uploads.File) : string :=
  Uploads.date_now st ++ "-" ++ Uploads.randomUUID st
  ++ Uploads.extname st (Uploads.file_name file).

(** A file within the size limit and of an allowed type. *)
Definition acceptable (file : Uploads.File) : Prop :=
  Z.of_nat (length (Uploads.file_bytes file)) <= Uploads.MAX_FILE_SIZE
  /\ Js.has Uploads.ALLOWED_MIME (Uploads.file_type file) = true.

(** Destructs the scrutinee of the outermost [match] of hypothesis [H]. *)
Ltac step_in H :=
  match type of H with
  | context [match ?x with _ => _ end] =>
      let E := fresh "E" in destruct x eqn:E; try discriminate H
  end.

(* ================================================================= *)
(** ** Strings *)

Section Trim.

Lemma trimStart_head (s : string) :
  Js.trimStart s = "" \/
  exists c r, Js.trimStart s = String c r /\ Js.is_white_space c = false.
Proof.
  induction s as [|c t IH]; simpl; [now left|].
  destruct (Js.is_white_space c) eqn:E; [exact IH|].
  right. now exists c, t.
Qed.

Lemma trimStart_fixed (c : ascii) (r : string) :
  Js.is_white_space c = false -> Js.trimStart (String c r) = String c r.
Proof. intros E. simpl. now rewrite E. Qed.

Lemma trimEnd_head (c : ascii) (r : string) :
  Js.is_white_space c = false -> exists r', Js.trimEnd (String c r) = String c r'.
Proof.
  intros E. simpl. destruct (Js.trimEnd r); rewrite ?E; eauto.
Qed.

Lemma trimEnd_idem (s : string) : Js.trimEnd (Js.trimEnd s) = Js.trimEnd s.
Proof.
  induction s as [|c t IH]; simpl; [reflexivity|].
  destruct (Js.trimEnd t) as [|c' t'] eqn:E.
  - destruct (Js.is_white_space c) eqn:W; simpl; [reflexivity|]. now rewrite W.
  - change (Js.trimEnd (String c (String c' t'))) with
      (match Js.trimEnd (String c' t') with
       | "" => if Js.is_white_space c then "" else String c ""
       | t'' => String c t''
       end).
    now rewrite IH.
Qed.

Lemma trim_idem (s : string) : Js.trim (Js.trim s) = Js.trim s.
Proof.
  unfold Js.trim.
  destruct (trimStart_head s) as [E | (c & r & E & W)]; rewrite E.
  - reflexivity.
  - destruct (trimEnd_head c r W) as [r' E'].
    rewrite E', (trimStart_fixed c r' W), <- E'. apply trimEnd_idem.
Qed.

Lemma truthy_nonempty (s : string) : Js.truthy_string s = true <-> s <> "".
Proof. destruct s; simpl; split; congruence. Qed.

Lemma min1_truthy (s r : string) : Zod.min 1 s = Some r -> r = s /\ Js.truthy_string s = true.
Proof.
  unfold Zod.min. destruct s; simpl; [discriminate|]. intros H. now inversion H.
Qed.

Lemma min1_empty : Zod.min 1 "" = None.
Proof. reflexivity. Qed.

End Trim.

(* ================================================================= *)
(** ** What the schemas let through *)

Section Schemas.

Lemma optional_id_inv (o : option Json) (r : option string) :
  Zod.optional (Zod.then_ Zod.str (Zod.min 1)) o = Some r ->
  (o = None /\ r = None)
  \/ exists s, o = Some (JStr s) /\ r = Some s /\ Js.truthy_string s = true.
Proof.
  destruct o as [v|]; simpl.
  - unfold Zod.then_, Zod.str. destruct v; simpl; try discriminate.
    destruct (Zod.min 1 s) eqn:E; simpl; [|discriminate].
    intros H. inversion H; subst. apply min1_truthy in E as [-> T]. right. eauto.
  - intros H. inversion H. now left.
Qed.

Lemma optional_name_inv (o : option Json) (r : option string) :
  Zod.optional (Zod.then_ (Zod.then_ Zod.str Zod.trimmed) (Zod.min 1)) o = Some r ->
  (o = None /\ r = None)
  \/ exists s, o = Some (JStr s) /\ r = Some (Js.trim s)
               /\ Js.truthy_string (Js.trim s) = true.
Proof.
  destruct o as [v|]; simpl.
  - unfold Zod.then_, Zod.str, Zod.trimmed. destruct v; simpl; try discriminate.
    destruct (Zod.min 1 (Js.trim s)) eqn:E; simpl; [|discriminate].
    intros H. inversion H; subst. apply min1_truthy in E as [-> T]. right. eauto.
  - intros H. inversion H. now left.
Qed.

Lemma optional_absent {A} (p : Zod.Schema A) : Zod.optional p None = Some None.
Proof. reflexivity. Qed.

(** A create body without a usable patient does not pass the
    refinement of the two booking schemas. *)
Lemma no_patient_fields (fs : list (string * Json)) (pid pname : option string) :
  no_patient (JObj fs) ->
  Zod.optional (Zod.then_ Zod.str (Zod.min 1)) (Zod.lookup "patientId" fs) = Some pid ->
  Zod.optional (Zod.then_ (Zod.then_ Zod.str Zod.trimmed) (Zod.min 1))
    (Zod.lookup "patientName" fs) = Some pname ->
  Appointments.refinement pid pname = false.
Proof.
  intros [Hid Hname] Epid Epname. simpl in Hid, Hname.
  rewrite Hid in Epid. inversion Epid; subst pid.
  destruct Hname as [Hn | (s & Hn & Hs)]; rewrite Hn in Epname.
  - inversion Epname. reflexivity.
  - simpl in Epname. unfold Zod.then_, Zod.str, Zod.trimmed in Epname. simpl in Epname.
    rewrite Hs in Epname. discriminate.
Qed.

Lemma sanitize_trimmed (s : string) :
  Js.truthy_string (Js.trim s) = true ->
  Appointments.sanitizePatientName (Some (Js.trim s)) = Some (Js.trim s).
Proof.
  intros T. unfold Appointments.sanitizePatientName, Js.or_undefined.
  now rewrite trim_idem, T.
Qed.

(** What the schemas make of the fields of a well-formed create body. *)
Lemma id_parse (pid : string) :
  pid <> "" -> Zod.optional (Zod.then_ Zod.str (Zod.min 1)) (Some (JStr pid)) = Some (Some pid).
Proof. destruct pid; [congruence | reflexivity]. Qed.

Lemma name_parse (n : string) :
  Js.trim n <> "" ->
  Zod.optional (Zod.then_ (Zod.then_ Zod.str Zod.trimmed) (Zod.min 1)) (Some (JStr n))
  = Some (Some (Js.trim n)).
Proof.
  intros H. simpl. unfold Zod.then_, Zod.str, Zod.trimmed. simpl.
  destruct (Js.trim n); [congruence | reflexivity].
Qed.

Lemma optional_text_parse (v : option Json) (r : option string) :
  optional_text v r -> Zod.optional (Zod.then_ Zod.str (Zod.min 1)) v = Some r.
Proof.
  intros [[-> ->] | (s & -> & H & ->)]; [reflexivity | now apply id_parse].
Qed.

Lemma optional_status_parse (v : option Json) (r : option Prisma.Status) :
  optional_status v r -> Zod.optional status_enum v = Some r.
Proof.
  intros [[-> ->] | (s & st & -> & H & ->)]; [reflexivity|].
  simpl. unfold status_enum, Zod.then_, Zod.str. simpl. now rewrite H.
Qed.

Lemma names_patient_parse (fs : list (string * Json)) (pid pname : option string) :
  names_patient (JObj fs) pid pname ->
  exists pname',
    Zod.optional (Zod.then_ Zod.str (Zod.min 1)) (Zod.lookup "patientId" fs) = Some pid
    /\ Zod.optional (Zod.then_ (Zod.then_ Zod.str Zod.trimmed) (Zod.min 1))
         (Zod.lookup "patientName" fs) = Some pname'
    /\ Appointments.refinement pid pname' = true
    /\ stored_name pid pname' = pname.
Proof.
  intros [i Hi Ti Hn | n Hi Hn Tn]; simpl in *.
  - assert (T : Js.truthy_string i = true) by now apply truthy_nonempty.
    destruct Hn as [Hn | (n & Hn & Tn)]; rewrite Hi, Hn.
    + exists None. rewrite (id_parse i Ti). simpl. now rewrite T.
    + exists (Some (Js.trim n)). rewrite (id_parse i Ti), (name_parse n Tn).
      simpl. now rewrite T.
  - assert (T : Js.truthy_string (Js.trim n) = true) by now apply truthy_nonempty.
    rewrite Hi, Hn. exists (Some (Js.trim n)). rewrite (name_parse n Tn).
    simpl. rewrite T. repeat split. unfold Js.or_undefined. now rewrite trim_idem, T.
Qed.

Lemma names_patient_exactly_one (body : Json) (pid pname : option string)
    (a : Prisma.Appointment) :
  names_patient body pid pname ->
  Prisma.ap_patientId a = pid -> Prisma.ap_customPatientName a = pname ->
  exactly_one a.
Proof.
  intros [i _ _ _ | n _ _ _] Hp Hc; [left | right]; rewrite Hp, Hc; split; congruence.
Qed.

End Schemas.

(* ================================================================= *)
(** ** Creating appointments *)

Section CreateAppointment.
Import Prisma.

(** The parsed payload of the admin create, read against the body. *)
Lemma createSchema_inv (e : Env) (body : Json) (p : Appointments.CreateAppointmentPayload) :
  Appointments.createSchema e body = Some p ->
  exists fs,
    body = JObj fs
    /\ Zod.optional (Zod.then_ Zod.str (Zod.min 1)) (Zod.lookup "patientId" fs)
       = Some (Appointments.patientId p)
    /\ Zod.optional (Zod.then_ (Zod.then_ Zod.str Zod.trimmed) (Zod.min 1))
         (Zod.lookup "patientName" fs) = Some (Appointments.patientName p)
    /\ Zod.optional status_enum (Zod.lookup "status" fs) = Some (Appointments.status_ p)
    /\ Appointments.refinement (Appointments.patientId p) (Appointments.patientName p) = true.
Proof.
  unfold Appointments.createSchema. intros H.
  destruct body; simpl in H; try discriminate.
  repeat step_in H. inversion H; subst; simpl.
  exists fields. repeat split; assumption.
Qed.

(** [prisma.appointment.create] appends the row it returns or throws
    without a change. *)
Lemma appointment_create_cases (e : Env) (data : AppointmentCreateInput) (db : Db) :
  (exists err, appointment_create e data db = (inl err, db))
  \/ appointment_create e data db =
       (inr (mkAppointment (cuid e 0) (ac_patientId data) (ac_customPatientName data)
               (ac_serviceId data) (ac_staffId data) (ac_date data) (ac_status data)
               (ac_notes data)),
        set_appointments db
          (appointments db ++
             [mkAppointment (cuid e 0) (ac_patientId data) (ac_customPatientName data)
                (ac_serviceId data) (ac_staffId data) (ac_date data) (ac_status data)
                (ac_notes data)])).
Proof.
  unfold appointment_create. simpl.
  destruct (exists_id ap_id (appointments db) (cuid e 0)); [left; eexists; reflexivity|].
  destruct (appointment_fk_ok db _); [now right | left; eexists; reflexivity].
Qed.

(** The admin create stores the row of a body that passes the schema
    when the new id is free and the references exist. *)
Lemma admin_POST_stores (e : Env) (body : Json) (db : Db)
    (p : Appointments.CreateAppointmentPayload) :
  Appointments.createSchema e body = Some p ->
  exists_id ap_id (appointments db) (cuid e 0) = false ->
  appointment_fk_ok db (admin_row e p) = true ->
  created db (admin_row e p) (Appointments.POST e body db).
Proof.
  intros E Hid Hfk.
  unfold Appointments.POST, handler, Eff.bind, parse, created. rewrite E. simpl.
  unfold appointment_create. simpl. rewrite Hid.
  unfold admin_row, stored_name in Hfk. simpl in Hfk. rewrite Hfk. reflexivity.
Qed.

(** A well-formed body to the admin create is stored as it reads. *)
Lemma admin_create_stores (e : Env) (body : Json) (db : Db) (sid : string) (d : Z)
    (pid pname staff : option string) (st : option Status) :
  books e body sid d ->
  names_patient body pid pname ->
  optional_text (supplied "staffId" body) staff ->
  optional_status (supplied "status" body) st ->
  can_book e db sid pid staff ->
  created db
    (mkAppointment (cuid e 0) pid pname sid staff d
       (match st with Some s => s | None => BOOKED end) None)
    (Appointments.POST e body db).
Proof.
  intros (Hsid & Tsid & (v & Hd & Hv) & Hnotes) Hp Hstaff Hst (Hid & Hsv & Hpt & Hus).
  destruct body as [| | | | |fs]; try discriminate Hsid. simpl in *.
  destruct (names_patient_parse fs pid pname Hp) as (pname' & Ep & En & Er & Es).
  assert (E : Appointments.createSchema e (JObj fs)
              = Some (Appointments.mkPayload pid pname' sid staff d st None)).
  { unfold Appointments.createSchema. simpl.
    rewrite Ep, En, Hsid, (optional_text_parse _ _ Hstaff), Hd,
      (optional_status_parse _ _ Hst), Hnotes.
    simpl. destruct sid; [congruence|]. simpl. rewrite Hv. simpl. now rewrite Er. }
  pose proof (admin_POST_stores e (JObj fs) db _ E Hid) as C.
  unfold admin_row in C. simpl in C. rewrite Es in C. apply C.
  unfold appointment_fk_ok. simpl. now rewrite Hsv, Hpt, Hus.
Qed.

End CreateAppointment.

Section AdminCreate.
Import Prisma.

Lemma admin_POST_cases (e : Env) (body : Json) (db : Db) :
  rejected 400 "Unable to create appointment" db (Appointments.POST e body db)
  \/ exists p, Appointments.createSchema e body = Some p
               /\ created db (admin_row e p) (Appointments.POST e body db).
Proof.
  unfold Appointments.POST, handler, Eff.bind, parse, rejected, created.
  destruct (Appointments.createSchema e body) as [p|] eqn:E; simpl; [|now left].
  match goal with
  | |- context [appointment_create e ?d db] =>
      destruct (appointment_create_cases e d db) as [[err H] | H]; rewrite H
  end.
  - now left.
  - right. exists p. split; reflexivity.
Qed.

Lemma admin_POST_rejects_unparsed (e : Env) (body : Json) (db : Db) :
  Appointments.createSchema e body = None ->
  rejected 400 "Unable to create appointment" db (Appointments.POST e body db).
Proof.
  intros E. unfold Appointments.POST, handler, Eff.bind, parse, rejected.
  now rewrite E.
Qed.

Lemma created_inj (db : Db) (a b : Appointment) (r : Response * Db) :
  created db a r -> created db b r -> a = b.
Proof. unfold created. intros -> H. now inversion H. Qed.

Lemma created_not_rejected (db : Db) (a : Appointment) (st : Z) (msg : string)
    (r : Response * Db) :
  created db a r -> rejected st msg db r -> False.
Proof. unfold created, rejected. intros -> H. inversion H. Qed.

(** Fields that passed the refinement yield exactly one of the two,
    the patient when both came. *)
Lemma stored_name_cases (fs : list (string * Json)) (pid pname : option string) :
  Zod.optional (Zod.then_ Zod.str (Zod.min 1)) (Zod.lookup "patientId" fs) = Some pid ->
  Zod.optional (Zod.then_ (Zod.then_ Zod.str Zod.trimmed) (Zod.min 1))
    (Zod.lookup "patientName" fs) = Some pname ->
  Appointments.refinement pid pname = true ->
  (exists i, Zod.lookup "patientId" fs = Some (JStr i)
             /\ pid = Some i /\ stored_name pid pname = None)
  \/ (exists n, Zod.lookup "patientId" fs = None
                /\ Zod.lookup "patientName" fs = Some (JStr n)
                /\ pid = None
                /\ stored_name pid pname = Some (Js.trim n)
                /\ Js.trim n <> "").
Proof.
  intros Hid Hname Href. unfold stored_name.
  apply optional_id_inv in Hid as [[Hl Hp] | (i & Hl & Hp & T)]; rewrite Hp in *.
  - right.
    apply optional_name_inv in Hname as [[Hn Hq] | (n & Hn & Hq & Tn)]; rewrite Hq in *.
    + simpl in Href. discriminate.
    + exists n. rewrite (sanitize_trimmed n Tn).
      repeat split; try assumption. now apply truthy_nonempty.
  - left. exists i. rewrite T. repeat split; assumption.
Qed.

(** C1. A well-formed create request to the admin endpoint (a service,
    a date, a patient id or a guest name that is not blank, staff and
    status optional) whose references exist is stored: the answer is
    201 with one new row, which holds the patient id and no guest name
    when the body carries a patient id, also beside a patient name, and
    the trimmed name and no patient id otherwise.  Every create request
    either stores one new row that holds exactly one of patient id and
    guest name, or is answered 400 with the database as before.  When
    the body carries both a patient id and a patient name and a row is
    created, the row holds the patient id and no guest name.  When the
    body carries no patient id and no name that survives trimming, the
    body fails the schema, the request is rejected and nothing is
    stored. *)
Theorem appointment_create_stores_exactly_one (e : Env) (body : Json) (db : Db) :
  (forall sid d pid pname staff st,
      books e body sid d ->
      names_patient body pid pname ->
      optional_text (supplied "staffId" body) staff ->
      optional_status (supplied "status" body) st ->
      can_book e db sid pid staff ->
      created db
        (mkAppointment (cuid e 0) pid pname sid staff d
           (match st with Some s => s | None => BOOKED end) None)
        (Appointments.POST e body db)
      /\ ((pid <> None /\ pname = None) \/ (pid = None /\ pname <> None)))
  /\ ((exists a, created db a (Appointments.POST e body db) /\ exactly_one a)
      \/ rejected 400 "Unable to create appointment" db (Appointments.POST e body db))
  /\ (forall v n a,
        supplied "patientId" body = Some v ->
        supplied "patientName" body = Some n ->
        created db a (Appointments.POST e body db) ->
        exists pid, v = JStr pid /\ ap_patientId a = Some pid
                    /\ ap_customPatientName a = None)
  /\ (no_patient body ->
      Appointments.createSchema e body = None
      /\ rejected 400 "Unable to create appointment" db (Appointments.POST e body db)).
Proof.
  split; [|split; [|split]].
  - intros sid d pid pname staff st B N S T K. split.
    + now apply admin_create_stores.
    + exact (names_patient_exactly_one body pid pname
               (mkAppointment "" pid pname sid staff d BOOKED None) N eq_refl eq_refl).
  - destruct (admin_POST_cases e body db) as [R | (p & E & C)]; [now right|].
    left. exists (admin_row e p). split; [exact C|].
    apply createSchema_inv in E as (fs & -> & Hid & Hname & _ & Href).
    destruct (stored_name_cases fs _ _ Hid Hname Href)
      as [(pid & _ & Hp & Hc) | (n & _ & _ & Hp & Hc & _)]; [left | right];
      unfold admin_row; simpl; rewrite Hc, Hp; split; congruence.
  - intros v n a Hv Hn C.
    destruct (admin_POST_cases e body db) as [R | (p & E & C')].
    { exfalso. eapply created_not_rejected; eassumption. }
    rewrite (created_inj _ _ _ _ C C').
    apply createSchema_inv in E as (fs & -> & Hid & Hname & _ & Href).
    simpl in Hv, Hn.
    destruct (stored_name_cases fs _ _ Hid Hname Href)
      as [(pid & Hl & Hp & Hc) | (m & Hl & _)]; [|congruence].
    exists pid. unfold admin_row; simpl. repeat split; congruence.
  - intros N.
    destruct (Appointments.createSchema e body) as [p|] eqn:E;
      [|split; [reflexivity | now apply admin_POST_rejects_unparsed]].
    apply createSchema_inv in E as (fs & -> & Hid & Hname & _ & Href).
    rewrite (no_patient_fields fs _ _ N Hid Hname) in Href. discriminate.
Qed.

End AdminCreate.

(** C1 on the sample database: the body with patient [pat1] and the
    name "Guest A" is stored as an appointment of [pat1] without a guest
    name, the body with the name alone as an appointment of the guest,
    and the body with a blank name is rejected. *)
Lemma appointment_create_stores_exactly_one_witness :
  created Sample.db
    (Prisma.mkAppointment "cnew00000" (Some "pat1") None "svc1" None 1735725600000
       Prisma.BOOKED None)
    (Appointments.POST Sample.env Sample.both_body Sample.db)
  /\ created Sample.db
       (Prisma.mkAppointment "cnew00000" None (Some "Guest A") "svc1" None 1735725600000
          Prisma.BOOKED None)
       (Appointments.POST Sample.env Sample.guest_body Sample.db)
  /\ rejected 400 "Unable to create appointment" Sample.db
       (Appointments.POST Sample.env Sample.blank_name_body Sample.db).
Proof.
  split; [|split].
  - apply (proj1 (appointment_create_stores_exactly_one
                    Sample.env Sample.both_body Sample.db)
             "svc1" 1735725600000 (Some "pat1") None None None).
    + split; [reflexivity|]. split; [discriminate|].
      split; [|reflexivity]. eexists. split; reflexivity.
    + apply (names_id Sample.both_body "pat1"); [reflexivity | discriminate |].
      right. exists "Guest A". split; [reflexivity | discriminate].
    + left. split; reflexivity.
    + left. split; reflexivity.
    + repeat split; reflexivity.
  - apply (proj1 (appointment_create_stores_exactly_one
                    Sample.env Sample.guest_body Sample.db)
             "svc1" 1735725600000 None (Some (Js.trim "Guest A")) None None).
    + split; [reflexivity|]. split; [discriminate|].
      split; [|reflexivity]. eexists. split; reflexivity.
    + apply (names_guest Sample.guest_body "Guest A");
        [reflexivity | reflexivity | discriminate].
    + left. split; reflexivity.
    + left. split; reflexivity.
    + repeat split; reflexivity.
  - apply (proj2 (proj2 (proj2 (appointment_create_stores_exactly_one
                                  Sample.env Sample.blank_name_body Sample.db)))).
    split; [reflexivity|]. right. exists "   ". split; reflexivity.
Defined.

(* ================================================================= *)
(** ** The status and the guest name of a new appointment *)

Section DefaultStatus.
Import Prisma.

Lemma bookingSchema_inv (e : Env) (body : Json) (p : PublicAppointments.BookingPayload) :
  PublicAppointments.bookingSchema e body = Some p ->
  exists fs,
    body = JObj fs
    /\ Zod.optional (Zod.then_ Zod.str (Zod.min 1)) (Zod.lookup "patientId" fs)
       = Some (PublicAppointments.patientId p)
    /\ Zod.optional (Zod.then_ (Zod.then_ Zod.str Zod.trimmed) (Zod.min 1))
         (Zod.lookup "patientName" fs) = Some (PublicAppointments.patientName p)
    /\ Appointments.refinement (PublicAppointments.patientId p)
         (PublicAppointments.patientName p) = true.
Proof.
  unfold PublicAppointments.bookingSchema. intros H.
  destruct body; simpl in H; try discriminate.
  repeat step_in H. inversion H; subst; simpl.
  exists fields. repeat split; assumption.
Qed.

Lemma public_POST_cases (e : Env) (body : Json) (db : Db) :
  rejected 400 "Unable to create appointment request." db (PublicAppointments.POST e body db)
  \/ exists p, PublicAppointments.bookingSchema e body = Some p
               /\ created db (public_row e p) (PublicAppointments.POST e body db).
Proof.
  unfold PublicAppointments.POST, handler, Eff.bind, parse, rejected, created.
  destruct (PublicAppointments.bookingSchema e body) as [p|] eqn:E; simpl; [|now left].
  match goal with
  | |- context [appointment_create e ?d db] =>
      destruct (appointment_create_cases e d db) as [[err H] | H]; rewrite H
  end.
  - now left.
  - right. exists p. split; reflexivity.
Qed.

(** A guest-only body: a name, no patient id. *)
Lemma guest_only_name (fs : list (string * Json)) (n : string) (pid pname : option string) :
  Zod.lookup "patientId" fs = None ->
  Zod.lookup "patientName" fs = Some (JStr n) ->
  Zod.optional (Zod.then_ Zod.str (Zod.min 1)) (Zod.lookup "patientId" fs) = Some pid ->
  Zod.optional (Zod.then_ (Zod.then_ Zod.str Zod.trimmed) (Zod.min 1))
    (Zod.lookup "patientName" fs) = Some pname ->
  Appointments.refinement pid pname = true ->
  pid = None /\ stored_name pid pname = Some (Js.trim n).
Proof.
  intros Hl Hn Hid Hname Href.
  destruct (stored_name_cases fs pid pname Hid Hname Href)
    as [(i & Hl' & _) | (m & _ & Hn' & Hp & Hc & _)]; [congruence|].
  rewrite Hn in Hn'. inversion Hn'; subst m. now split.
Qed.

(** The public booking stores the row of a body that passes the schema
    when the new id is free and the references exist. *)
Lemma public_POST_stores (e : Env) (body : Json) (db : Db)
    (p : PublicAppointments.BookingPayload) :
  PublicAppointments.bookingSchema e body = Some p ->
  exists_id ap_id (appointments db) (cuid e 0) = false ->
  appointment_fk_ok db (public_row e p) = true ->
  created db (public_row e p) (PublicAppointments.POST e body db).
Proof.
  intros E Hid Hfk.
  unfold PublicAppointments.POST, handler, Eff.bind, parse, created. rewrite E. simpl.
  unfold appointment_create. simpl. rewrite Hid.
  match goal with
  | |- context [appointment_fk_ok db ?r] => change r with (public_row e p)
  end.
  rewrite Hfk. reflexivity.
Qed.

(** A well-formed body to the public booking is stored as it reads,
    whatever it carries under [status] and [staffId]. *)
Lemma public_create_stores (e : Env) (body : Json) (db : Db) (sid : string) (d : Z)
    (pid pname : option string) :
  books e body sid d ->
  names_patient body pid pname ->
  can_book e db sid pid None ->
  created db (mkAppointment (cuid e 0) pid pname sid None d BOOKED None)
    (PublicAppointments.POST e body db).
Proof.
  intros (Hsid & Tsid & (v & Hd & Hv) & Hnotes) Hp (Hid & Hsv & Hpt & _).
  destruct body as [| | | | |fs]; try discriminate Hsid. simpl in *.
  destruct (names_patient_parse fs pid pname Hp) as (pname' & Ep & En & Er & Es).
  assert (E : PublicAppointments.bookingSchema e (JObj fs)
              = Some (PublicAppointments.mkPayload pid pname' sid d None)).
  { unfold PublicAppointments.bookingSchema. simpl.
    rewrite Ep, En, Hsid, Hd, Hnotes.
    simpl. destruct sid; [congruence|]. simpl. rewrite Hv. simpl. now rewrite Er. }
  pose proof (public_POST_stores e (JObj fs) db _ E Hid) as C.
  unfold public_row in C. simpl in C. rewrite Es in C. apply C.
  unfold appointment_fk_ok. simpl. now rewrite Hsv, Hpt.
Qed.

(** C6. A well-formed create whose body has no [status] key is stored
    with status BOOKED on the admin endpoint; a well-formed public
    booking is stored with status BOOKED and without staff whatever the
    body carries under [status] and [staffId]; on both endpoints a body
    with a guest name and no patient id is stored without a patient id
    and with the trimmed name.  Every row either endpoint creates has
    these values. *)
Theorem appointment_create_defaults (e : Env) (body : Json) (db : Db) :
  (forall sid d pid pname staff,
      books e body sid d ->
      names_patient body pid pname ->
      optional_text (supplied "staffId" body) staff ->
      supplied "status" body = None ->
      can_book e db sid pid staff ->
      created db (mkAppointment (cuid e 0) pid pname sid staff d BOOKED None)
        (Appointments.POST e body db))
  /\ (forall sid d pid pname,
        books e body sid d ->
        names_patient body pid pname ->
        can_book e db sid pid None ->
        created db (mkAppointment (cuid e 0) pid pname sid None d BOOKED None)
          (PublicAppointments.POST e body db))
  /\ (forall n pid pname,
        supplied "patientId" body = None ->
        supplied "patientName" body = Some (JStr n) ->
        names_patient body pid pname ->
        pid = None /\ pname = Some (Js.trim n))
  /\ (forall a,
        created db a (Appointments.POST e body db) ->
        (supplied "status" body = None -> ap_status a = BOOKED)
        /\ (forall n, supplied "patientId" body = None ->
                      supplied "patientName" body = Some (JStr n) ->
                      ap_patientId a = None /\ ap_customPatientName a = Some (Js.trim n)))
  /\ (forall a,
        created db a (PublicAppointments.POST e body db) ->
        ap_status a = BOOKED /\ ap_staffId a = None
        /\ (forall n, supplied "patientId" body = None ->
                      supplied "patientName" body = Some (JStr n) ->
                      ap_patientId a = None /\ ap_customPatientName a = Some (Js.trim n))).
Proof.
  split; [|split; [|split; [|split]]].
  - intros sid d pid pname staff B N S T K.
    apply (admin_create_stores e body db sid d pid pname staff None); try assumption.
    left. now split.
  - intros sid d pid pname B N K. now apply public_create_stores.
  - intros n pid pname Hi Hn [i Hi' _ _ | m _ Hm _]; [congruence|].
    rewrite Hn in Hm. inversion Hm. now split.
  - intros a C.
    destruct (admin_POST_cases e body db) as [R | (p & E & C')].
    { exfalso. eapply created_not_rejected; eassumption. }
    rewrite (created_inj _ _ _ _ C C').
    apply createSchema_inv in E as (fs & -> & Hid & Hname & Hst & Href).
    simpl. split.
    + intros Hs. rewrite Hs in Hst. inversion Hst. reflexivity.
    + intros n Hl Hn.
      destruct (guest_only_name fs n _ _ Hl Hn Hid Hname Href) as [Hp Hc].
      now rewrite Hc, Hp.
  - intros a C.
    destruct (public_POST_cases e body db) as [R | (p & E & C')].
    { exfalso. eapply created_not_rejected; eassumption. }
    rewrite (created_inj _ _ _ _ C C').
    apply bookingSchema_inv in E as (fs & -> & Hid & Hname & Href).
    simpl. split; [reflexivity|]. split; [reflexivity|].
    intros n Hl Hn.
    destruct (guest_only_name fs n _ _ Hl Hn Hid Hname Href) as [Hp Hc].
    now rewrite Hc, Hp.
Qed.

End DefaultStatus.

(** C6 on the sample database: the admin endpoint stores the guest
    body with status BOOKED; the public endpoint stores a guest body
    that asks for CANCELLED and a staff member with status BOOKED,
    without staff and with the name trimmed. *)
Lemma appointment_create_defaults_witness :
  created Sample.db
    (Prisma.mkAppointment "cnew00000" None (Some "Guest A") "svc1" None 1735725600000
       Prisma.BOOKED None)
    (Appointments.POST Sample.env Sample.guest_body Sample.db)
  /\ created Sample.db
       (Prisma.mkAppointment "cnew00000" None (Some "Guest A") "svc1" None 1735725600000
          Prisma.BOOKED None)
       (PublicAppointments.POST Sample.env Sample.padded_guest_body Sample.db).
Proof.
  split.
  - apply (proj1 (appointment_create_defaults Sample.env Sample.guest_body Sample.db)
             "svc1" 1735725600000 None (Some (Js.trim "Guest A")) None).
    + split; [reflexivity|]. split; [discriminate|].
      split; [|reflexivity]. eexists. split; reflexivity.
    + apply (names_guest Sample.guest_body "Guest A");
        [reflexivity | reflexivity | discriminate].
    + left. split; reflexivity.
    + reflexivity.
    + repeat split; reflexivity.
  - apply (proj1 (proj2 (appointment_create_defaults Sample.env Sample.padded_guest_body
                           Sample.db))
             "svc1" 1735725600000 None (Some (Js.trim "  Guest A "))).
    + split; [reflexivity|]. split; [discriminate|].
      split; [|reflexivity]. eexists. split; reflexivity.
    + apply (names_guest Sample.padded_guest_body "  Guest A ");
        [reflexivity | reflexivity | discriminate].
    + repeat split; reflexivity.
Defined.

(* ================================================================= *)
(** ** Updating the patient of an appointment *)

Section UpdateAppointment.
Import Prisma.

Lemma nullable_id_inv (o : option Json) (r : option (nullable string)) :
  Zod.optional (Zod.nullable_ (Zod.then_ Zod.str (Zod.min 1))) o = Some r ->
  (o = None /\ r = None)
  \/ (o = Some JNull /\ r = Some Null)
  \/ exists s, o = Some (JStr s) /\ r = Some (NotNull s) /\ Js.truthy_string s = true.
Proof.
  destruct o as [v|]; simpl.
  - unfold Zod.nullable_, Zod.then_, Zod.str. destruct v; simpl; try discriminate.
    + intros H. inversion H. right. now left.
    + destruct (Zod.min 1 s) eqn:E; simpl; [|discriminate].
      intros H. inversion H; subst. apply min1_truthy in E as [-> T].
      right. right. eauto.
  - intros H. inversion H. now left.
Qed.

Lemma nullable_name_inv (o : option Json) (r : option (nullable string)) :
  Zod.optional (Zod.nullable_ (Zod.then_ (Zod.then_ Zod.str Zod.trimmed) (Zod.min 1))) o
    = Some r ->
  (o = None /\ r = None)
  \/ (o = Some JNull /\ r = Some Null)
  \/ exists s, o = Some (JStr s) /\ r = Some (NotNull (Js.trim s))
               /\ Js.truthy_string (Js.trim s) = true.
Proof.
  destruct o as [v|]; simpl.
  - unfold Zod.nullable_, Zod.then_, Zod.str, Zod.trimmed.
    destruct v; simpl; try discriminate.
    + intros H. inversion H. right. now left.
    + destruct (Zod.min 1 (Js.trim s)) eqn:E; simpl; [|discriminate].
      intros H. inversion H; subst. apply min1_truthy in E as [-> T].
      right. right. eauto.
  - intros H. inversion H. now left.
Qed.

Lemma updateSchema_inv (e : Env) (body : Json) (p : AppointmentById.UpdatePayload) :
  AppointmentById.updateSchema e body = Some p ->
  exists fs,
    body = JObj fs
    /\ Zod.optional (Zod.nullable_ (Zod.then_ Zod.str (Zod.min 1)))
         (Zod.lookup "patientId" fs) = Some (AppointmentById.patientId p)
    /\ Zod.optional
         (Zod.nullable_ (Zod.then_ (Zod.then_ Zod.str Zod.trimmed) (Zod.min 1)))
         (Zod.lookup "patientName" fs) = Some (AppointmentById.patientName p).
Proof.
  unfold AppointmentById.updateSchema. intros H.
  destruct body; simpl in H; try discriminate.
  repeat step_in H. inversion H; subst; simpl.
  exists fields. repeat split; assumption.
Qed.

(** A PATCH whose body passes the schema, whose row exists and whose
    updated row has its references is answered 200 with the updated
    row, and no other PATCH is answered 200. *)
Lemma PATCH_stores (e : Env) (id : string) (body : Json) (db : Db)
    (p : AppointmentById.UpdatePayload) (a : Appointment) :
  AppointmentById.updateSchema e body = Some p ->
  find_by ap_id id (appointments db) = Some a ->
  appointment_fk_ok db (appointment_apply a (patch_data p)) = true ->
  updated db id (appointment_apply a (patch_data p)) (AppointmentById.PATCH e id body db).
Proof.
  intros E F K. unfold AppointmentById.PATCH, handler, Eff.bind, parse, updated.
  rewrite E. simpl. unfold appointment_update. rewrite F.
  fold (patch_data p). cbv zeta. rewrite K. reflexivity.
Qed.

Lemma PATCH_ok_only (e : Env) (id : string) (body : Json) (db db' : Db) (a' : Appointment) :
  AppointmentById.PATCH e id body db = (json (AppointmentBody a') 200, db') ->
  exists p a,
    AppointmentById.updateSchema e body = Some p
    /\ find_by ap_id id (appointments db) = Some a
    /\ appointment_fk_ok db (appointment_apply a (patch_data p)) = true
    /\ a' = appointment_apply a (patch_data p)
    /\ db' = set_appointments db (replace_by ap_id id a' (appointments db)).
Proof.
  unfold AppointmentById.PATCH, handler, Eff.bind, parse.
  destruct (AppointmentById.updateSchema e body) as [p|] eqn:E; simpl;
    [|intros H; inversion H].
  unfold appointment_update.
  destruct (find_by ap_id id (appointments db)) as [a|] eqn:F; simpl;
    [|intros H; inversion H].
  fold (patch_data p).
  destruct (appointment_fk_ok db (appointment_apply a (patch_data p))) eqn:K; simpl;
    intros H; inversion H; subst.
  exists p, a. repeat split; assumption.
Qed.

(** The patient id and the guest name of an updated row, read against
    the body that passed the schema. *)
Lemma patch_patient_fields (e : Env) (body : Json) (p : AppointmentById.UpdatePayload)
    (a : Appointment) :
  AppointmentById.updateSchema e body = Some p ->
  let a' := appointment_apply a (patch_data p) in
  (forall pid, supplied "patientId" body = Some (JStr pid) ->
               pid <> "" /\ ap_patientId a' = Some pid /\ ap_customPatientName a' = None)
  /\ (supplied "patientId" body = Some JNull ->
      ap_patientId a' = None
      /\ (forall n, supplied "patientName" body = Some (JStr n) ->
                    ap_customPatientName a' = Some (Js.trim n))
      /\ (supplied "patientName" body = Some JNull -> ap_customPatientName a' = None)
      /\ (supplied "patientName" body = None ->
          ap_customPatientName a' = ap_customPatientName a)).
Proof.
  intros E. apply updateSchema_inv in E as (fs & -> & Hid & Hname).
  simpl. split.
  - intros i Hl.
    apply nullable_id_inv in Hid as [[Hl' _] | [[Hl' _] | (s & Hl' & Hp & T)]];
      try congruence.
    rewrite Hl in Hl'. inversion Hl'; subst s.
    rewrite Hp. unfold AppointmentById.customPatientName. rewrite T. simpl.
    repeat split. now apply truthy_nonempty.
  - intros Hnull.
    assert (Hp : AppointmentById.patientId p = Some Null).
    { apply nullable_id_inv in Hid as [[Hl' _] | [[_ Hp] | (s & Hl' & _ & T)]];
        [congruence | exact Hp | congruence]. }
    rewrite Hp. unfold AppointmentById.customPatientName.
    apply nullable_name_inv in Hname as [[Hn Hq] | [[Hn Hq] | (s & Hn & Hq & T)]];
      rewrite Hq; simpl; repeat split; try congruence.
    intros n Hn'. rewrite Hn in Hn'. inversion Hn'; subst n.
    unfold Js.or_undefined. now rewrite trim_idem, T.
Qed.

(** An empty patient id does not pass the update schema: the request is
    answered 400 and the row stays as it was. *)
Lemma appointment_update_empty_id (e : Env) (id : string) (body : Json) (db : Db) :
  supplied "patientId" body = Some (JStr "") ->
  rejected 400 "Unable to update appointment" db (AppointmentById.PATCH e id body db).
Proof.
  intros Hs. unfold AppointmentById.PATCH, handler, Eff.bind, parse, rejected.
  destruct (AppointmentById.updateSchema e body) as [p|] eqn:E; simpl; [|reflexivity].
  apply updateSchema_inv in E as (fs & -> & Hid & _). simpl in Hs.
  rewrite Hs in Hid. discriminate Hid.
Qed.

(** C4, amended.  An update whose body passes the schema, whose row
    exists and whose updated row has its references is answered 200
    with the updated row stored in place of the old one, and only such
    an update is answered 200.  In the stored row: a body with a
    patient id string (which is then not empty) sets that patient and
    no guest name; a body whose patient id is null clears the patient
    and sets the guest name to the trimmed patient name when the body
    has one, clears it when the patient name is null, and leaves it as
    it was when the body has no patient name.  A body whose patient id
    is the empty string is answered 400 and the row stays as it was. *)
Theorem appointment_update_guest_name (e : Env) (id : string) (body : Json) (db : Db) :
  (forall p a,
      AppointmentById.updateSchema e body = Some p ->
      find_by ap_id id (appointments db) = Some a ->
      appointment_fk_ok db (appointment_apply a (patch_data p)) = true ->
      let a' := appointment_apply a (patch_data p) in
        updated db id a' (AppointmentById.PATCH e id body db)
        /\ (forall pid, supplied "patientId" body = Some (JStr pid) ->
                        pid <> "" /\ ap_patientId a' = Some pid
                        /\ ap_customPatientName a' = None)
        /\ (supplied "patientId" body = Some JNull ->
            ap_patientId a' = None
            /\ (forall n, supplied "patientName" body = Some (JStr n) ->
                          ap_customPatientName a' = Some (Js.trim n))
            /\ (supplied "patientName" body = Some JNull ->
                ap_customPatientName a' = None)
            /\ (supplied "patientName" body = None ->
                ap_customPatientName a' = ap_customPatientName a)))
  /\ (forall a' db',
        AppointmentById.PATCH e id body db = (json (AppointmentBody a') 200, db') ->
        exists p a,
          AppointmentById.updateSchema e body = Some p
          /\ find_by ap_id id (appointments db) = Some a
          /\ appointment_fk_ok db (appointment_apply a (patch_data p)) = true
          /\ a' = appointment_apply a (patch_data p)
          /\ db' = set_appointments db (replace_by ap_id id a' (appointments db)))
  /\ (supplied "patientId" body = Some (JStr "") ->
      rejected 400 "Unable to update appointment" db (AppointmentById.PATCH e id body db)).
Proof.
  split; [|split].
  - intros p a E F K.
    split; [now apply PATCH_stores|]. exact (patch_patient_fields e body p a E).
  - intros a' db'. apply PATCH_ok_only.
  - apply appointment_update_empty_id.
Qed.

(** C4 as the specification has it fails at the empty patient id: the
    body [{patientId: "", patientName: "Bob"}] sent for the guest
    appointment [apt1] is answered 400, and the guest name of [apt1] is
    not set from the patient name; it stays "Guest A". *)
Lemma appointment_update_empty_id_keeps_name :
  supplied "patientId" SampleUpdate.empty_id_body = Some (JStr "")
  /\ supplied "patientName" SampleUpdate.empty_id_body = Some (JStr "Bob")
  /\ rejected 400 "Unable to update appointment" Sample.db
       (AppointmentById.PATCH Sample.env "apt1" SampleUpdate.empty_id_body Sample.db)
  /\ ~ guest_name_from_body Sample.env "apt1" SampleUpdate.empty_id_body Sample.db.
Proof.
  split; [reflexivity|]. split; [reflexivity|]. split; [reflexivity|].
  intros H. destruct (H "Bob" eq_refl) as (a' & F & N).
  vm_compute in F. inversion F; subst a'. discriminate N.
Qed.

End UpdateAppointment.

(** C4 on the sample database: [{patientId: "pat2"}] turns the guest
    appointment [apt1] into an appointment of [pat2] without a guest
    name; [{patientId: null, patientName: " Walk In "}] turns the
    patient appointment [apt2] into one of the guest "Walk In";
    [{patientId: null}] leaves the guest name of [apt1] as it was. *)
Lemma appointment_update_guest_name_witness :
  updated Sample.db "apt1"
    (Prisma.mkAppointment "apt1" (Some "pat2") None "svc1" None 1735725600000
       Prisma.BOOKED None)
    (AppointmentById.PATCH Sample.env "apt1" SampleUpdate.to_patient_body Sample.db)
  /\ updated Sample.db "apt2"
       (Prisma.mkAppointment "apt2" None (Some "Walk In") "svc2" None 1735812000000
          Prisma.COMPLETED None)
       (AppointmentById.PATCH Sample.env "apt2" SampleUpdate.to_guest_body Sample.db)
  /\ updated Sample.db "apt1"
       (Prisma.mkAppointment "apt1" None (Some "Guest A") "svc1" None 1735725600000
          Prisma.BOOKED None)
       (AppointmentById.PATCH Sample.env "apt1" SampleUpdate.detach_body Sample.db).
Proof.
  split; [|split].
  - destruct (proj1 (appointment_update_guest_name Sample.env "apt1"
                       SampleUpdate.to_patient_body Sample.db) _ _ eq_refl eq_refl eq_refl)
      as (U & _).
    exact U.
  - destruct (proj1 (appointment_update_guest_name Sample.env "apt2"
                       SampleUpdate.to_guest_body Sample.db) _ _ eq_refl eq_refl eq_refl)
      as (U & _).
    exact U.
  - destruct (proj1 (appointment_update_guest_name Sample.env "apt1"
                       SampleUpdate.detach_body Sample.db) _ _ eq_refl eq_refl eq_refl)
      as (U & _).
    exact U.
Defined.

(* ================================================================= *)
(** ** Listing appointments *)

Section ListAppointments.
Import Prisma.

Lemma get_without_other (k key : string) (query : list (string * string)) :
  String.eqb k key = false ->
  Appointments.searchParams_get k (without key query) = Appointments.searchParams_get k query.
Proof.
  intros N. induction query as [|[k' v] q IH]; simpl; [reflexivity|].
  destruct (String.eqb_spec k' key) as [-> | D]; simpl.
  - rewrite String.eqb_sym, N. exact IH.
  - destruct (String.eqb k' k); [reflexivity | exact IH].
Qed.

Lemma get_without_same (key : string) (query : list (string * string)) :
  Appointments.searchParams_get key (without key query) = None.
Proof.
  induction query as [|[k' v] q IH]; simpl; [reflexivity|].
  destruct (String.eqb k' key) eqn:E; simpl; [exact IH|]. now rewrite E.
Qed.

Lemma status_filter_unknown (s : string) :
  Js.has STATUS_ENUM s = false -> Appointments.status_filter (Some s) = None.
Proof.
  intros H. unfold Appointments.status_filter. rewrite H.
  now rewrite andb_false_r.
Qed.

(** C10. A listing whose [status] parameter is none of the four values
    is answered as the same request without that parameter: the status
    does not filter and the answer is never a 400. *)
Theorem appointment_list_ignores_unknown_status
    (e : Env) (query : list (string * string)) (db : Db) (s : string) :
  Appointments.searchParams_get "status" query = Some s ->
  Js.has STATUS_ENUM s = false ->
  Appointments.GET e query db = Appointments.GET e (without "status" query) db
  /\ status (fst (Appointments.GET e query db)) <> 400
  /\ forall l, payload (fst (Appointments.GET e query db)) = AppointmentsBody l ->
               exists w, w_status w = None
                         /\ l = order_by_desc ap_date
                                  (filter (appointment_matches w) (appointments db)).
Proof.
  intros Hs Hbad.
  assert (Eq : Appointments.GET e query db = Appointments.GET e (without "status" query) db).
  { unfold Appointments.GET.
    rewrite get_without_same, Hs, (status_filter_unknown s Hbad).
    rewrite !get_without_other by reflexivity. reflexivity. }
  split; [exact Eq|].
  unfold Appointments.GET, handler.
  rewrite Hs, (status_filter_unknown s Hbad).
  destruct (Appointments.date_param e (Appointments.searchParams_get "from" query));
    [destruct (Appointments.date_param e (Appointments.searchParams_get "to" query))|];
    simpl; (split; [discriminate|]); intros l Hl; inversion Hl.
  eexists. split; [|reflexivity]. reflexivity.
Qed.

End ListAppointments.

(** C10 at [?status=PENDING&patientId=pat1]. *)
Lemma appointment_list_ignores_unknown_status_witness :
  Appointments.GET Sample.env SampleQuery.bad_status Sample.db
  = Appointments.GET Sample.env [("patientId", "pat1")] Sample.db
  /\ fst (Appointments.GET Sample.env SampleQuery.bad_status Sample.db)
     = json (AppointmentsBody
               [Prisma.mkAppointment "apt2" (Some "pat1") None "svc2" None 1735812000000
                  Prisma.COMPLETED None]) 200.
Proof.
  split.
  - apply (appointment_list_ignores_unknown_status Sample.env SampleQuery.bad_status
             Sample.db "PENDING"); reflexivity.
  - reflexivity.
Defined.

(* ================================================================= *)
(** ** A service is not its own parent *)

Section OwnParent.
Import Prisma.

Lemma cuid_truthy (s : string) : Zod.is_cuid s = true -> Js.truthy_string s = true.
Proof. destruct s; simpl; [discriminate | reflexivity]. Qed.

Lemma service_updateSchema_parent (e : Env) (fs : list (string * Json)) (id : string)
    (p : ServiceById.UpdatePayload) :
  Zod.lookup "parentId" fs = Some (JStr id) ->
  ServiceById.updateSchema e (JObj fs) = Some p ->
  ServiceById.parentId p = Some (NotNull id) /\ Zod.is_cuid id = true.
Proof.
  intros Hl H. unfold ServiceById.updateSchema in H. simpl in H.
  repeat step_in H. inversion H; subst; simpl.
  match goal with
  | Hp : Zod.optional _ (Zod.lookup "parentId" fs) = Some _ |- _ =>
      rewrite Hl in Hp; simpl in Hp;
      unfold Zod.nullable_, Zod.then_, Zod.str, Zod.check in Hp; simpl in Hp;
      destruct (Zod.is_cuid id) eqn:C; simpl in Hp; [|discriminate Hp];
      inversion Hp; subst
  end.
  now split.
Qed.

(** C7. An update whose body names the service itself as parent is
    answered 400 and changes nothing. *)
Theorem service_update_rejects_own_parent (e : Env) (id : string) (body : Json) (db : Db) :
  supplied "parentId" body = Some (JStr id) ->
  (rejected 400 "A service cannot be its own parent" db (ServiceById.PATCH e id body db)
   \/ rejected 400 "Unable to update service" db (ServiceById.PATCH e id body db))
  /\ status (fst (ServiceById.PATCH e id body db)) = 400
  /\ snd (ServiceById.PATCH e id body db) = db.
Proof.
  intros Hs.
  assert (H : rejected 400 "A service cannot be its own parent" db
                (ServiceById.PATCH e id body db)
              \/ rejected 400 "Unable to update service" db (ServiceById.PATCH e id body db)).
  { unfold ServiceById.PATCH, handler, Eff.bind, parse, rejected.
    destruct (ServiceById.updateSchema e body) as [p|] eqn:E; simpl; [|now right].
    destruct body; simpl in Hs; try discriminate.
    destruct (service_updateSchema_parent e fields id p Hs E) as [Hp C].
    unfold ServiceById.own_parent. rewrite Hp, (cuid_truthy id C), String.eqb_refl.
    simpl. now left. }
  split; [exact H|].
  destruct H as [H | H]; rewrite H; split; reflexivity.
Qed.

End OwnParent.

(** C7 at the sample service [cchild000]. *)
Lemma service_update_rejects_own_parent_witness :
  rejected 400 "A service cannot be its own parent" SampleService.db
    (ServiceById.PATCH Sample.env "cchild000" SampleService.own_parent_body SampleService.db).
Proof.
  destruct (service_update_rejects_own_parent Sample.env "cchild000"
              SampleService.own_parent_body SampleService.db eq_refl) as [[H | H] _].
  - exact H.
  - discriminate H.
Defined.

(* ================================================================= *)
(** ** Creating a user whose e-mail is taken *)

Section DuplicateEmail.
Import Prisma.

(** The create of a user whose e-mail is in the table throws P2002 on
    [email], unless the generated id is taken as well. *)
Lemma user_create_duplicate (e : Env) (data : UserCreateInput) (db : Db) :
  existsb (fun u => String.eqb (us_email u) (uc_email data)) (users db) = true ->
  exists f, user_create e data db = (inl (P2002 f), db).
Proof.
  intros D. unfold user_create. simpl.
  destruct (exists_id us_id (users db) (cuid e 0)); [now exists "id"|].
  rewrite D. now exists "email".
Qed.

(** Whatever is thrown, the users handler answers 400 with its one
    message; a taken e-mail leaves the table as it was. *)
Lemma users_POST_duplicate (e : Env) (body : Json) (db : Db) (p : Users.CreatePayload) :
  Users.createSchema e body = Some p ->
  existsb (fun u => String.eqb (us_email u) (Users.email p)) (users db) = true ->
  rejected 400 "Unable to create user" db (Users.POST e body db).
Proof.
  intros E D. unfold Users.POST, handler, Eff.bind, parse, rejected. rewrite E. simpl.
  match goal with
  | |- context [user_create e ?d db] =>
      destruct (user_create_duplicate e d db D) as [f H]; rewrite H
  end.
  reflexivity.
Qed.

(** C5, evaluated.  With [admin@example.com] in the users table, a
    create for that e-mail makes [prisma.user.create] throw P2002 on
    [email]; the users handler answers 400 "Unable to create user";
    [handleKnownError] of the patients routes maps the same error to
    409 "Email already in use.", which is what the patients create
    answers for a taken patient e-mail. *)
Theorem user_create_duplicate_email :
  Users.POST Sample.env SampleUser.duplicate_body Sample.db
  = (json (ErrorBody "Unable to create user") 400, Sample.db)
  /\ user_create Sample.env
       (mkUserCreate "admin@example.com" None STAFF "$2a$10$secret1") Sample.db
     = (inl (P2002 "email"), Sample.db)
  /\ Patients.handleKnownError (P2002 "email")
     = Some (json (ErrorBody "Email already in use.") 409)
  /\ Patients.POST Sample.env SampleUser.duplicate_patient_body Sample.db
     = (json (ErrorBody "Email already in use.") 409, Sample.db).
Proof. repeat split. Qed.

End DuplicateEmail.

(* ================================================================= *)
(** ** Uploads above the size limit *)

Section UploadLimit.
Import Uploads.

Lemma saveFile_too_large (st : Stamp) (file : File) (w : World) :
  MAX_FILE_SIZE < Z.of_nat (length (file_bytes file)) ->
  saveFile st file w = (inl "File too large", w).
Proof.
  intros H. unfold saveFile.
  apply Z.ltb_lt in H. rewrite H. reflexivity.
Qed.

(** C8. A file of more than [MAX_FILE_SIZE] bytes is answered 400
    "File too large"; the blob store and the disk are as before, for
    every backend and every file type. *)
Theorem upload_rejects_large_file
    (st : Stamp) (form : list (string * FormValue)) (file : File) (w : World) :
  formData_get "file" form = Some (FormFile file) ->
  MAX_FILE_SIZE < Z.of_nat (length (file_bytes file)) ->
  POST st form w = (json (ErrorBody "File too large") 400, w)
  /\ blob_objects (snd (POST st form w)) = blob_objects w
  /\ disk (snd (POST st form w)) = disk w.
Proof.
  intros Hf Hsize.
  assert (E : POST st form w = (json (ErrorBody "File too large") 400, w)).
  { unfold POST. rewrite Hf, (saveFile_too_large st file w Hsize). reflexivity. }
  rewrite E. repeat split.
Qed.

(** Below the limit the same request does write: the check is what
    keeps the large file out. *)
Lemma upload_stores_small_file :
  POST SampleUpload.stamp
    [("file", FormFile (mkFile "scan.png" "image/png" [x89; x50]))] SampleUpload.world
  = (json (UrlBody "https://blob.example/uploads/1767225600000-3f2b.png") 201,
     set_blob_objects SampleUpload.world
       [("uploads/1767225600000-3f2b.png", [x89; x50])]).
Proof. reflexivity. Qed.

End UploadLimit.

(** C8 at a PNG of 4194305 bytes. *)
Lemma upload_rejects_large_file_witness :
  Uploads.POST SampleUpload.stamp [("file", Uploads.FormFile SampleUpload.big_file)]
    SampleUpload.world
  = (json (ErrorBody "File too large") 400, SampleUpload.world).
Proof.
  apply (upload_rejects_large_file SampleUpload.stamp
           [("file", Uploads.FormFile SampleUpload.big_file)]
           SampleUpload.big_file SampleUpload.world).
  - reflexivity.
  - vm_compute. reflexivity.
Defined.

(* ================================================================= *)
(** ** The retry of the service handlers *)

Section ServiceRetry.
Import Prisma.











(** On a generated client that lacks the [shortDescription] column the
    retry of the three handlers fails as the first attempt did: the
    [include] they pass selects [shortDescription] on [subServices]. *)
Lemma service_retry_needs_shortDescription (d : ServiceArgs) :
  d_shortDescription d = None -> d_priority d = None ->
  SampleDrift.client_lacking ["shortDescription"] d Services.baseIncludes
  = Some "Unknown field `shortDescription` for select statement on model `Service`.".
Proof. intros Hs Hp. unfold SampleDrift.client_lacking, SampleDrift.data_keys. now rewrite Hs, Hp. Qed.

Lemma services_POST_stale_client (body : Json) (db : Db) :
  Services.POST (SampleDrift.with_client (SampleDrift.client_lacking ["shortDescription"]))
    body db
  = (json (ErrorBody "Unable to create service") 400, db).
Proof.
  unfold Services.POST, handler, Eff.bind, parse, try_catch, Eff.try_catch.
  destruct (Services.serviceSchema _ body) as [p|]; [|reflexivity].
  unfold service_create, SampleDrift.client_lacking, SampleDrift.data_keys. simpl.
  destruct (Services.shortDescription p) as [[|v]|]; reflexivity.
Qed.



End ServiceRetry.


(* ================================================================= *)
(** ** Sets of service ids and the usage table *)

Section UsageTable.
Import Prisma.

Lemma has_In (l : list string) (x : string) : Js.has l x = true <-> In x l.
Proof.
  unfold Js.has. rewrite existsb_exists. split.
  - intros (y & Hy & E). apply String.eqb_eq in E. now subst.
  - intros H. exists x. split; [exact H | apply String.eqb_refl].
Qed.

Lemma has_false (l : list string) (x : string) : Js.has l x = false <-> ~ In x l.
Proof.
  rewrite <- has_In. destruct (Js.has l x); split; congruence.
Qed.

Lemma set_add_In (x y : string) (seen : list string) :
  In y (Js.set_add x seen) <-> y = x \/ In y seen.
Proof.
  induction seen as [|z r IH]; simpl.
  - intuition.
  - destruct (String.eqb_spec x z) as [-> | D]; simpl.
    + intuition.
    + rewrite IH. intuition.
Qed.

Lemma new_Set_acc (l acc : list string) (y : string) :
  In y (fold_left (fun a x => Js.set_add x a) l acc) <-> In y l \/ In y acc.
Proof.
  revert acc. induction l as [|x r IH]; intros acc; simpl.
  - intuition.
  - rewrite IH, set_add_In. intuition.
Qed.

Lemma new_Set_In (l : list string) (y : string) : In y (Js.new_Set l) <-> In y l.
Proof.
  unfold Js.new_Set. rewrite new_Set_acc. simpl. intuition.
Qed.

Lemma has_new_Set (l : list string) (y : string) : Js.has (Js.new_Set l) y = Js.has l y.
Proof.
  destruct (Js.has l y) eqn:E.
  - apply has_In, new_Set_In, has_In, E.
  - apply has_false. rewrite new_Set_In. now apply has_false.
Qed.

Lemma clash_app (a b : list PatientServiceUsage) (pid sid : string) :
  usage_clash (a ++ b) pid sid = usage_clash a pid sid || usage_clash b pid sid.
Proof. unfold usage_clash. apply existsb_app. Qed.

Lemma clash_In (rows : list PatientServiceUsage) (pid sid : string) :
  usage_clash rows pid sid = true <-> In (pid, sid) (map usage_key rows).
Proof.
  unfold usage_clash, usage_of. rewrite existsb_exists, in_map_iff. split.
  - intros (u & Hu & E). apply andb_true_iff in E as [E1 E2].
    apply String.eqb_eq in E1, E2. exists u. unfold usage_key. now subst.
  - intros (u & E & Hu). inversion E; subst. exists u.
    now rewrite !String.eqb_refl.
Qed.

Lemma clash_false (rows : list PatientServiceUsage) (pid sid : string) :
  usage_clash rows pid sid = false <-> ~ In (pid, sid) (map usage_key rows).
Proof.
  rewrite <- clash_In. destruct (usage_clash rows pid sid); split; congruence.
Qed.

(** A usage row of the patient with the service: what a clash is. *)
Lemma clash_row (rows : list PatientServiceUsage) (pid sid : string) :
  usage_clash rows pid sid = true <->
  exists u, In u rows /\ usage_of pid u = true /\ pu_serviceId u = sid.
Proof.
  unfold usage_clash. rewrite existsb_exists. split.
  - intros (u & Hu & E). apply andb_true_iff in E as [E1 E2].
    apply String.eqb_eq in E2. eauto.
  - intros (u & Hu & E1 & <-). exists u. now rewrite E1, String.eqb_refl.
Qed.

(** One [createMany]: the table grows at its end by rows stamped with
    the clock, only for pairs of the data that were not there, and
    afterwards every pair of the data is there. *)
Lemma insert_all_spec (e : Env) (db : Db) (data : list (string * string)) :
  forall (k : nat) (rows rows' : list PatientServiceUsage),
    usage_insert_all e db k data rows = Some rows' ->
    exists added,
      rows' = (rows ++ added)%list
      /\ (forall u, In u added ->
            In (usage_key u) data /\ pu_usedAt u = now e
            /\ usage_clash rows (pu_patientId u) (pu_serviceId u) = false)
      /\ (forall pid sid, In (pid, sid) data -> usage_clash rows' pid sid = true)
      /\ (usage_unique rows -> usage_unique rows').
Proof.
  induction data as [|[pid sid] rest IH]; intros k rows rows' H; simpl in H.
  - inversion H; subst. exists []. rewrite app_nil_r.
    split; [reflexivity|]. split; [intros u []|]. split; [intros ? ? []|auto].
  - destruct (usage_clash rows pid sid) eqn:C.
    + destruct (IH _ _ _ H) as (added & -> & Hadd & Hall & Huniq).
      exists added. split; [reflexivity|]. split; [|split; [|exact Huniq]].
      * intros u Hu. destruct (Hadd u Hu) as (H1 & H2 & H3).
        split; [now right|]. now split.
      * intros p s' [E | Hin]; [|now apply Hall].
        inversion E; subst. rewrite clash_app, C. reflexivity.
    + destruct (exists_id pt_id (patients db) pid && exists_id sv_id (services db) sid);
        [|discriminate].
      destruct (IH _ _ _ H) as (added & -> & Hadd & Hall & Huniq).
      set (new := mkUsage (cuid e k) pid sid (now e)) in *.
      exists (new :: added). rewrite <- app_assoc. simpl.
      split; [reflexivity|]. split; [|split].
      * intros u [<- | Hin].
        -- split; [now left|]. split; [reflexivity | exact C].
        -- destruct (Hadd u Hin) as (H1 & H2 & H3).
           split; [now right|]. split; [exact H2|].
           rewrite clash_app in H3. now apply orb_false_iff in H3 as [H3 _].
      * intros p s' Hin. rewrite <- app_assoc in Hall. simpl in Hall.
        destruct Hin as [E | Hin]; [|now apply Hall].
        inversion E; subst p s'. rewrite clash_app. simpl.
        unfold usage_of. simpl. rewrite !String.eqb_refl. simpl.
        now rewrite orb_true_r.
      * intros U. rewrite <- app_assoc in Huniq. apply Huniq.
        unfold usage_unique. rewrite map_app. apply NoDup_app.
        -- exact U.
        -- simpl. constructor; [intros [] | constructor].
        -- intros a Ha [<- | []]. apply clash_false in C. contradiction.
Qed.

Lemma unique_filter (f : PatientServiceUsage -> bool) (rows : list PatientServiceUsage) :
  usage_unique rows -> usage_unique (filter f rows).
Proof.
  unfold usage_unique. induction rows as [|u r IH]; simpl; [auto|].
  intros U. apply NoDup_cons_iff in U as [N U].
  destruct (f u); simpl; [|now apply IH].
  constructor; [|now apply IH].
  intros Hin. apply N. apply in_map_iff in Hin as (v & E & Hv).
  apply filter_In in Hv as [Hv _]. apply in_map_iff. eauto.
Qed.

End UsageTable.

(* ================================================================= *)
(** ** Reconciling the service usage of a patient *)

Section Reconcile.
Import Prisma.

Lemma bind_ok {S E A B : Type} (m : Eff.t S E A) (k : A -> Eff.t S E B)
    (s s' : S) (b : B) :
  Eff.bind m k s = (inr b, s') ->
  exists a s1, m s = (inr a, s1) /\ k a s1 = (inr b, s').
Proof.
  unfold Eff.bind. destruct (m s) as [[err | a] s1]; [discriminate|]. eauto.
Qed.

Lemma patient_update_usages (id : string) (data : PatientUpdateInput) (db db1 : Db)
    (p : Patient) :
  patient_update id data db = (inr p, db1) -> usages db1 = usages db.
Proof.
  unfold patient_update. intros H. repeat step_in H. inversion H. reflexivity.
Qed.

Lemma filter_all {A : Type} (f : A -> bool) (l : list A) :
  (forall x, In x l -> f x = true) -> filter f l = l.
Proof.
  induction l as [|x r IH]; simpl; [reflexivity|]. intros H.
  rewrite (H x (or_introl eq_refl)), IH; [reflexivity|]. intros y Hy. apply H. now right.
Qed.

Lemma length_zero {A : Type} (l : list A) : negb (Nat.eqb (length l) 0) = false -> l = [].
Proof. destruct l; simpl; [reflexivity | discriminate]. Qed.

(** The delete step, run or skipped, leaves the rows the [deleteMany]
    filter keeps. *)
Lemma delete_step (id : string) (toDelete : list string) (db1 db2 : Db) :
  when_ (negb (Nat.eqb (length toDelete) 0)) (usage_deleteMany id toDelete) db1
    = (inr tt, db2) ->
  usages db2 =
    filter (fun u => negb (usage_of id u && Js.has toDelete (pu_serviceId u))) (usages db1).
Proof.
  unfold when_, Eff.when_.
  destruct (negb (Nat.eqb (length toDelete) 0)) eqn:B.
  - unfold usage_deleteMany. intros H. inversion H. reflexivity.
  - apply length_zero in B. subst toDelete. unfold Eff.ret. intros H. inversion H; subst.
    symmetry. apply filter_all. intros u _. simpl. now rewrite andb_false_r.
Qed.

(** On the rows of the table, the [deleteMany] filter keeps what
    [kept] keeps. *)
Lemma delete_keeps (id : string) (S : list string) (rows : list PatientServiceUsage) :
  let existingIds := Js.new_Set (map pu_serviceId (filter (usage_of id) rows)) in
  let incomingIds := Js.new_Set S in
  let toDelete := filter (fun i => negb (Js.has incomingIds i)) existingIds in
  filter (fun u => negb (usage_of id u && Js.has toDelete (pu_serviceId u))) rows
  = filter (kept id S) rows.
Proof.
  intros existingIds incomingIds toDelete. apply filter_ext_in. intros u Hu.
  unfold kept. destruct (usage_of id u) eqn:O; simpl; [|reflexivity].
  assert (Hex : In (pu_serviceId u) existingIds).
  { apply new_Set_In, in_map, filter_In. now split. }
  destruct (Js.has S (pu_serviceId u)) eqn:HS; simpl.
  - apply negb_true_iff, has_false. intros Hin.
    apply filter_In in Hin as [_ Hin]. unfold incomingIds in Hin.
    rewrite has_new_Set, HS in Hin. discriminate.
  - apply negb_false_iff, has_In, filter_In. split; [exact Hex|].
    unfold incomingIds. now rewrite has_new_Set, HS.
Qed.

(** The create step, run or skipped. *)
Lemma create_step (e : Env) (data : list (string * string)) (b : bool) (db2 db3 : Db) :
  when_ b (usage_createMany e 0 data) db2 = (inr tt, db3) ->
  (b = false -> data = []) ->
  exists added,
    usages db3 = (usages db2 ++ added)%list
    /\ (forall u, In u added ->
          In (usage_key u) data /\ pu_usedAt u = now e
          /\ usage_clash (usages db2) (pu_patientId u) (pu_serviceId u) = false)
    /\ (forall pid sid, In (pid, sid) data -> usage_clash (usages db3) pid sid = true)
    /\ (usage_unique (usages db2) -> usage_unique (usages db3)).
Proof.
  unfold when_, Eff.when_. destruct b.
  - intros H _. unfold usage_createMany in H.
    destruct (usage_insert_all e db2 0 data (usages db2)) as [rows|] eqn:I;
      [|discriminate].
    inversion H; subst. simpl. exact (insert_all_spec e db2 data 0 _ _ I).
  - intros H D. rewrite (D eq_refl). inversion H; subst. exists [].
    rewrite app_nil_r. split; [reflexivity|]. split; [intros u []|].
    split; [intros ? ? []|auto].
Qed.

Lemma find_step (id : string) (db3 db' : Db) (r : Patient * list PatientServiceUsage) :
  patient_findUniqueOrThrow id db3 = (inr r, db') ->
  db' = db3 /\ snd r = order_by_desc pu_usedAt (filter (usage_of id) (usages db3)).
Proof.
  unfold patient_findUniqueOrThrow. intros H. step_in H. inversion H. now split.
Qed.

(** The usage table after a reconciliation that went through. *)
Lemma reconcile_usages (e : Env) (id : string) (p : PatientById.UpdatePayload)
    (S : list string) (db db' : Db) (r : Patient * list PatientServiceUsage) :
  PatientById.serviceIds p = Some S ->
  PatientById.reconcile e id p db = (inr r, db') ->
  exists added,
    usages db' = (filter (kept id S) (usages db) ++ added)%list
    /\ (forall u, In u added ->
          pu_patientId u = id /\ In (pu_serviceId u) S /\ pu_usedAt u = now e
          /\ usage_clash (usages db) id (pu_serviceId u) = false)
    /\ (forall sid, In sid S -> usage_clash (usages db') id sid = true)
    /\ (usage_unique (usages db) -> usage_unique (usages db'))
    /\ snd r = order_by_desc pu_usedAt (filter (usage_of id) (usages db')).
Proof.
  intros HS H. unfold PatientById.reconcile in H. rewrite HS in H.
  apply bind_ok in H as (p1 & db1 & H1 & H).
  apply patient_update_usages in H1.
  apply bind_ok in H as ([] & db3 & H & Hfind).
  apply bind_ok in H as (existing & db1' & Hf & H).
  unfold usage_findMany in Hf. inversion Hf; subst existing db1'. clear Hf.
  apply bind_ok in H as ([] & db2 & Hdel & Hcre).
  apply delete_step in Hdel. rewrite delete_keeps, H1 in Hdel.
  apply create_step in Hcre as (added & Hrows & Hadd & Hall & Huniq).
  2:{ intros B. apply length_zero in B. now rewrite B. }
  apply find_step in Hfind as [-> Hsnd].
  exists added. rewrite Hrows, Hdel. split; [reflexivity|].
  rewrite H1 in Hadd, Hall.
  split; [|split; [|split]].
  - intros u Hu. destruct (Hadd u Hu) as (Hin & Hnow & _).
    apply in_map_iff in Hin as (sid & E & Hin). unfold usage_key in E.
    inversion E; subst. apply filter_In in Hin as [Hin Hnew].
    split; [reflexivity|]. split; [exact (proj1 (new_Set_In S _) Hin)|]. split; [exact Hnow|].
    apply negb_true_iff in Hnew. rewrite has_new_Set in Hnew.
    apply has_false in Hnew.
    destruct (usage_clash (usages db) (pu_patientId u) (pu_serviceId u)) eqn:C;
      [|reflexivity].
    exfalso. apply Hnew. apply clash_row in C as (v & Hv & Ov & Ev).
    rewrite <- Ev. apply in_map, filter_In. now split.
  - intros sid Hin. rewrite <- Hdel, <- Hrows.
    destruct (Js.has (Js.new_Set (map pu_serviceId (filter (usage_of id) (usages db)))) sid)
      eqn:X.
    + rewrite has_new_Set in X. apply has_In, in_map_iff in X as (v & Ev & Hv).
      apply filter_In in Hv as [Hv Ov].
      rewrite Hrows, Hdel, clash_app. apply orb_true_iff. left.
      apply clash_row. exists v. split; [|now split].
      apply filter_In. split; [exact Hv|]. unfold kept. rewrite Ev.
      apply orb_true_iff. right. now apply has_In.
    + apply Hall. apply in_map_iff. exists sid. split; [reflexivity|].
      apply filter_In. split; [now apply new_Set_In | now rewrite X].
  - intros U. rewrite <- Hdel, <- Hrows. apply Huniq. rewrite Hdel.
    now apply unique_filter.
  - now rewrite Hsnd, Hrows, Hdel.
Qed.

End Reconcile.

Section PatientUpdate.
Import Prisma.

Lemma array_of_strings (S l : list string) :
  Zod.array_of (Zod.then_ Zod.str (Zod.min 1)) (map JStr S) = Some l -> l = S.
Proof.
  revert l. induction S as [|s r IH]; intros l H; simpl in H.
  - now inversion H.
  - unfold Zod.then_ at 1 in H. simpl in H.
    destruct (Zod.min 1 s) as [s'|] eqn:M; [|discriminate].
    apply min1_truthy in M as [-> _].
    destruct (Zod.array_of _ (map JStr r)) as [l'|] eqn:A; [|discriminate].
    inversion H. now rewrite (IH l' eq_refl).
Qed.

Lemma patient_updateSchema_ids (e : Env) (body : Json) (S : list string)
    (p : PatientById.UpdatePayload) :
  supplied "serviceIds" body = Some (JArr (map JStr S)) ->
  PatientById.updateSchema e body = Some p ->
  PatientById.serviceIds p = Some S.
Proof.
  intros Hs H. unfold PatientById.updateSchema in H.
  destruct body; simpl in H, Hs; try discriminate.
  repeat step_in H. inversion H; subst; simpl.
  match goal with
  | Hi : Zod.optional _ (Zod.lookup "serviceIds" fields) = Some _ |- _ =>
      rewrite Hs in Hi; simpl in Hi;
      destruct (Zod.array_of _ (map JStr S)) as [l|] eqn:A; simpl in Hi;
      [|discriminate Hi]; inversion Hi; subst
  end.
  now rewrite (array_of_strings S l A).
Qed.

(** The errors of the Prisma calls of the patient handlers. *)
Lemma table_targets_none (code msg : string) :
  table_targets (PrismaClientKnownRequestError code NoTarget msg).
Proof. intros f []. Qed.

Lemma table_targets_P2002 (f : string) : In f ["id"; "email"; "phone"] -> table_targets (P2002 f).
Proof. intros H g [<- | []]. exact H. Qed.

Lemma throws_ret {A : Type} (a : A) : throws_table_targets (ret a).
Proof. intros db err db' H. discriminate H. Qed.

Lemma throws_bind {A B : Type} (m : M A) (k : A -> M B) :
  throws_table_targets m -> (forall a, throws_table_targets (k a)) ->
  throws_table_targets (Eff.bind m k).
Proof.
  intros Hm Hk db err db' H. unfold Eff.bind in H.
  destruct (m db) as [[err1 | a] db1] eqn:E.
  - inversion H; subst. exact (Hm _ _ _ E).
  - exact (Hk a _ _ _ H).
Qed.

Lemma throws_when (b : bool) (m : M unit) :
  throws_table_targets m -> throws_table_targets (when_ b m).
Proof. destruct b; [trivial | intros _; apply throws_ret]. Qed.

Lemma patient_conflict_field (rows : list Patient) (p : Patient) (f : string) :
  patient_conflict rows p = Some f -> In f ["id"; "email"; "phone"].
Proof.
  unfold patient_conflict. intros H. repeat step_in H; inversion H; simpl; auto.
Qed.

Lemma patient_update_throws (id : string) (data : PatientUpdateInput) :
  throws_table_targets (patient_update id data).
Proof.
  intros db err db' H. unfold patient_update in H.
  destruct (find_by pt_id id (patients db)) as [q|]; [|inversion H; apply table_targets_none].
  cbv zeta in H. destruct (patient_conflict (patients db) _) as [f|] eqn:C; inversion H.
  apply table_targets_P2002. exact (patient_conflict_field _ _ _ C).
Qed.

Lemma patient_create_throws (e : Env) (data : PatientCreateInput) :
  throws_table_targets (patient_create e data).
Proof.
  intros db err db' H. unfold patient_create in H. cbv zeta in H.
  destruct (exists_id pt_id (patients db) _).
  - inversion H. apply table_targets_P2002. simpl. auto.
  - destruct (patient_conflict (patients db) _) as [f|] eqn:C; inversion H.
    apply table_targets_P2002. exact (patient_conflict_field _ _ _ C).
Qed.

Lemma usage_createMany_throws (e : Env) (k : nat) (data : list (string * string)) :
  throws_table_targets (usage_createMany e k data).
Proof.
  intros db err db' H. unfold usage_createMany in H.
  destruct (usage_insert_all e db k data (usages db)); inversion H.
  apply table_targets_none.
Qed.

Lemma patient_findUniqueOrThrow_throws (id : string) :
  throws_table_targets (patient_findUniqueOrThrow id).
Proof.
  intros db err db' H. unfold patient_findUniqueOrThrow in H.
  destruct (find_by pt_id id (patients db)); inversion H. apply table_targets_none.
Qed.

Lemma reconcile_throws (e : Env) (id : string) (p : PatientById.UpdatePayload) :
  throws_table_targets (PatientById.reconcile e id p).
Proof.
  unfold PatientById.reconcile.
  apply throws_bind; [apply patient_update_throws|]. intros _.
  apply throws_bind; [|intros _; apply patient_findUniqueOrThrow_throws].
  destruct (PatientById.serviceIds p); [|apply throws_ret].
  apply throws_bind; [intros db err db' H; discriminate H|]. intros existing.
  apply throws_bind.
  - apply throws_when. intros db err db' H. discriminate H.
  - intros _. apply throws_when. apply usage_createMany_throws.
Qed.

Lemma first_message_table (fields : list string) :
  (forall f, In f fields -> In f ["id"; "email"; "phone"]) ->
  PatientById.first_message fields = None
  \/ exists m, PatientById.first_message fields = Some (PatientById.Entry m).
Proof.
  induction fields as [|f r IH]; intros H; simpl; [now left|].
  destruct (H f (or_introl eq_refl)) as [<- | [<- | [<- | []]]]; simpl; eauto.
  apply IH. intros g Hg. apply H. now right.
Qed.

(** [handleKnownError] answers 409 or nothing; on the errors of the
    patient tables the 409 carries a message. *)
Lemma caught_status (err : JsError) (msg : string) :
  table_targets err ->
  exists m st,
    match PatientById.handleKnownError err with
    | Some handled => handled
    | None => json (ErrorBody msg) 400
    end = json (ErrorBody m) st
    /\ (st = 400 \/ st = 409).
Proof.
  intros T. unfold PatientById.handleKnownError.
  destruct (PatientById.isUniqueConstraintError err).
  - destruct (first_message_table _ T) as [-> | [m ->]];
      do 2 eexists; split; try reflexivity; now right.
  - do 2 eexists. split; [reflexivity | now left].
Qed.

(** The update either went through the whole transaction, or is
    answered with an error and the database of before. *)
Lemma PUT_cases (e : Env) (id : string) (body : Json) (db : Db) :
  (exists p r db',
      PatientById.updateSchema e body = Some p
      /\ PatientById.reconcile e id p db = (inr r, db')
      /\ PatientById.PUT e id body db = (json (PatientBody (fst r) (snd r)) 200, db'))
  \/ (exists msg st,
        PatientById.PUT e id body db = (json (ErrorBody msg) st, db)
        /\ (st = 400 \/ st = 409)).
Proof.
  unfold PatientById.PUT, handler, Eff.bind, parse, transaction.
  destruct (PatientById.updateSchema e body) as [p|] eqn:E; simpl.
  - destruct (PatientById.reconcile e id p db) as [[err | r] db1] eqn:R.
    + right.
      destruct (caught_status err "Unable to update patient" (reconcile_throws _ _ _ _ _ _ R))
        as (m & st & -> & Hst).
      now exists m, st.
    + left. exists p, r, db1. repeat split. exact R.
  - right. do 2 eexists. split; [reflexivity | now left].
Qed.

(** C2. After an update of patient [id] that carries [serviceIds = S]
    and is answered 200, the usage table is the old one without the
    rows of [id] whose service is not in [S], followed by new rows;
    the new rows belong to [id], are stamped with the clock of the
    request and are for services of [S] that had no row; the rows of
    [id] for services of [S] are the old records, [usedAt] included;
    the service ids of [id] are then the members of [S], and a table
    without duplicate pairs stays so. *)
Theorem patient_update_reconciles_usage
    (e : Env) (id : string) (body : Json) (db db' : Db) (S : list string)
    (resp : Response) :
  supplied "serviceIds" body = Some (JArr (map JStr S)) ->
  PatientById.PUT e id body db = (resp, db') ->
  status resp = 200 ->
  exists added,
    usages db' = (filter (kept id S) (usages db) ++ added)%list
    /\ (forall u, In u added ->
          pu_patientId u = id /\ In (pu_serviceId u) S /\ pu_usedAt u = now e
          /\ ~ In (pu_serviceId u) (usage_ids id db))
    /\ (forall u, In u (usages db) -> usage_of id u = true ->
          In (pu_serviceId u) S -> In u (usages db'))
    /\ (forall sid, In sid (usage_ids id db') <-> In sid S)
    /\ (usage_unique (usages db) -> usage_unique (usages db')).
Proof.
  intros Hs HPUT Hst.
  destruct (PUT_cases e id body db) as [(p & r & db1 & E & R & HP) | (m & st & HP & Hbad)];
    rewrite HP in HPUT; inversion HPUT; subst resp db'.
  2:{ simpl in Hst. destruct Hbad; congruence. }
  pose proof (patient_updateSchema_ids e body S p Hs E) as HS.
  destruct (reconcile_usages e id p S db db1 r HS R)
    as (added & Hrows & Hadd & Hall & Huniq & _).
  exists added. split; [exact Hrows|]. split; [|split; [|split; [|exact Huniq]]].
  - intros u Hu. destruct (Hadd u Hu) as (H1 & H2 & H3 & H4).
    repeat split; try assumption.
    intros Hin. unfold usage_ids in Hin. apply in_map_iff in Hin as (v & Ev & Hv).
    apply filter_In in Hv as [Hv Ov].
    assert (C : usage_clash (usages db) id (pu_serviceId u) = true).
    { apply clash_row. now exists v. }
    congruence.
  - intros u Hu Ou Hin. rewrite Hrows. apply in_or_app. left.
    apply filter_In. split; [exact Hu|]. unfold kept.
    apply orb_true_iff. right. now apply has_In.
  - intros sid. unfold usage_ids. split.
    + intros Hin. apply in_map_iff in Hin as (u & <- & Hu).
      apply filter_In in Hu as [Hu Ou]. rewrite Hrows in Hu.
      apply in_app_or in Hu as [Hu | Hu].
      * apply filter_In in Hu as [_ K]. unfold kept in K. rewrite Ou in K.
        simpl in K. now apply has_In.
      * now apply Hadd.
    + intros Hin. specialize (Hall sid Hin).
      apply clash_row in Hall as (u & Hu & Ou & <-).
      apply in_map, filter_In. now split.
Qed.

(** C3. An update that is not answered 200 leaves the whole database
    as it was and answers 400 or 409 with an error message; this holds
    in particular whenever a step of the transaction throws, whatever
    the steps before it had written. *)
Theorem patient_update_is_atomic (e : Env) (id : string) (body : Json) (db : Db) :
  (status (fst (PatientById.PUT e id body db)) <> 200 ->
   snd (PatientById.PUT e id body db) = db
   /\ exists msg st, fst (PatientById.PUT e id body db) = json (ErrorBody msg) st
                     /\ (st = 400 \/ st = 409))
  /\ (forall p err db1,
        PatientById.updateSchema e body = Some p ->
        PatientById.reconcile e id p db = (inl err, db1) ->
        status (fst (PatientById.PUT e id body db)) <> 200
        /\ snd (PatientById.PUT e id body db) = db).
Proof.
  split.
  - intros Hst.
    destruct (PUT_cases e id body db) as [(p & r & db1 & E & R & HP) | (m & st & HP & Hbad)];
      rewrite HP in *; simpl in *; [congruence|].
    split; [reflexivity|]. now exists m, st.
  - intros p err db1 E R.
    destruct (PUT_cases e id body db) as [(p' & r & db2 & E' & R' & HP) | (m & st & HP & Hbad)].
    + rewrite E in E'. inversion E'; subst p'. rewrite R in R'. discriminate R'.
    + rewrite HP. simpl. split; [destruct Hbad; subst st; discriminate | reflexivity].
Qed.

End PatientUpdate.

(** C2 at patient [pat1], who has usage rows for [svc1] and [svc2],
    updated with [serviceIds = [svc2, svc3, svc2]]. *)
Lemma patient_update_reconciles_usage_witness :
  exists added,
    Prisma.usages (snd (PatientById.PUT Sample.env "pat1" SamplePatient.update_body Sample.db))
    = (filter (kept "pat1" ["svc2"; "svc3"; "svc2"]) (Prisma.usages Sample.db) ++ added)%list
    /\ Prisma.usages
         (snd (PatientById.PUT Sample.env "pat1" SamplePatient.update_body Sample.db))
       = [Prisma.mkUsage "use2" "pat1" "svc2" 2000;
          Prisma.mkUsage "use3" "pat2" "svc2" 3000;
          Prisma.mkUsage "cnew00000" "pat1" "svc3" 1767225600000].
Proof.
  destruct (patient_update_reconciles_usage Sample.env "pat1" SamplePatient.update_body
              Sample.db _ ["svc2"; "svc3"; "svc2"] _ eq_refl eq_refl eq_refl)
    as (added & Hrows & _).
  exists added. split; [exact Hrows | reflexivity].
Defined.

(** C3 at an update of [pat1] that renames her and asks for the
    unknown service [svc9]: inside the transaction the rename and the
    deletes are done when the insert throws, the answer is 400 and the
    database is the one of before. *)
Lemma patient_update_is_atomic_witness :
  (exists db1,
     PatientById.reconcile Sample.env "pat1" SamplePatient.failing_payload Sample.db
     = (inl (Prisma.P2003 "PatientServiceUsage"), db1)
     /\ Prisma.usages db1 = [Prisma.mkUsage "use3" "pat2" "svc2" 3000]
     /\ option_map Prisma.pt_firstName
          (Prisma.find_by Prisma.pt_id "pat1" (Prisma.patients db1)) = Some "Janet")
  /\ status (fst (PatientById.PUT Sample.env "pat1" SamplePatient.failing_body Sample.db))
     <> 200
  /\ snd (PatientById.PUT Sample.env "pat1" SamplePatient.failing_body Sample.db)
     = Sample.db.
Proof.
  split.
  - eexists. split; [reflexivity|]. split; reflexivity.
  - apply (proj2 (patient_update_is_atomic Sample.env "pat1" SamplePatient.failing_body
                    Sample.db)
             SamplePatient.failing_payload (Prisma.P2003 "PatientServiceUsage") _
             eq_refl eq_refl).
Defined.

(* ================================================================= *)
(** ** Conflicts on unique fields *)

Section Conflicts.
Import Prisma.

Lemma uniqueFieldMessage_cases (f : string) :
  (f = "email" /\ PatientById.uniqueFieldMessage f
                  = Some (PatientById.Entry "Email already in use."))
  \/ (f = "phone" /\ PatientById.uniqueFieldMessage f
                     = Some (PatientById.Entry "Phone number already in use."))
  \/ (In f PatientById.OBJECT_PROTOTYPE_KEYS
      /\ PatientById.uniqueFieldMessage f = Some (PatientById.Inherited f))
  \/ (passed_over f /\ PatientById.uniqueFieldMessage f = None).
Proof.
  unfold PatientById.uniqueFieldMessage, passed_over.
  destruct (String.eqb_spec f "email") as [-> | D1]; [now left|].
  destruct (String.eqb_spec f "phone") as [-> | D2]; [right; now left|].
  destruct (Js.has PatientById.OBJECT_PROTOTYPE_KEYS f) eqn:H.
  - right. right. left. split; [now apply has_In | reflexivity].
  - right. right. right. repeat split; try assumption. now apply has_false.
Qed.

Lemma first_message_passed (pre rest : list string) :
  Forall passed_over pre ->
  PatientById.first_message (pre ++ rest) = PatientById.first_message rest.
Proof.
  induction 1 as [|f pre Hf _ IH]; simpl; [reflexivity|].
  destruct Hf as (A & B & C).
  destruct (uniqueFieldMessage_cases f) as [[-> _] | [[-> _] | [[K _] | [_ E]]]];
    [congruence | congruence | contradiction |].
  now rewrite E.
Qed.

(** X1. [handleKnownError] answers nothing for an error that is not a
    P2002.  For a P2002 it answers 409, and the first field of the
    target that is [email], [phone] or a key every object inherits from
    [Object.prototype] decides the body: the e-mail message, the phone
    message, or a body without a message, since the value read under an
    inherited key is not a string.  When the target has no such field
    the body is "Duplicate value detected.". *)
Theorem handleKnownError_by_target (err : JsError) :
  (PatientById.isUniqueConstraintError err = false ->
   PatientById.handleKnownError err = None)
  /\ (PatientById.isUniqueConstraintError err = true ->
      (Forall passed_over (PatientById.target_fields err) ->
       PatientById.handleKnownError err
       = Some (json (ErrorBody "Duplicate value detected.") 409))
      /\ (forall pre f post,
            PatientById.target_fields err = (pre ++ f :: post)%list ->
            Forall passed_over pre ->
            (f = "email" ->
             PatientById.handleKnownError err
             = Some (json (ErrorBody "Email already in use.") 409))
            /\ (f = "phone" ->
                PatientById.handleKnownError err
                = Some (json (ErrorBody "Phone number already in use.") 409))
            /\ (In f PatientById.OBJECT_PROTOTYPE_KEYS ->
                PatientById.handleKnownError err
                = Some (json (InheritedErrorBody f) 409)))).
Proof.
  unfold PatientById.handleKnownError. split.
  - intros ->. reflexivity.
  - intros ->. split.
    + intros H.
      rewrite <- (app_nil_r (PatientById.target_fields err)).
      now rewrite (first_message_passed _ [] H).
    + intros pre f post -> H. rewrite (first_message_passed pre (f :: post) H). simpl.
      repeat split.
      * intros ->. reflexivity.
      * intros ->. reflexivity.
      * intros K.
        destruct (uniqueFieldMessage_cases f)
          as [[-> _] | [[-> _] | [[_ E] | [(_ & _ & N) _]]]];
          [simpl in K; intuition discriminate | simpl in K; intuition discriminate
          | now rewrite E | destruct (N K)].
Qed.

Lemma existsb_intro {A : Type} (f : A -> bool) (l : list A) (x : A) :
  In x l -> f x = true -> existsb f l = true.
Proof. intros Hin Hf. apply existsb_exists. eauto. Qed.

Lemma find_by_found {R : Type} (id_of : R -> string) (id : string) (rows : list R) (r : R) :
  find_by id_of id rows = Some r -> id_of r = id /\ In r rows.
Proof.
  induction rows as [|x rest IH]; simpl; [discriminate|].
  destruct (String.eqb_spec (id_of x) id) as [E | D].
  - intros H. inversion H; subst. split; [reflexivity | now left].
  - intros H. destruct (IH H). split; [assumption | now right].
Qed.

(** Another patient with the e-mail makes [patient_update] throw a
    P2002 and leave the table: on [email] when no other patient has the
    phone number of the updated row, on [email] or [phone] otherwise. *)
Lemma patient_update_taken_email (id em : string) (data : PatientUpdateInput) (db : Db)
    (old q : Patient) :
  find_by pt_id id (patients db) = Some old ->
  pp_email data = Some (NotNull em) ->
  In q (patients db) -> pt_id q <> id -> pt_email q = Some em ->
  (patient_update id data db = (inl (P2002 "email"), db)
   \/ patient_update id data db = (inl (P2002 "phone"), db))
  /\ (phone_is_free id (set_nullable (pt_phone old) (pp_phone data)) db ->
      patient_update id data db = (inl (P2002 "email"), db)).
Proof.
  intros F E Hq Dq Eq. unfold patient_update. rewrite F.
  unfold patient_conflict. cbv zeta.
  assert (Hid : pt_id (patient_apply old data) = id)
    by (apply find_by_found in F as [<- _]; reflexivity).
  rewrite Hid.
  assert (Hem : existsb (fun r => same_opt (pt_email r) (pt_email (patient_apply old data)))
                  (filter (fun r => negb (String.eqb (pt_id r) id)) (patients db)) = true).
  { apply (existsb_intro _ _ q).
    - apply filter_In. split; [exact Hq|]. apply negb_true_iff. now apply String.eqb_neq.
    - simpl. rewrite E, Eq. simpl. apply String.eqb_refl. }
  rewrite Hem.
  destruct (existsb (fun r => same_opt (pt_phone r) (pt_phone (patient_apply old data)))
              (filter (fun r => negb (String.eqb (pt_id r) id)) (patients db)))
    eqn:Hph.
  - split; [auto|]. intros Free. exfalso.
    apply existsb_exists in Hph as (r & Hr & Sr).
    apply filter_In in Hr as [Hr Dr]. apply negb_true_iff, String.eqb_neq in Dr.
    simpl in Sr. destruct (pt_phone r) as [ph|] eqn:Pr; [|discriminate Sr].
    destruct (set_nullable (pt_phone old) (pp_phone data)) as [ph'|] eqn:Pn;
      [|discriminate Sr].
    apply String.eqb_eq in Sr. subst ph'. exact (Free r ph Hr Dr Pr eq_refl).
  - split; [auto|]. reflexivity.
Qed.

Lemma patient_updateSchema_email (e : Env) (body : Json) (em : string)
    (p : PatientById.UpdatePayload) :
  supplied "email" body = Some (JStr em) ->
  PatientById.updateSchema e body = Some p ->
  PatientById.email p = Some (NotNull em).
Proof.
  intros Hs H. unfold PatientById.updateSchema in H.
  destruct body; simpl in H, Hs; try discriminate.
  repeat step_in H. inversion H; subst; simpl.
  match goal with
  | Hi : PatientById.optional_nullable _ (Zod.lookup "email" fields) = Some _ |- _ =>
      rewrite Hs in Hi; unfold PatientById.optional_nullable in Hi; simpl in Hi;
      unfold Zod.nullable_, Zod.then_, Zod.str, Zod.check in Hi; simpl in Hi;
      destruct (is_email e em); simpl in Hi; [|discriminate Hi]; now inversion Hi
  end.
Qed.

(** X2. An update of a patient with an e-mail that another patient
    has is answered 409 and changes nothing.  The message is "Email
    already in use." when no other patient has the phone number the
    updated row would have; when one has, the message is that or "Phone
    number already in use.", as the database reports the one or the
    other index. *)
Theorem patient_update_taken_email_conflict
    (e : Env) (id em : string) (body : Json) (db : Db)
    (p : PatientById.UpdatePayload) (old q : Patient) :
  PatientById.updateSchema e body = Some p ->
  supplied "email" body = Some (JStr em) ->
  find_by pt_id id (patients db) = Some old ->
  In q (patients db) -> pt_id q <> id -> pt_email q = Some em ->
  (PatientById.PUT e id body db = (json (ErrorBody "Email already in use.") 409, db)
   \/ PatientById.PUT e id body db
      = (json (ErrorBody "Phone number already in use.") 409, db))
  /\ (phone_is_free id (set_nullable (pt_phone old) (PatientById.phone p)) db ->
      PatientById.PUT e id body db = (json (ErrorBody "Email already in use.") 409, db)).
Proof.
  intros E Hs F Hq Dq Eq.
  pose proof (patient_updateSchema_email e body em p Hs E) as Hem.
  destruct (patient_update_taken_email id em
              (mkPatientUpdate (PatientById.firstName p) (PatientById.lastName p)
                 (PatientById.phone p) (PatientById.email p) (PatientById.dob p)
                 (PatientById.notes p))
              db old q F Hem Hq Dq Eq) as [Either Free].
  assert (Step : forall f m,
            patient_update id
              (mkPatientUpdate (PatientById.firstName p) (PatientById.lastName p)
                 (PatientById.phone p) (PatientById.email p) (PatientById.dob p)
                 (PatientById.notes p)) db = (inl (P2002 f), db) ->
            PatientById.handleKnownError (P2002 f) = Some (json (ErrorBody m) 409) ->
            PatientById.PUT e id body db = (json (ErrorBody m) 409, db)).
  { intros f m U K.
    unfold PatientById.PUT, handler, Eff.bind, parse, transaction. rewrite E. simpl.
    unfold PatientById.reconcile, Eff.bind. rewrite U, K. reflexivity. }
  split.
  - destruct Either as [U | U]; [left | right]; exact (Step _ _ U eq_refl).
  - intros Hfree. exact (Step _ _ (Free Hfree) eq_refl).
Qed.

End Conflicts.

(** X1 at the P2002 of a taken e-mail, at a P2002 whose target is
    [id] and then [constructor], and at a P2025. *)
Lemma handleKnownError_by_target_witness :
  PatientById.handleKnownError (Prisma.P2002 "email")
  = Some (json (ErrorBody "Email already in use.") 409)
  /\ PatientById.handleKnownError
       (Prisma.PrismaClientKnownRequestError "P2002"
          (Prisma.ManyTargets ["id"; "constructor"]) "Unique constraint failed")
     = Some (json (InheritedErrorBody "constructor") 409)
  /\ PatientById.handleKnownError Prisma.P2025 = None.
Proof.
  split; [|split].
  - apply (proj2 (proj2 (handleKnownError_by_target (Prisma.P2002 "email")) eq_refl)
             [] "email" []); [reflexivity | constructor | reflexivity].
  - apply (proj2 (proj2 (handleKnownError_by_target
                           (Prisma.PrismaClientKnownRequestError "P2002"
                              (Prisma.ManyTargets ["id"; "constructor"])
                              "Unique constraint failed")) eq_refl)
             ["id"] "constructor" []).
    + reflexivity.
    + constructor; [|constructor].
      split; [discriminate|]. split; [discriminate|].
      simpl. intuition discriminate.
    + simpl. now left.
  - apply (proj1 (handleKnownError_by_target Prisma.P2025)). reflexivity.
Defined.

(** X2 at patient [pat2] asking for the e-mail of [pat1], whose phone
    number nobody else has. *)
Lemma patient_update_taken_email_conflict_witness :
  PatientById.PUT Sample.env "pat2" SampleMore.taken_email_body Sample.db
  = (json (ErrorBody "Email already in use.") 409, Sample.db).
Proof.
  apply (proj2 (patient_update_taken_email_conflict Sample.env "pat2" "jane@example.com"
                  SampleMore.taken_email_body Sample.db _
                  (Prisma.mkPatient "pat2" "John" "Roe" (Some "55512345") None None None)
                  (Prisma.mkPatient "pat1" "Jane" "Doe" None (Some "jane@example.com")
                     None None)
                  eq_refl eq_refl eq_refl (or_introl eq_refl)
                  ltac:(discriminate) eq_refl)).
  intros r ph [<- | [<- | []]] D; [discriminate | now destruct D].
Defined.

(* ================================================================= *)
(** ** Creating a patient with service usage *)

Section PatientCreate.
Import Prisma.

(** The rows one [createMany] adds have pairwise different keys, none
    of them in the table before. *)
Lemma insert_all_fresh (e : Env) (db : Db) (data : list (string * string)) :
  forall (k : nat) (rows rows' : list PatientServiceUsage),
    usage_insert_all e db k data rows = Some rows' ->
    exists added,
      rows' = (rows ++ added)%list
      /\ NoDup (map usage_key added)
      /\ (forall u, In u added -> ~ In (usage_key u) (map usage_key rows)).
Proof.
  induction data as [|[pid sid] rest IH]; intros k rows rows' H; simpl in H.
  - inversion H; subst. exists []. rewrite app_nil_r.
    split; [reflexivity|]. split; [constructor | intros u []].
  - destruct (usage_clash rows pid sid) eqn:C; [exact (IH _ _ _ H)|].
    destruct (exists_id pt_id (patients db) pid && exists_id sv_id (services db) sid);
      [|discriminate].
    destruct (IH _ _ _ H) as (added & -> & Hnd & Hfresh).
    exists (mkUsage (cuid e k) pid sid (now e) :: added).
    rewrite <- app_assoc. split; [reflexivity|]. split.
    + simpl. constructor; [|exact Hnd].
      intros Hin. apply in_map_iff in Hin as (u & Eu & Hu).
      apply (Hfresh u Hu). rewrite Eu, map_app. apply in_or_app. right. now left.
    + intros u [<- | Hu].
      * now apply clash_false in C.
      * intros Hin. apply (Hfresh u Hu). rewrite map_app. apply in_or_app. now left.
Qed.

(** The create step of a [createMany] that starts at id number [k]. *)
Lemma create_step_from (e : Env) (k : nat) (data : list (string * string)) (b : bool)
    (db2 db3 : Db) :
  when_ b (usage_createMany e k data) db2 = (inr tt, db3) ->
  (b = false -> data = []) ->
  patients db3 = patients db2
  /\ exists added,
       usages db3 = (usages db2 ++ added)%list
       /\ (forall u, In u added -> In (usage_key u) data /\ pu_usedAt u = now e)
       /\ (forall pid sid, In (pid, sid) data -> usage_clash (usages db3) pid sid = true)
       /\ NoDup (map usage_key added)
       /\ (usage_unique (usages db2) -> usage_unique (usages db3)).
Proof.
  unfold when_, Eff.when_. destruct b.
  - intros H _. unfold usage_createMany in H.
    destruct (usage_insert_all e db2 k data (usages db2)) as [rows|] eqn:I;
      [|discriminate].
    inversion H; subst. simpl. split; [reflexivity|].
    destruct (insert_all_spec e db2 data k _ _ I) as (added & -> & Hadd & Hall & Huniq).
    destruct (insert_all_fresh e db2 data k _ _ I) as (added' & Eq & Hnd & _).
    apply app_inv_head in Eq. subst added'.
    exists added. split; [reflexivity|]. split; [|now repeat split].
    intros u Hu. destruct (Hadd u Hu) as (H1 & H2 & _). now split.
  - intros H D. rewrite (D eq_refl). inversion H; subst. split; [reflexivity|].
    exists []. rewrite app_nil_r. split; [reflexivity|]. split; [intros u []|].
    split; [intros ? ? []|]. split; [constructor | auto].
Qed.

Lemma patient_create_ok (e : Env) (data : PatientCreateInput) (db db1 : Db) (p : Patient) :
  patient_create e data db = (inr p, db1) ->
  pt_id p = cuid e 0
  /\ patients db1 = (patients db ++ [p])%list
  /\ usages db1 = usages db
  /\ exists_id pt_id (patients db) (cuid e 0) = false.
Proof.
  unfold patient_create. simpl. intros H.
  destruct (exists_id pt_id (patients db) (cuid e 0)) eqn:X; [discriminate|].
  step_in H. inversion H; subst. now repeat split.
Qed.

Lemma patients_schema_ids (e : Env) (body : Json) (S : list string)
    (p : Patients.PatientPayload) :
  supplied "serviceIds" body = Some (JArr (map JStr S)) ->
  Patients.patientSchema e body = Some p ->
  Patients.serviceIds p = Some S.
Proof.
  intros Hs H. unfold Patients.patientSchema in H.
  destruct body; simpl in H, Hs; try discriminate.
  repeat step_in H. inversion H; subst; simpl.
  match goal with
  | Hi : Zod.optional _ (Zod.lookup "serviceIds" fields) = Some _ |- _ =>
      rewrite Hs in Hi; simpl in Hi;
      destruct (Zod.array_of _ (map JStr S)) as [l|] eqn:A; simpl in Hi;
      [|discriminate Hi]; inversion Hi; subst
  end.
  now rewrite (array_of_strings S l A).
Qed.

Lemma Patients_POST_cases (e : Env) (body : Json) (db : Db) :
  (exists p r db',
      Patients.patientSchema e body = Some p
      /\ PatientCreateTx.create_body e p db = (inr r, db')
      /\ Patients.POST e body db = (json (PatientBody (fst r) (snd r)) 201, db'))
  \/ (exists msg st,
        Patients.POST e body db = (json (ErrorBody msg) st, db)
        /\ (st = 400 \/ st = 409)).
Proof.
  unfold PatientCreateTx.create_body, Patients.POST, handler, Eff.bind, parse, transaction,
    Patients.handleKnownError.
  destruct (Patients.patientSchema e body) as [p|] eqn:E; simpl.
  2:{ right. do 2 eexists. split; [reflexivity | now left]. }
  destruct (patient_create e _ db) as [[err | c] db1] eqn:H1.
  { right.
    destruct (caught_status err "Unable to create patient"
                (patient_create_throws _ _ _ _ _ H1)) as (m & st & -> & Hst).
    now exists m, st. }
  destruct (when_ _ _ db1) as [[err | []] db2] eqn:H2.
  { right.
    destruct (caught_status err "Unable to create patient"
                (throws_when _ _ (usage_createMany_throws _ _ _) _ _ _ H2))
      as (m & st & -> & Hst).
    now exists m, st. }
  destruct (patient_findUniqueOrThrow (pt_id c) db2) as [[err | r] db3] eqn:H3.
  { right.
    destruct (caught_status err "Unable to create patient"
                (patient_findUniqueOrThrow_throws _ _ _ _ H3)) as (m & st & -> & Hst).
    now exists m, st. }
  left. exists p, r, db3. repeat split. now rewrite H1, H2.
Qed.

End PatientCreate.

Section PatientCreateResults.
Import Prisma.

Lemma service_ids_nodup (pid : string) (l : list PatientServiceUsage) :
  (forall u, In u l -> pu_patientId u = pid) ->
  NoDup (map usage_key l) -> NoDup (map pu_serviceId l).
Proof.
  induction l as [|u r IH]; simpl; intros Hp Hn; [constructor|].
  apply NoDup_cons_iff in Hn as [Hu Hn]. constructor.
  - intros Hin. apply Hu. apply in_map_iff in Hin as (v & Ev & Hv).
    apply in_map_iff. exists v. split; [|exact Hv].
    unfold usage_key. rewrite Ev, (Hp v (or_intror Hv)), (Hp u (or_introl eq_refl)).
    reflexivity.
  - apply IH; [|exact Hn]. intros v Hv. apply Hp. now right.
Qed.

(** X3. A create of a patient that carries [serviceIds = S] and is
    answered 201 appends the patient and, at the end of the usage
    table, one row per distinct id of [S]: the new rows belong to the
    new patient, are stamped with the clock of the request, carry
    pairwise different service ids, all of [S], and every id of [S]
    has its row. *)
Theorem patient_create_records_usage
    (e : Env) (body : Json) (db db' : Db) (S : list string) (resp : Response) :
  supplied "serviceIds" body = Some (JArr (map JStr S)) ->
  Patients.POST e body db = (resp, db') ->
  status resp = 201 ->
  exists p added,
    patients db' = (patients db ++ [p])%list
    /\ pt_id p = cuid e 0
    /\ usages db' = (usages db ++ added)%list
    /\ (forall u, In u added ->
          pu_patientId u = pt_id p /\ In (pu_serviceId u) S /\ pu_usedAt u = now e)
    /\ (forall sid, In sid S ->
          exists u, In u (usages db') /\ pu_patientId u = pt_id p /\ pu_serviceId u = sid)
    /\ NoDup (map pu_serviceId added).
Proof.
  intros Hs HP Hst.
  destruct (Patients_POST_cases e body db)
    as [(p & r & db1 & E & R & HP') | (m & st & HP' & Hbad)];
    rewrite HP' in HP; inversion HP; subst resp db'.
  2:{ simpl in Hst. destruct Hbad; congruence. }
  pose proof (patients_schema_ids e body S p Hs E) as HS.
  unfold PatientCreateTx.create_body in R. rewrite HS in R.
  apply bind_ok in R as (c & d1 & Hc & R).
  apply patient_create_ok in Hc as (Hid & Hpat & Hus & _).
  apply bind_ok in R as ([] & d2 & Hm & Hf).
  apply find_step in Hf as [-> _].
  apply create_step_from in Hm as (Hp2 & added & Hrows & Hadd & Hall & Hnd & _).
  2:{ intros B. apply length_zero in B. now rewrite B. }
  assert (Hown : forall u, In u added -> pu_patientId u = pt_id c /\ In (pu_serviceId u) S).
  { intros u Hu. destruct (Hadd u Hu) as [Hin _].
    apply in_map_iff in Hin as (sid & Ek & Hin). unfold usage_key in Ek.
    inversion Ek; subst. now split. }
  exists c, added. rewrite Hp2, Hpat, Hrows, Hus.
  split; [reflexivity|]. split; [exact Hid|]. split; [reflexivity|].
  split; [|split].
  - intros u Hu. destruct (Hown u Hu). destruct (Hadd u Hu) as [_ Hn]. now repeat split.
  - intros sid Hin.
    assert (C : usage_clash (usages d2) (pt_id c) sid = true).
    { apply Hall. apply in_map_iff. now exists sid. }
    apply clash_row in C as (u & Hu & Ou & Eu). exists u.
    rewrite <- Hus, <- Hrows. split; [exact Hu|]. split; [|exact Eu].
    unfold usage_of in Ou. now apply String.eqb_eq in Ou.
  - apply (service_ids_nodup (pt_id c)); [|exact Hnd].
    intros u Hu. now destruct (Hown u Hu).
Qed.

(** X4. A create of a patient that is not answered 201 leaves the
    database as it was, the patient row included, and answers 400 or
    409 with an error message. *)
Theorem patient_create_is_atomic (e : Env) (body : Json) (db : Db) :
  status (fst (Patients.POST e body db)) <> 201 ->
  snd (Patients.POST e body db) = db
  /\ exists msg st, fst (Patients.POST e body db) = json (ErrorBody msg) st
                    /\ (st = 400 \/ st = 409).
Proof.
  intros Hst.
  destruct (Patients_POST_cases e body db)
    as [(p & r & db1 & E & R & HP) | (m & st & HP & Hbad)];
    rewrite HP in *; simpl in *; [congruence|].
  split; [reflexivity|]. now exists m, st.
Qed.

Lemma findUniqueOrThrow_GET (id : string) (db db' : Db)
    (r : Patient * list PatientServiceUsage) :
  patient_findUniqueOrThrow id db = (inr r, db') ->
  db' = db /\ pt_id (fst r) = id
  /\ PatientById.GET id db = (json (PatientBody (fst r) (snd r)) 200, db).
Proof.
  unfold patient_findUniqueOrThrow, PatientById.GET, handler, patient_findUnique.
  destruct (find_by pt_id id (patients db)) as [p|] eqn:F; [|discriminate].
  intros H. inversion H; subst. simpl.
  apply find_by_found in F as [F _]. now repeat split.
Qed.

(** X5. What a successful update of a patient answers is what the read
    by id answers next, and what a successful create answers is what
    the read of the new id answers next (with 200 for 201). *)
Theorem patient_write_then_read (e : Env) (body : Json) (db db' : Db) (resp : Response) :
  (forall id,
     PatientById.PUT e id body db = (resp, db') -> status resp = 200 ->
     PatientById.GET id db' = (resp, db'))
  /\ (Patients.POST e body db = (resp, db') -> status resp = 201 ->
      exists p us,
        resp = json (PatientBody p us) 201
        /\ PatientById.GET (pt_id p) db' = (json (PatientBody p us) 200, db')).
Proof.
  split.
  - intros id HP Hst.
    destruct (PUT_cases e id body db) as [(p & r & db1 & E & R & HP') | (m & st & HP' & Hbad)];
      rewrite HP' in HP; inversion HP; subst resp db'.
    2:{ simpl in Hst. destruct Hbad; congruence. }
    unfold PatientById.reconcile in R.
    apply bind_ok in R as (p1 & d1 & _ & R).
    apply bind_ok in R as ([] & d3 & _ & Hf).
    apply findUniqueOrThrow_GET in Hf as (-> & _ & HG). exact HG.
  - intros HP Hst.
    destruct (Patients_POST_cases e body db)
      as [(p & r & db1 & E & R & HP') | (m & st & HP' & Hbad)];
      rewrite HP' in HP; inversion HP; subst resp db'.
    2:{ simpl in Hst. destruct Hbad; congruence. }
    unfold PatientCreateTx.create_body in R.
    apply bind_ok in R as (c & d1 & _ & R).
    apply bind_ok in R as ([] & d2 & _ & Hf).
    apply findUniqueOrThrow_GET in Hf as (-> & Hid & HG).
    exists (fst r), (snd r). split; [reflexivity|]. now rewrite Hid.
Qed.

End PatientCreateResults.

(** X3 at a new patient with [serviceIds = [svc1, svc3, svc1]]. *)
Lemma patient_create_records_usage_witness :
  exists p added,
    Prisma.patients (snd (Patients.POST Sample.env SampleMore.new_patient_body Sample.db))
    = (Prisma.patients Sample.db ++ [p])%list
    /\ added = [Prisma.mkUsage "cnew00001" "cnew00000" "svc1" 1767225600000;
                Prisma.mkUsage "cnew00002" "cnew00000" "svc3" 1767225600000]
    /\ NoDup (map Prisma.pu_serviceId added).
Proof.
  destruct (patient_create_records_usage Sample.env SampleMore.new_patient_body Sample.db
              _ ["svc1"; "svc3"; "svc1"] _ eq_refl eq_refl eq_refl)
    as (p & added & Hp & _ & Hu & _ & _ & Hn).
  exists p, added. split; [exact Hp|]. split; [|exact Hn].
  simpl in Hu. apply (app_inv_head (Prisma.usages Sample.db)). exact (eq_sym Hu).
Defined.

(** X4 at a create that names the unknown service [svc9]: no patient
    row is left behind. *)
Lemma patient_create_is_atomic_witness :
  snd (Patients.POST Sample.env SampleMore.bad_patient_body Sample.db) = Sample.db
  /\ fst (Patients.POST Sample.env SampleMore.bad_patient_body Sample.db)
     = json (ErrorBody "Unable to create patient") 400.
Proof.
  destruct (patient_create_is_atomic Sample.env SampleMore.bad_patient_body Sample.db)
    as [Hdb _].
  - discriminate.
  - split; [exact Hdb | reflexivity].
Defined.

(** X5 at the update of [pat1] and at the create of a new patient. *)
Lemma patient_write_then_read_witness :
  PatientById.GET "pat1"
    (snd (PatientById.PUT Sample.env "pat1" SamplePatient.update_body Sample.db))
  = PatientById.PUT Sample.env "pat1" SamplePatient.update_body Sample.db
  /\ exists p us,
       PatientById.GET (Prisma.pt_id p)
         (snd (Patients.POST Sample.env SampleMore.new_patient_body Sample.db))
       = (json (PatientBody p us) 200,
          snd (Patients.POST Sample.env SampleMore.new_patient_body Sample.db)).
Proof.
  split.
  - apply (proj1 (patient_write_then_read Sample.env SamplePatient.update_body Sample.db
                    _ _) "pat1"); reflexivity.
  - destruct (proj2 (patient_write_then_read Sample.env SampleMore.new_patient_body
                       Sample.db _ _) eq_refl eq_refl) as (p & us & _ & HG).
    exists p, us. exact HG.
Defined.

(* ================================================================= *)
(** ** Reading, updating and deleting one appointment *)

Section OneAppointment.
Import Prisma.

Lemma appointment_create_ok (e : Env) (data : AppointmentCreateInput) (db db' : Db)
    (a : Appointment) :
  appointment_create e data db = (inr a, db') ->
  exists_id ap_id (appointments db) (ap_id a) = false
  /\ db' = set_appointments db (appointments db ++ [a]).
Proof.
  unfold appointment_create. simpl. intros H.
  destruct (exists_id ap_id (appointments db) (cuid e 0)) eqn:X; [discriminate|].
  step_in H. inversion H; subst. now split.
Qed.

Lemma find_by_absent {R : Type} (id_of : R -> string) (id : string) (rows : list R) :
  exists_id id_of rows id = false -> find_by id_of id rows = None.
Proof.
  unfold exists_id. induction rows as [|r rest IH]; simpl; [reflexivity|].
  destruct (String.eqb (id_of r) id); simpl; [discriminate | exact IH].
Qed.

Lemma find_by_appended {R : Type} (id_of : R -> string) (rows : list R) (r : R) :
  exists_id id_of rows (id_of r) = false ->
  find_by id_of (id_of r) (rows ++ [r]) = Some r.
Proof.
  unfold exists_id. induction rows as [|x rest IH]; simpl.
  - now rewrite String.eqb_refl.
  - destruct (String.eqb (id_of x) (id_of r)); simpl; [discriminate | exact IH].
Qed.

Lemma find_by_replaced {R : Type} (id_of : R -> string) (id : string) (rows : list R)
    (old r' : R) :
  find_by id_of id rows = Some old -> id_of r' = id ->
  find_by id_of id (replace_by id_of id r' rows) = Some r'.
Proof.
  intros F E. induction rows as [|x rest IH]; simpl in *; [discriminate|].
  destruct (String.eqb (id_of x) id) eqn:X; simpl.
  - now rewrite E, String.eqb_refl.
  - rewrite X. now apply IH.
Qed.

Lemma find_by_replaced_other {R : Type} (id_of : R -> string) (id j : string)
    (rows : list R) (r' : R) :
  id_of r' = id -> j <> id ->
  find_by id_of j (replace_by id_of id r' rows) = find_by id_of j rows.
Proof.
  intros E D. induction rows as [|x rest IH]; simpl; [reflexivity|].
  destruct (String.eqb_spec (id_of x) id) as [X | X]; simpl.
  - rewrite E, X. destruct (String.eqb_spec id j); [congruence | reflexivity].
  - destruct (String.eqb (id_of x) j); [reflexivity | exact IH].
Qed.

(** What the creates answer with 201 was not in the table before. *)
Lemma created_is_new (e : Env) (body : Json) (db : Db) (a : Appointment) :
  created db a (Appointments.POST e body db)
  \/ created db a (PublicAppointments.POST e body db) ->
  exists_id ap_id (appointments db) (ap_id a) = false.
Proof.
  intros [C | C]; unfold created in C.
  - unfold Appointments.POST, handler, Eff.bind, parse in C.
    destruct (Appointments.createSchema e body) as [p|]; simpl in C; [|inversion C].
    match type of C with
    | context [appointment_create e ?d db] =>
        destruct (appointment_create e d db) as [[err | a0] db1] eqn:A; inversion C; subst
    end.
    now apply appointment_create_ok in A as [X _].
  - unfold PublicAppointments.POST, handler, Eff.bind, parse in C.
    destruct (PublicAppointments.bookingSchema e body) as [p|]; simpl in C; [|inversion C].
    match type of C with
    | context [appointment_create e ?d db] =>
        destruct (appointment_create e d db) as [[err | a0] db1] eqn:A; inversion C; subst
    end.
    now apply appointment_create_ok in A as [X _].
Qed.

(** A create answered 201 appended one row under an id that was free. *)
Lemma create_201_appends (e : Env) (body : Json) (db : Db) (r : Response * Db) :
  r = Appointments.POST e body db \/ r = PublicAppointments.POST e body db ->
  status (fst r) = 201 ->
  exists a, created db a r /\ exists_id ap_id (appointments db) (ap_id a) = false.
Proof.
  intros [-> | ->] S.
  - destruct (admin_POST_cases e body db) as [R | (p & _ & C)].
    + unfold rejected in R. rewrite R in S. discriminate S.
    + exists (admin_row e p). split; [exact C|].
      apply (created_is_new e body db). now left.
  - destruct (public_POST_cases e body db) as [R | (p & _ & C)].
    + unfold rejected in R. rewrite R in S. discriminate S.
    + exists (public_row e p). split; [exact C|].
      apply (created_is_new e body db). now right.
Qed.

(** X6. After a create answered 201, on the admin or the public
    endpoint, the table has one row more, under an id that was not in
    it; the read of that id answers 200 with the stored row, and the
    read of any other id answers what it answered before. *)
Theorem appointment_create_then_read (e : Env) (body : Json) (db : Db)
    (r : Response * Db) :
  r = Appointments.POST e body db \/ r = PublicAppointments.POST e body db ->
  status (fst r) = 201 ->
  exists a,
    appointments (snd r) = (appointments db ++ [a])%list
    /\ find_by ap_id (ap_id a) (appointments db) = None
    /\ AppointmentById.GET (ap_id a) (snd r) = (json (AppointmentBody a) 200, snd r)
    /\ (forall j, j <> ap_id a ->
          fst (AppointmentById.GET j (snd r)) = fst (AppointmentById.GET j db)).
Proof.
  intros Hr S. destruct (create_201_appends e body db r Hr S) as (a & C & X).
  exists a. unfold created in C. rewrite C. simpl.
  split; [reflexivity|]. split; [now apply find_by_absent|].
  unfold AppointmentById.GET, handler, appointment_findUnique. simpl. split.
  - now rewrite (find_by_appended ap_id (appointments db) a X).
  - intros j D. f_equal.
    clear - D. induction (appointments db) as [|x rest IH]; simpl.
    + destruct (String.eqb_spec (ap_id a) j); [congruence | reflexivity].
    + destruct (String.eqb (ap_id x) j); [reflexivity | exact IH].
Qed.

(** A PATCH answered 200 stored the update of the row it found. *)
Lemma PATCH_ok_row (e : Env) (id : string) (body : Json) (db db' : Db) (a' : Appointment) :
  AppointmentById.PATCH e id body db = (json (AppointmentBody a') 200, db') ->
  exists p a,
    AppointmentById.updateSchema e body = Some p
    /\ find_by ap_id id (appointments db) = Some a
    /\ db' = set_appointments db (replace_by ap_id id a' (appointments db))
    /\ a' = appointment_apply a
              (mkAppointmentUpdate
                 (AppointmentById.patientId p)
                 (AppointmentById.customPatientName (AppointmentById.patientId p)
                    (AppointmentById.patientName p))
                 (AppointmentById.serviceId p) (AppointmentById.staffId p)
                 (AppointmentById.date p) (AppointmentById.status_ p)
                 (AppointmentById.notes p)).
Proof.
  unfold AppointmentById.PATCH, handler, Eff.bind, parse.
  destruct (AppointmentById.updateSchema e body) as [p|] eqn:E; simpl;
    [|intros H; inversion H].
  unfold appointment_update.
  destruct (find_by ap_id id (appointments db)) as [a|] eqn:F; simpl;
    [|intros H; inversion H].
  destruct (appointment_fk_ok db _); simpl; intros H; inversion H; subst.
  exists p, a. repeat split; reflexivity.
Qed.

(** X7. After an update answered 200 the read of the id answers the
    updated row, the read of any other id answers what it answered
    before, and no row is added or removed. *)
Theorem appointment_update_then_read
    (e : Env) (id : string) (body : Json) (db db' : Db) (a' : Appointment) :
  AppointmentById.PATCH e id body db = (json (AppointmentBody a') 200, db') ->
  ap_id a' = id
  /\ AppointmentById.GET id db' = (json (AppointmentBody a') 200, db')
  /\ (forall j, j <> id -> fst (AppointmentById.GET j db') = fst (AppointmentById.GET j db))
  /\ length (appointments db') = length (appointments db).
Proof.
  intros H. apply PATCH_ok_row in H as (p & a & _ & F & -> & Ha).
  assert (Hid : ap_id a' = id).
  { rewrite Ha. simpl. now apply find_by_found in F as [F _]. }
  split; [exact Hid|].
  unfold AppointmentById.GET, handler, appointment_findUnique. simpl.
  split; [|split].
  - now rewrite (find_by_replaced ap_id id _ a a' F Hid).
  - intros j D. now rewrite (find_by_replaced_other ap_id id j _ a' Hid D).
  - clear. induction (appointments db) as [|x r IH]; simpl; [reflexivity|].
    destruct (String.eqb (ap_id x) id); simpl; [reflexivity | now rewrite IH].
Qed.

End OneAppointment.

(** X6 at the guest scenario on the admin endpoint: the read of the new
    id answers the stored row, the read of [apt1] answers as before. *)
Lemma appointment_create_then_read_witness :
  AppointmentById.GET "cnew00000"
    (snd (Appointments.POST Sample.env Sample.guest_body Sample.db))
  = (json (AppointmentBody
             (Prisma.mkAppointment "cnew00000" None (Some "Guest A") "svc1" None
                1735725600000 Prisma.BOOKED None)) 200,
     snd (Appointments.POST Sample.env Sample.guest_body Sample.db))
  /\ fst (AppointmentById.GET "apt1"
            (snd (Appointments.POST Sample.env Sample.guest_body Sample.db)))
     = fst (AppointmentById.GET "apt1" Sample.db).
Proof.
  destruct (appointment_create_then_read Sample.env Sample.guest_body Sample.db
              _ (or_introl eq_refl) eq_refl) as (a & Ha & _ & HG & Hother).
  vm_compute in Ha. inversion Ha; subst a. split.
  - exact HG.
  - apply Hother. discriminate.
Defined.

(** X7 at the move of [apt1] to patient [pat2]. *)
Lemma appointment_update_then_read_witness :
  AppointmentById.GET "apt1"
    (snd (AppointmentById.PATCH Sample.env "apt1" SampleUpdate.to_patient_body Sample.db))
  = AppointmentById.PATCH Sample.env "apt1" SampleUpdate.to_patient_body Sample.db.
Proof.
  destruct (appointment_update_then_read Sample.env "apt1" SampleUpdate.to_patient_body
              Sample.db _ _ eq_refl) as (_ & HG & _).
  exact HG.
Defined.

Section UpdateBreaksInvariant.
Import Prisma.

(** X8. The update does not keep "exactly one of patient and guest
    name".  An update whose body passes the schema, whose row exists
    and whose updated row has its references is answered 200 with the
    updated row stored.  For a body with [patientId: null] and no
    patient name that row has no patient and the guest name it had: a
    row that had a patient and no guest name is left with neither.  For
    a body with a patient name and no [patientId] key it has the
    patient it had and the trimmed name: a row that had a patient is
    left with both. *)
Theorem appointment_update_breaks_exactly_one
    (e : Env) (id : string) (body : Json) (db : Db)
    (p : AppointmentById.UpdatePayload) (a : Appointment) :
  AppointmentById.updateSchema e body = Some p ->
  find_by ap_id id (appointments db) = Some a ->
  appointment_fk_ok db (appointment_apply a (patch_data p)) = true ->
  let a' := appointment_apply a (patch_data p) in
  updated db id a' (AppointmentById.PATCH e id body db)
  /\ (supplied "patientId" body = Some JNull -> supplied "patientName" body = None ->
      ap_patientId a' = None
      /\ ap_customPatientName a' = ap_customPatientName a
      /\ (ap_customPatientName a = None -> ~ exactly_one a'))
  /\ (forall n, supplied "patientId" body = None ->
                supplied "patientName" body = Some (JStr n) ->
                ap_patientId a' = ap_patientId a
                /\ ap_customPatientName a' = Some (Js.trim n)
                /\ (ap_patientId a <> None -> ~ exactly_one a')).
Proof.
  intros E F K a'. split; [now apply PATCH_stores|].
  apply updateSchema_inv in E as (fs & -> & Hid & Hname).
  subst a'. unfold patch_data. simpl. split.
  - intros Hl Hn. rewrite Hl in Hid. rewrite Hn in Hname.
    inversion Hid as [Hp]. inversion Hname as [Hq].
    rewrite <- ?Hp, <- ?Hq. simpl.
    split; [reflexivity|]. split; [reflexivity|].
    intros N [[X _] | [_ X]]; simpl in X; congruence.
  - intros n Hl Hn. rewrite Hl in Hid. inversion Hid as [Hp].
    apply nullable_name_inv in Hname as [[Hn' _] | [[Hn' _] | (s & Hn' & Hq & T)]];
      try congruence.
    rewrite Hn in Hn'. inversion Hn'; subst s.
    rewrite <- ?Hp, ?Hq. unfold AppointmentById.customPatientName. simpl.
    unfold Js.or_undefined. rewrite trim_idem, T. simpl.
    split; [reflexivity|]. split; [reflexivity|].
    intros N [[_ X] | [X _]]; simpl in X; congruence.
Qed.

End UpdateBreaksInvariant.

(** X8 at the patient appointment [apt2]: [{patientId: null}] is
    answered 200 and leaves it with neither a patient nor a guest name,
    [{patientName: "Late Guest"}] is answered 200 and leaves it with
    both. *)
Lemma appointment_update_breaks_exactly_one_witness :
  (updated Sample.db "apt2"
     (Prisma.mkAppointment "apt2" None None "svc2" None 1735812000000
        Prisma.COMPLETED None)
     (AppointmentById.PATCH Sample.env "apt2" SampleUpdate.detach_body Sample.db)
   /\ ~ exactly_one
         (Prisma.mkAppointment "apt2" None None "svc2" None 1735812000000
            Prisma.COMPLETED None))
  /\ (updated Sample.db "apt2"
        (Prisma.mkAppointment "apt2" (Some "pat1") (Some "Late Guest") "svc2" None
           1735812000000 Prisma.COMPLETED None)
        (AppointmentById.PATCH Sample.env "apt2" SampleMore.name_only_body Sample.db)
      /\ ~ exactly_one
            (Prisma.mkAppointment "apt2" (Some "pat1") (Some "Late Guest") "svc2" None
               1735812000000 Prisma.COMPLETED None)).
Proof.
  split.
  - destruct (appointment_update_breaks_exactly_one Sample.env "apt2"
                SampleUpdate.detach_body Sample.db _ _ eq_refl eq_refl eq_refl)
      as (U & Hd & _).
    split; [exact U|].
    destruct (Hd eq_refl eq_refl) as (_ & _ & Hno). exact (Hno eq_refl).
  - destruct (appointment_update_breaks_exactly_one Sample.env "apt2"
                SampleMore.name_only_body Sample.db _ _ eq_refl eq_refl eq_refl)
      as (U & _ & Hn).
    split; [exact U|].
    destruct (Hn "Late Guest" eq_refl eq_refl) as (_ & _ & Hno).
    apply Hno. discriminate.
Defined.

Section DeleteAppointment.
Import Prisma.

Lemma find_by_removed_other {R : Type} (id_of : R -> string) (id j : string)
    (rows : list R) :
  j <> id -> find_by id_of j (remove_by id_of id rows) = find_by id_of j rows.
Proof.
  intros D. induction rows as [|x rest IH]; simpl; [reflexivity|].
  destruct (String.eqb_spec (id_of x) id) as [X | X]; simpl.
  - destruct (String.eqb_spec (id_of x) j); [congruence | reflexivity].
  - destruct (String.eqb (id_of x) j); [reflexivity | exact IH].
Qed.

Lemma find_by_removed {R : Type} (id_of : R -> string) (id : string) (rows : list R) :
  NoDup (map id_of rows) -> find_by id_of id (remove_by id_of id rows) = None.
Proof.
  induction rows as [|x rest IH]; simpl; [reflexivity|]. intros N.
  apply NoDup_cons_iff in N as [Hx N].
  destruct (String.eqb_spec (id_of x) id) as [X | X]; simpl.
  - apply find_by_absent. unfold exists_id.
    destruct (existsb (fun r => String.eqb (id_of r) id) rest) eqn:Ex; [|reflexivity].
    exfalso. apply Hx. apply existsb_exists in Ex as (r & Hr & Er).
    apply String.eqb_eq in Er. apply in_map_iff. exists r. split; [congruence | exact Hr].
  - apply String.eqb_neq in X. rewrite X. now apply IH.
Qed.

Lemma remove_by_length {R : Type} (id_of : R -> string) (id : string) (rows : list R) (r : R) :
  find_by id_of id rows = Some r ->
  S (length (remove_by id_of id rows)) = length rows.
Proof.
  induction rows as [|x rest IH]; simpl; [discriminate|].
  destruct (String.eqb (id_of x) id); simpl; [reflexivity|].
  intros F. now rewrite (IH F).
Qed.

(** X9. A delete of an id that is not in the table is answered 400 and
    changes nothing.  A delete of an id that is there is answered 200
    with one row less; the reads of the other ids answer as before,
    and with unique ids the read of the deleted id answers 404. *)
Theorem appointment_delete_outcomes (id : string) (db : Db) :
  (find_by ap_id id (appointments db) = None ->
   AppointmentById.DELETE id db = (json (ErrorBody "Unable to delete appointment") 400, db))
  /\ (forall a, find_by ap_id id (appointments db) = Some a ->
        fst (AppointmentById.DELETE id db) = json OkBody 200
        /\ S (length (appointments (snd (AppointmentById.DELETE id db))))
           = length (appointments db)
        /\ (forall j, j <> id ->
              fst (AppointmentById.GET j (snd (AppointmentById.DELETE id db)))
              = fst (AppointmentById.GET j db))
        /\ (appointment_ids_unique db ->
            fst (AppointmentById.GET id (snd (AppointmentById.DELETE id db)))
            = json (ErrorBody "Not found") 404)).
Proof.
  unfold AppointmentById.DELETE, AppointmentById.GET, handler, appointment_delete,
    appointment_findUnique.
  split.
  - intros F. now rewrite F.
  - intros a F. rewrite F. simpl. split; [reflexivity|]. split; [|split].
    + exact (remove_by_length ap_id id _ a F).
    + intros j D. now rewrite (find_by_removed_other ap_id id j _ D).
    + intros U. now rewrite (find_by_removed ap_id id _ U).
Qed.

End DeleteAppointment.

(** X9 at the sample table: [apt9] is not there, [apt1] is. *)
Lemma appointment_delete_outcomes_witness :
  AppointmentById.DELETE "apt9" Sample.db
  = (json (ErrorBody "Unable to delete appointment") 400, Sample.db)
  /\ fst (AppointmentById.GET "apt1" (snd (AppointmentById.DELETE "apt1" Sample.db)))
     = json (ErrorBody "Not found") 404.
Proof.
  split.
  - apply (proj1 (appointment_delete_outcomes "apt9" Sample.db)). reflexivity.
  - destruct (proj2 (appointment_delete_outcomes "apt1" Sample.db) _ eq_refl)
      as (_ & _ & _ & H404).
    apply H404. unfold appointment_ids_unique. simpl.
    repeat constructor; simpl; intuition discriminate.
Defined.

(* ================================================================= *)
(** ** The public booking and the status of a create *)

Section PublicBooking.
Import Prisma.

(** X10. Every public booking either stores one new row that holds
    exactly one of patient id and guest name, or is answered 400 with
    the database as before; a body with no patient id and no name that
    survives trimming fails the schema and is rejected. *)
Theorem public_booking_stores_exactly_one (e : Env) (body : Json) (db : Db) :
  ((exists a, created db a (PublicAppointments.POST e body db) /\ exactly_one a)
   \/ rejected 400 "Unable to create appointment request." db
        (PublicAppointments.POST e body db))
  /\ (no_patient body ->
      PublicAppointments.bookingSchema e body = None
      /\ rejected 400 "Unable to create appointment request." db
           (PublicAppointments.POST e body db)).
Proof.
  split.
  - destruct (public_POST_cases e body db) as [R | (p & E & C)]; [now right|].
    left. exists (public_row e p). split; [exact C|].
    apply bookingSchema_inv in E as (fs & -> & Hid & Hname & Href).
    destruct (stored_name_cases fs _ _ Hid Hname Href)
      as [(pid & _ & Hp & Hc) | (n & _ & _ & Hp & Hc & _)]; [left | right];
      unfold public_row; simpl; rewrite Hc, Hp; split; congruence.
  - intros N.
    destruct (PublicAppointments.bookingSchema e body) as [p|] eqn:E.
    + apply bookingSchema_inv in E as (fs & -> & Hid & Hname & Href).
      rewrite (no_patient_fields fs _ _ N Hid Hname) in Href. discriminate.
    + split; [reflexivity|].
      unfold PublicAppointments.POST, handler, Eff.bind, parse, rejected. now rewrite E.
Qed.

Lemma status_outside_enum (s : string) :
  Js.has STATUS_ENUM s = false -> status_of_string s = None.
Proof.
  unfold Js.has, STATUS_ENUM, status_of_string. simpl.
  destruct (String.eqb s "BOOKED"); [discriminate|].
  destruct (String.eqb s "COMPLETED"); [discriminate|].
  destruct (String.eqb s "CANCELLED"); [discriminate|].
  destruct (String.eqb s "NO_SHOW"); [discriminate | reflexivity].
Qed.

(** X11. On the admin create a [status] string that is one of the four
    values is stored as sent: a well-formed body with it is answered
    201 with a row of that status, and every row created for a body
    with a [status] string has the status the string names.  Any other
    string is answered 400 and nothing is stored. *)
Theorem appointment_create_status (e : Env) (body : Json) (db : Db) (s : string) :
  supplied "status" body = Some (JStr s) ->
  (forall st sid d pid pname staff,
      status_of_string s = Some st ->
      books e body sid d ->
      names_patient body pid pname ->
      optional_text (supplied "staffId" body) staff ->
      can_book e db sid pid staff ->
      created db (mkAppointment (cuid e 0) pid pname sid staff d st None)
        (Appointments.POST e body db))
  /\ (forall a, created db a (Appointments.POST e body db) ->
                status_of_string s = Some (ap_status a))
  /\ (Js.has STATUS_ENUM s = false ->
      rejected 400 "Unable to create appointment" db (Appointments.POST e body db)).
Proof.
  intros Hs. split; [|split].
  - intros st sid d pid pname staff Hst B N T K.
    apply (admin_create_stores e body db sid d pid pname staff (Some st)); try assumption.
    right. exists s, st. now repeat split.
  - intros a C.
    destruct (admin_POST_cases e body db) as [R | (p & E & C')].
    { exfalso. eapply created_not_rejected; eassumption. }
    rewrite (created_inj _ _ _ _ C C').
    apply createSchema_inv in E as (fs & -> & _ & _ & Hst & _).
    simpl in Hs. rewrite Hs in Hst. simpl in Hst.
    unfold status_enum, Zod.then_, Zod.str in Hst.
    destruct (status_of_string s) as [st|]; simpl in Hst; [|discriminate].
    inversion Hst as [Hp]. simpl. now rewrite <- Hp.
  - intros Hbad.
    destruct (Appointments.createSchema e body) as [p|] eqn:E;
      [|now apply admin_POST_rejects_unparsed].
    apply createSchema_inv in E as (fs & -> & _ & _ & Hst & _).
    simpl in Hs. rewrite Hs in Hst. simpl in Hst.
    unfold status_enum, Zod.then_, Zod.str in Hst.
    rewrite (status_outside_enum s Hbad) in Hst. discriminate.
Qed.

End PublicBooking.

(** X10 at a public booking with a blank name. *)
Lemma public_booking_stores_exactly_one_witness :
  rejected 400 "Unable to create appointment request." Sample.db
    (PublicAppointments.POST Sample.env Sample.blank_name_body Sample.db).
Proof.
  apply (proj2 (public_booking_stores_exactly_one Sample.env Sample.blank_name_body
                  Sample.db)).
  split; [reflexivity|]. right. exists "   ". split; reflexivity.
Defined.

(** X11 on the sample database: a create that asks for COMPLETED is
    stored as COMPLETED, one that asks for PENDING is answered 400. *)
Lemma appointment_create_status_witness :
  created Sample.db
    (Prisma.mkAppointment "cnew00000" (Some "pat1") None "svc1" None 1735725600000
       Prisma.COMPLETED None)
    (Appointments.POST Sample.env SampleMore.completed_body Sample.db)
  /\ rejected 400 "Unable to create appointment" Sample.db
       (Appointments.POST Sample.env SampleMore.pending_body Sample.db).
Proof.
  split.
  - apply (proj1 (appointment_create_status Sample.env SampleMore.completed_body Sample.db
                    "COMPLETED" eq_refl)
             Prisma.COMPLETED "svc1" 1735725600000 (Some "pat1") None None).
    + reflexivity.
    + split; [reflexivity|]. split; [discriminate|].
      split; [|reflexivity]. eexists. split; reflexivity.
    + apply (names_id SampleMore.completed_body "pat1"); [reflexivity | discriminate |].
      now left.
    + left. split; reflexivity.
    + repeat split; reflexivity.
  - apply (proj2 (proj2 (appointment_create_status Sample.env SampleMore.pending_body
                           Sample.db "PENDING" eq_refl))).
    reflexivity.
Defined.

(* ================================================================= *)
(** ** The order and the content of the listing *)

Section Listing.
Import Prisma.

Lemma insert_desc_perm {R : Type} (key : R -> Z) (a : R) (l : list R) :
  Permutation (insert_desc key a l) (a :: l).
Proof.
  induction l as [|b r IH]; simpl; [reflexivity|].
  destruct (key b <? key a); [reflexivity|].
  rewrite IH. apply perm_swap.
Qed.

Lemma order_by_desc_perm {R : Type} (key : R -> Z) (l : list R) :
  Permutation (order_by_desc key l) l.
Proof.
  unfold order_by_desc. induction l as [|a r IH]; simpl; [reflexivity|].
  rewrite insert_desc_perm. now constructor.
Qed.

Lemma insert_desc_sorted {R : Type} (key : R -> Z) (a : R) (l : list R) :
  Sorted (fun x y => key y <= key x) l ->
  Sorted (fun x y => key y <= key x) (insert_desc key a l).
Proof.
  induction l as [|b r IH]; simpl; intros S.
  - repeat constructor.
  - destruct (key b <? key a) eqn:L.
    + constructor; [exact S|]. constructor. apply Z.ltb_lt in L. lia.
    + apply Z.ltb_ge in L. inversion S as [|? ? Sr Hr]; subst.
      constructor; [now apply IH|].
      destruct r as [|c r']; simpl.
      * now constructor.
      * destruct (key c <? key a); constructor; [exact L|].
        now inversion Hr.
Qed.

Lemma order_by_desc_sorted {R : Type} (key : R -> Z) (l : list R) :
  newest_first key (order_by_desc key l).
Proof.
  unfold newest_first. apply Sorted_StronglySorted.
  - intros x y z Hxy Hyz. lia.
  - unfold order_by_desc. induction l as [|a r IH]; simpl; [constructor|].
    now apply insert_desc_sorted.
Qed.

Lemma status_eqb_eq (a b : Status) : status_eqb a b = true <-> a = b.
Proof. destruct a, b; simpl; split; congruence. Qed.

Lemma opt_eqb_eq (a : option string) (b : string) : opt_eqb a b = true <-> a = Some b.
Proof.
  destruct a as [x|]; simpl; [|split; discriminate].
  rewrite String.eqb_eq. split; congruence.
Qed.

(** The filter in words: the status and the patient as asked, the date
    within the two bounds, both included. *)
Lemma appointment_matches_spec (w : AppointmentWhere) (a : Appointment) :
  appointment_matches w a = true <->
  (forall st, w_status w = Some st -> ap_status a = st)
  /\ (forall p, w_patientId w = Some p -> ap_patientId a = Some p)
  /\ (forall d, w_gte w = Some d -> d <= ap_date a)
  /\ (forall d, w_lte w = Some d -> ap_date a <= d).
Proof.
  unfold appointment_matches. rewrite !andb_true_iff.
  assert (A : match w_status w with
              | None => true
              | Some s => status_eqb (ap_status a) s
              end = true <-> (forall st, w_status w = Some st -> ap_status a = st)).
  { destruct (w_status w) as [s|].
    - rewrite status_eqb_eq. split; [intros -> st X; now inversion X | auto].
    - split; [intros _ st X; discriminate | reflexivity]. }
  assert (B : match w_patientId w with
              | None => true
              | Some p => opt_eqb (ap_patientId a) p
              end = true <-> (forall p, w_patientId w = Some p -> ap_patientId a = Some p)).
  { destruct (w_patientId w) as [p|].
    - rewrite opt_eqb_eq. split; [intros -> q X; now inversion X | auto].
    - split; [intros _ q X; discriminate | reflexivity]. }
  assert (C : match w_gte w with
              | None => true
              | Some d => d <=? ap_date a
              end = true <-> (forall d, w_gte w = Some d -> d <= ap_date a)).
  { destruct (w_gte w) as [d|].
    - rewrite Z.leb_le. split; [intros L d' X; inversion X; now subst | auto].
    - split; [intros _ d X; discriminate | reflexivity]. }
  assert (D : match w_lte w with
              | None => true
              | Some d => ap_date a <=? d
              end = true <-> (forall d, w_lte w = Some d -> ap_date a <= d)).
  { destruct (w_lte w) as [d|].
    - rewrite Z.leb_le. split; [intros L d' X; inversion X; now subst | auto].
    - split; [intros _ d X; discriminate | reflexivity]. }
  rewrite A, B, C, D. tauto.
Qed.

Lemma get_first_value (key : string) (query : list (string * string)) (v : string) :
  Appointments.searchParams_get key query = Some v <-> first_value key query v.
Proof.
  induction query as [|[k v'] rest IH]; simpl.
  - split; [discriminate | intros H; inversion H].
  - destruct (String.eqb_spec k key) as [-> | D].
    + split.
      * intros H. inversion H. constructor.
      * intros H. inversion H; subst; [reflexivity | congruence].
    + rewrite IH. split.
      * intros H. now constructor.
      * intros H. inversion H; subst; [congruence | assumption].
Qed.

Lemma get_asked (key : string) (query : list (string * string)) (v : string) :
  asked key query v <->
  Appointments.searchParams_get key query = Some v /\ Js.truthy_string v = true.
Proof. unfold asked. now rewrite get_first_value, truthy_nonempty. Qed.

Lemma status_filter_some (s : string) :
  Appointments.status_filter (Some s) = status_of_string s.
Proof.
  unfold Appointments.status_filter.
  destruct s as [|c t]; [reflexivity|]. simpl Js.truthy_string. cbv iota.
  destruct (Js.has STATUS_ENUM (String c t)) eqn:H; simpl; [reflexivity|].
  symmetry. now apply status_outside_enum.
Qed.

(** The [where] of the listing, read against the query string. *)
Lemma where_status (query : list (string * string)) (a : Appointment) :
  (forall st, Appointments.status_filter (Appointments.searchParams_get "status" query)
              = Some st -> ap_status a = st)
  <-> (forall s st, asked "status" query s -> status_of_string s = Some st ->
                    ap_status a = st).
Proof.
  destruct (Appointments.searchParams_get "status" query) as [s|] eqn:G.
  - rewrite status_filter_some. split.
    + intros H s' st A S. apply get_asked in A as [A _].
      rewrite G in A. inversion A; subst s'. now apply H.
    + intros H st S. apply (H s st); [|exact S].
      apply get_asked. split; [exact G|].
      destruct s; [discriminate S | reflexivity].
  - simpl. split; [|intros _ st X; discriminate].
    intros _ s st A. apply get_asked in A as [A _]. congruence.
Qed.

Lemma where_patient (query : list (string * string)) (a : Appointment) :
  (forall p, match Appointments.searchParams_get "patientId" query with
             | Some p => Js.or_undefined p
             | None => None
             end = Some p -> ap_patientId a = Some p)
  <-> (forall p, asked "patientId" query p -> ap_patientId a = Some p).
Proof.
  destruct (Appointments.searchParams_get "patientId" query) as [s|] eqn:G.
  - unfold Js.or_undefined. split.
    + intros H p A. apply get_asked in A as [A T]. rewrite G in A. inversion A; subst s.
      apply H. now rewrite T.
    + intros H p E. destruct (Js.truthy_string s) eqn:T; inversion E; subst p.
      apply H. apply get_asked. now split.
  - split; [|intros _ p X; discriminate].
    intros _ p A. apply get_asked in A as [A _]. congruence.
Qed.

Lemma where_date (e : Env) (key : string) (query : list (string * string))
    (b : option Z) (P : Z -> Prop) :
  Appointments.date_param e (Appointments.searchParams_get key query) = Some b ->
  (forall d, b = Some d -> P d)
  <-> (forall v d, asked key query v -> date_of e (JStr v) = Some d -> P d).
Proof.
  unfold Appointments.date_param.
  destruct (Appointments.searchParams_get key query) as [s|] eqn:G.
  - destruct (Js.truthy_string s) eqn:T.
    + destruct (date_of e (JStr s)) as [d0|] eqn:D; [|discriminate].
      intros H. inversion H; subst b. split.
      * intros Hb v d A Dv. apply get_asked in A as [A _]. rewrite G in A.
        inversion A; subst v. apply Hb. congruence.
      * intros Hq d Ed. inversion Ed; subst d. apply (Hq s); [|exact D].
        apply get_asked. now split.
    + intros H. inversion H; subst b. split; [|intros _ d X; discriminate].
      intros _ v d A. apply get_asked in A as [A Tv]. congruence.
  - intros H. inversion H; subst b. split; [|intros _ d X; discriminate].
    intros _ v d A. apply get_asked in A as [A _]. congruence.
Qed.

Lemma date_param_none (e : Env) (key : string) (query : list (string * string)) :
  Appointments.date_param e (Appointments.searchParams_get key query) = None
  <-> exists v, asked key query v /\ date_of e (JStr v) = None.
Proof.
  unfold Appointments.date_param.
  destruct (Appointments.searchParams_get key query) as [s|] eqn:G.
  - destruct (Js.truthy_string s) eqn:T.
    + destruct (date_of e (JStr s)) as [d0|] eqn:D.
      * split; [discriminate|]. intros (v & A & Dv).
        apply get_asked in A as [A _]. congruence.
      * split; [|reflexivity]. intros _. exists s. split; [|exact D].
        apply get_asked. now split.
    + split; [discriminate|]. intros (v & A & _).
      apply get_asked in A as [A Tv]. congruence.
  - split; [discriminate|]. intros (v & A & _).
    apply get_asked in A as [A _]. congruence.
Qed.

(** X12. The listing is answered 200 when the [from] and [to]
    parameters that are asked are dates, and 500 when one of them is
    not.  A listing answered 200 leaves the database alone and lists,
    newest first, exactly the appointments the query string asks for:
    of the status it names when that is one of the four values, of its
    patient, and with a date from the [from] bound to the [to] bound,
    both included; each such row appears as often as in the table. *)
Theorem appointment_list_newest_first
    (e : Env) (query : list (string * string)) (db : Db) :
  (valid_dates e query ->
   exists l, Appointments.GET e query db = (json (AppointmentsBody l) 200, db))
  /\ (forall key v,
        In key ["from"; "to"] -> asked key query v -> date_of e (JStr v) = None ->
        Appointments.GET e query db
        = (json (ErrorBody "Unable to list appointments") 500, db))
  /\ (forall l db',
        Appointments.GET e query db = (json (AppointmentsBody l) 200, db') ->
        db' = db
        /\ newest_first ap_date l
        /\ (exists keep,
              Permutation l (filter keep (appointments db))
              /\ forall a, keep a = true <-> listed e query a)
        /\ (forall a, In a l <-> In a (appointments db) /\ listed e query a)).
Proof.
  unfold Appointments.GET, handler.
  destruct (Appointments.date_param e (Appointments.searchParams_get "from" query))
    as [from|] eqn:Ef;
    [destruct (Appointments.date_param e (Appointments.searchParams_get "to" query))
       as [to|] eqn:Et|]; simpl.
  - assert (M : forall a,
               appointment_matches
                 (mkAppointmentWhere
                    (Appointments.status_filter
                       (Appointments.searchParams_get "status" query))
                    match Appointments.searchParams_get "patientId" query with
                    | Some p => Js.or_undefined p
                    | None => None
                    end from to) a = true <-> listed e query a).
    { intros a. rewrite appointment_matches_spec. unfold listed. simpl.
      rewrite where_status, where_patient,
        (where_date e "from" query from (fun d => d <= ap_date a) Ef),
        (where_date e "to" query to (fun d => ap_date a <= d) Et).
      reflexivity. }
    split; [intros _; eexists; reflexivity|]. split.
    + intros key v [<- | [<- | []]] A D; exfalso.
      * assert (X : Appointments.date_param e (Appointments.searchParams_get "from" query)
                    = None) by (apply date_param_none; eauto).
        congruence.
      * assert (X : Appointments.date_param e (Appointments.searchParams_get "to" query)
                    = None) by (apply date_param_none; eauto).
        congruence.
    + intros l db' H. inversion H; subst.
      split; [reflexivity|]. split; [apply order_by_desc_sorted|]. split.
      * eexists. split; [apply order_by_desc_perm | exact M].
      * intros a. rewrite <- M, <- filter_In.
        split; apply Permutation_in;
          [apply order_by_desc_perm | symmetry; apply order_by_desc_perm].
  - apply date_param_none in Et as (v & A & D).
    split; [|split].
    + intros V. exfalso. apply (V "to" v); simpl; auto.
    + intros; reflexivity.
    + intros l db' H. inversion H.
  - apply date_param_none in Ef as (v & A & D).
    split; [|split].
    + intros V. exfalso. apply (V "from" v); simpl; auto.
    + intros; reflexivity.
    + intros l db' H. inversion H.
Qed.

(** X13. A [status], [patientId], [from] or [to] parameter with an
    empty value is ignored: the listing answers as for the query
    without the parameter. *)
Theorem appointment_list_ignores_empty_parameters
    (e : Env) (query : list (string * string)) (db : Db) (key : string) :
  In key ["status"; "patientId"; "from"; "to"] ->
  Appointments.searchParams_get key query = Some "" ->
  Appointments.GET e query db = Appointments.GET e (without key query) db.
Proof.
  intros Hk He. unfold Appointments.GET.
  destruct Hk as [<- | [<- | [<- | [<- | []]]]];
    rewrite get_without_same, He, !get_without_other by reflexivity; reflexivity.
Qed.

End Listing.

(** X12 on the sample table: the listing without parameters answers both
    appointments, the later one first; the listing for
    [?status=COMPLETED] answers [apt2] and not the booked [apt1]; a
    [from] that is not a date is answered 500. *)
Lemma appointment_list_newest_first_witness :
  (Appointments.GET Sample.env [] Sample.db
   = (json (AppointmentsBody
              [Prisma.mkAppointment "apt2" (Some "pat1") None "svc2" None 1735812000000
                 Prisma.COMPLETED None;
               Prisma.mkAppointment "apt1" None (Some "Guest A") "svc1" None 1735725600000
                 Prisma.BOOKED None]) 200, Sample.db)
   /\ newest_first Prisma.ap_date
        [Prisma.mkAppointment "apt2" (Some "pat1") None "svc2" None 1735812000000
           Prisma.COMPLETED None;
         Prisma.mkAppointment "apt1" None (Some "Guest A") "svc1" None 1735725600000
           Prisma.BOOKED None])
  /\ (Appointments.GET Sample.env SampleMore.completed_query Sample.db
      = (json (AppointmentsBody
                 [Prisma.mkAppointment "apt2" (Some "pat1") None "svc2" None 1735812000000
                    Prisma.COMPLETED None]) 200, Sample.db)
      /\ ~ listed Sample.env SampleMore.completed_query
            (Prisma.mkAppointment "apt1" None (Some "Guest A") "svc1" None 1735725600000
               Prisma.BOOKED None))
  /\ Appointments.GET Sample.env SampleMore.bad_from_query Sample.db
     = (json (ErrorBody "Unable to list appointments") 500, Sample.db).
Proof.
  split; [|split].
  - split; [reflexivity|].
    destruct (proj2 (proj2 (appointment_list_newest_first Sample.env [] Sample.db))
                _ _ eq_refl) as (_ & Hs & _).
    exact Hs.
  - split; [reflexivity|].
    destruct (proj2 (proj2 (appointment_list_newest_first Sample.env
                              SampleMore.completed_query Sample.db))
                _ _ eq_refl) as (_ & _ & _ & Hin).
    intros L.
    assert (I : In (Prisma.mkAppointment "apt1" None (Some "Guest A") "svc1" None
                      1735725600000 Prisma.BOOKED None)
                  [Prisma.mkAppointment "apt2" (Some "pat1") None "svc2" None
                     1735812000000 Prisma.COMPLETED None]).
    { apply Hin. split; [simpl; auto | exact L]. }
    destruct I as [I | []]. discriminate I.
  - apply (proj1 (proj2 (appointment_list_newest_first Sample.env
                           SampleMore.bad_from_query Sample.db)) "from" "yesterday").
    + simpl. auto.
    + split; [constructor | discriminate].
    + reflexivity.
Defined.

(** X13 at [?patientId=&from=2025-01-01T10:00:00Z]. *)
Lemma appointment_list_ignores_empty_parameters_witness :
  Appointments.GET Sample.env SampleMore.empty_patient_query Sample.db
  = Appointments.GET Sample.env [("from", "2025-01-01T10:00:00Z")] Sample.db.
Proof.
  apply (appointment_list_ignores_empty_parameters Sample.env
           SampleMore.empty_patient_query Sample.db "patientId").
  - simpl. tauto.
  - reflexivity.
Defined.

(* ================================================================= *)
(** ** What an upload writes *)

Section UploadOutcomes.
Import Uploads.

Lemma saveFile_accepts (st : Stamp) (file : File) (w : World) :
  acceptable file ->
  saveFile st file w =
    match try_blob (upload_name st file) (file_bytes file) w with
    | (inr (Some url), w1) => (inr url, w1)
    | (inr None, w1) =>
        Eff.bind (ensureUploadsDir (uploads_dir w1))
          (fun _ =>
             Eff.bind (writeFile (join (uploads_dir w1) (upload_name st file))
                         (file_bytes file))
               (fun _ => Eff.ret ("/uploads/" ++ upload_name st file))) w1
    | (inl msg, w1) => (inl msg, w1)
    end.
Proof.
  intros [Hs Ht]. unfold saveFile.
  apply Z.ltb_ge in Hs. rewrite Hs, Ht.
  change (negb true) with false. cbv iota.
  unfold Eff.bind at 1. unfold upload_name.
  destruct (try_blob _ (file_bytes file) w) as [[msg | [url|]] w1]; reflexivity.
Qed.

(** X14. A request without a file in the [file] field is answered 400
    "No file provided"; a file within the size limit whose type is not
    one of the five image types is answered 400 "Unsupported file
    type"; neither writes to the blob store or the disk. *)
Theorem upload_rejects_bad_requests
    (st : Stamp) (form : list (string * FormValue)) (w : World) :
  (formData_get "file" form = None
   \/ (exists s, formData_get "file" form = Some (FormString s)) ->
   POST st form w = (json (ErrorBody "No file provided") 400, w))
  /\ (forall file,
        formData_get "file" form = Some (FormFile file) ->
        Z.of_nat (length (file_bytes file)) <= MAX_FILE_SIZE ->
        Js.has ALLOWED_MIME (file_type file) = false ->
        POST st form w = (json (ErrorBody "Unsupported file type") 400, w)).
Proof.
  split.
  - intros [H | [s H]]; unfold POST; now rewrite H.
  - intros file Hf Hs Ht. unfold POST, saveFile. rewrite Hf.
    apply Z.ltb_ge in Hs. now rewrite Hs, Ht.
Qed.

(** X15. With a blob module whose [put] stores, an acceptable file is
    answered 201 with the URL of the blob; the blob store gains the
    bytes under [uploads/<name>] and the disk is not touched. *)
Theorem upload_prefers_blob
    (st : Stamp) (form : list (string * FormValue)) (file : File) (w : World)
    (base : string) :
  formData_get "file" form = Some (FormFile file) ->
  acceptable file ->
  blob_module w = PutStores base ->
  fst (POST st form w) = json (UrlBody (base ++ "uploads/" ++ upload_name st file)) 201
  /\ blob_objects (snd (POST st form w))
     = ("uploads/" ++ upload_name st file, file_bytes file) :: blob_objects w
  /\ disk (snd (POST st form w)) = disk w.
Proof.
  intros Hf Ha Hb. unfold POST. rewrite Hf, (saveFile_accepts st file w Ha).
  unfold try_blob. rewrite Hb. simpl. repeat split.
Qed.








End UploadOutcomes.

(** X14 at a PDF and at a form without a file. *)
Lemma upload_rejects_bad_requests_witness :
  Uploads.POST SampleUpload.stamp [("file", Uploads.FormFile SampleMore.small_pdf)]
    SampleUpload.world
  = (json (ErrorBody "Unsupported file type") 400, SampleUpload.world)
  /\ Uploads.POST SampleUpload.stamp [("name", Uploads.FormString "x")] SampleUpload.world
     = (json (ErrorBody "No file provided") 400, SampleUpload.world).
Proof.
  split.
  - apply (proj2 (upload_rejects_bad_requests SampleUpload.stamp
                    [("file", Uploads.FormFile SampleMore.small_pdf)] SampleUpload.world)
             SampleMore.small_pdf); [reflexivity | vm_compute; discriminate | reflexivity].
  - apply (proj1 (upload_rejects_bad_requests SampleUpload.stamp
                    [("name", Uploads.FormString "x")] SampleUpload.world)).
    now left.
Defined.

(** X15 at a small PNG and a storing blob module. *)
Lemma upload_prefers_blob_witness :
  fst (Uploads.POST SampleUpload.stamp [("file", Uploads.FormFile SampleMore.small_png)]
         SampleUpload.world)
  = json (UrlBody "https://blob.example/uploads/1767225600000-3f2b.png") 201.
Proof.
  apply (upload_prefers_blob SampleUpload.stamp
           [("file", Uploads.FormFile SampleMore.small_png)] SampleMore.small_png
           SampleUpload.world "https://blob.example/").
  - reflexivity.
  - split; [vm_compute; discriminate | reflexivity].
  - reflexivity.
Defined.


(* ================================================================= *)
(** ** No service becomes its own parent *)

Section SelfParent.
Import Prisma.

Lemma keeps_ret {A : Type} (P : Db -> Prop) (a : A) : keeps P (ret a).
Proof. intros db r db' H E. inversion E. now subst. Qed.

Lemma keeps_throw {A : Type} (P : Db -> Prop) (err : JsError) : keeps P (@throw A err).
Proof. intros db r db' H E. inversion E. now subst. Qed.

Lemma keeps_parse {A : Type} (P : Db -> Prop) (o : option A) : keeps P (parse o).
Proof. destruct o; [apply keeps_ret | apply keeps_throw]. Qed.

Lemma keeps_bind {A B : Type} (P : Db -> Prop) (m : M A) (k : A -> M B) :
  keeps P m -> (forall a, keeps P (k a)) -> keeps P (Eff.bind m k).
Proof.
  intros Hm Hk db r db' H E. unfold Eff.bind in E.
  destruct (m db) as [[err | a] db1] eqn:Em.
  - inversion E; subst. exact (Hm _ _ _ H Em).
  - exact (Hk a _ _ _ (Hm _ _ _ H Em) E).
Qed.

Lemma keeps_try_catch {A : Type} (P : Db -> Prop) (m : M A) (h : JsError -> M A) :
  keeps P m -> (forall err, keeps P (h err)) -> keeps P (try_catch m h).
Proof.
  intros Hm Hh db r db' H E. unfold try_catch, Eff.try_catch in E.
  destruct (m db) as [[err | a] db1] eqn:Em.
  - exact (Hh err _ _ _ (Hm _ _ _ H Em) E).
  - inversion E; subst. exact (Hm _ _ _ H Em).
Qed.

Lemma keeps_handler {A : Type} (P : Db -> Prop) (m : M A) (ok : A -> Response)
    (caught : JsError -> Response) (db : Db) :
  keeps P m -> P db -> P (snd (handler m ok caught db)).
Proof.
  intros Hm H. unfold handler.
  destruct (m db) as [[err | a] db1] eqn:Em; simpl; exact (Hm _ _ _ H Em).
Qed.

Lemma exists_id_In {R : Type} (id_of : R -> string) (rows : list R) (r : R) :
  In r rows -> exists_id id_of rows (id_of r) = true.
Proof.
  intros H. unfold exists_id. apply existsb_exists. exists r.
  split; [exact H | apply String.eqb_refl].
Qed.

(** A created service points at a row that was there, so not at itself. *)
Lemma service_create_keeps (e : Env) (d : ServiceArgs) (inc : ServiceInclude) :
  keeps no_self_parent (service_create e d inc).
Proof.
  intros db r db' H E. unfold service_create in E.
  destruct (client_check e d inc); [inversion E; now subst|].
  destruct (d_name d) as [name|]; [|inversion E; now subst].
  destruct (d_description d) as [description|]; [|inversion E; now subst].
  simpl in E.
  destruct (exists_id sv_id (services db) (cuid e 0)) eqn:X; [inversion E; now subst|].
  destruct (parent_ok db (d_parent d)) eqn:Pk; inversion E; subst; [|exact H].
  intros s Hs. simpl in Hs. apply in_app_or in Hs as [Hs | [<- | []]]; [now apply H|].
  simpl. destruct (d_parent d) as [[p|]|]; simpl; try discriminate.
  simpl in Pk. intros Eq. inversion Eq; subst p. congruence.
Qed.

Lemma In_replace_by {R : Type} (id_of : R -> string) (id : string) (r' x : R)
    (rows : list R) :
  In x (replace_by id_of id r' rows) -> x = r' \/ In x rows.
Proof.
  induction rows as [|y rest IH]; simpl; [tauto|].
  destruct (String.eqb (id_of y) id); simpl; intros [E | Hin]; auto.
  destruct (IH Hin); auto.
Qed.

(** An updated service keeps its parent, loses it, or takes the one of
    the data, which is not the service itself. *)
Lemma service_update_keeps (e : Env) (id : string) (d : ServiceArgs)
    (inc : ServiceInclude) :
  (forall p, d_parent d = Some (Connect p) -> p <> id) ->
  keeps no_self_parent (service_update e id d inc).
Proof.
  intros Hd db r db' H E. unfold service_update in E.
  destruct (client_check e d inc); [inversion E; now subst|].
  destruct (find_by sv_id id (services db)) as [s|] eqn:F; [|inversion E; now subst].
  destruct (parent_ok db (d_parent d)); inversion E; subst; [|exact H].
  apply find_by_found in F as [Fid Fin].
  intros x Hx. simpl in Hx. apply In_replace_by in Hx as [-> | Hx]; [|now apply H].
  simpl. destruct (d_parent d) as [[p|]|] eqn:Dp; simpl.
  - intros Eq. inversion Eq. apply (Hd p eq_refl). congruence.
  - discriminate.
  - now apply H.
Qed.

Lemma own_parent_guard (p : ServiceById.UpdatePayload) (id q : string) :
  ServiceById.own_parent p id = false ->
  d_parent (ServiceById.data p) = Some (Connect q) -> q <> id.
Proof.
  unfold ServiceById.own_parent, ServiceById.data. simpl.
  destruct (ServiceById.parentId p) as [[|s]|]; try discriminate.
  destruct (Js.truthy_string s); simpl; [|discriminate].
  intros N Eq. inversion Eq; subst. now apply String.eqb_neq.
Qed.

(** X17. The three handlers that write services keep "no service is
    its own parent": if it holds of the table before a create (either
    version) or an update, it holds afterwards, whatever the body and
    whether or not the retry ran. *)
Theorem service_writes_keep_no_self_parent (e : Env) (body : Json) (db : Db) :
  no_self_parent db ->
  no_self_parent (snd (Services.POST e body db))
  /\ no_self_parent (snd (ServicesWithPriority.POST e body db))
  /\ forall id, no_self_parent (snd (ServiceById.PATCH e id body db)).
Proof.
  intros H. split; [|split].
  - unfold Services.POST. apply keeps_handler; [|exact H].
    apply keeps_bind; [apply keeps_parse|]. intros p.
    apply keeps_try_catch; [apply service_create_keeps|]. intros err.
    destruct (Js.includes _ _); [apply service_create_keeps | apply keeps_throw].
  - unfold ServicesWithPriority.POST. apply keeps_handler; [|exact H].
    apply keeps_bind; [apply keeps_parse|]. intros p.
    apply keeps_try_catch; [apply service_create_keeps|]. intros err.
    simpl. destruct (_ || _); [apply service_create_keeps | apply keeps_throw].
  - intros id. unfold ServiceById.PATCH. apply keeps_handler; [|exact H].
    apply keeps_bind; [apply keeps_parse|]. intros p.
    destruct (ServiceById.own_parent p id) eqn:G; [apply keeps_ret|].
    apply keeps_bind; [|intros sv; apply keeps_ret].
    apply keeps_try_catch.
    + apply service_update_keeps. intros q. now apply own_parent_guard.
    + intros err. simpl.
      destruct (_ || _); [|apply keeps_throw].
      apply service_update_keeps. intros q. now apply own_parent_guard.
Qed.

End SelfParent.

(** X17 at the sample services, re-parenting [cchild000]. *)
Lemma service_writes_keep_no_self_parent_witness :
  no_self_parent
    (snd (ServiceById.PATCH Sample.env "cchild000" SampleMore.reparent_body
            SampleService.db)).
Proof.
  apply (service_writes_keep_no_self_parent Sample.env SampleMore.reparent_body
           SampleService.db).
  intros s [<- | [<- | []]]; discriminate.
Defined.

(* ================================================================= *)
(** ** The image list, the doctors' strings and the users' fields *)

Section Fields.
Import Prisma.

Lemma set_add_nodup (x : string) (seen : list string) :
  NoDup seen -> NoDup (Js.set_add x seen).
Proof.
  induction seen as [|y r IH]; simpl; intros N.
  - constructor; [intros [] | constructor].
  - destruct (String.eqb_spec x y) as [-> | D]; [exact N|].
    apply NoDup_cons_iff in N as [Hy N]. constructor; [|now apply IH].
    rewrite set_add_In. intros [E | Hin]; [congruence | contradiction].
Qed.

Lemma new_Set_nodup (l : list string) : NoDup (Js.new_Set l).
Proof.
  unfold Js.new_Set.
  assert (G : forall acc, NoDup acc -> NoDup (fold_left (fun a x => Js.set_add x a) l acc)).
  { induction l as [|x r IH]; simpl; intros acc N; [exact N|].
    apply IH. now apply set_add_nodup. }
  apply G. constructor.
Qed.

Lemma array_of_trimmed (items : list Json) (l : list string) :
  Zod.array_of (Zod.then_ (Zod.then_ Zod.str Zod.trimmed) (Zod.min 1)) items = Some l ->
  forall x, In x l ->
    x <> "" /\ Js.trim x = x /\ exists s, In (JStr s) items /\ x = Js.trim s.
Proof.
  revert l. induction items as [|v r IH]; intros l H; simpl in H.
  - inversion H. intros x [].
  - unfold Zod.then_ at 1 2 in H. unfold Zod.str at 1 in H.
    destruct v; simpl in H; try discriminate.
    unfold Zod.trimmed at 1 in H.
    destruct (Zod.min 1 (Js.trim s)) as [t|] eqn:M; [|discriminate].
    apply min1_truthy in M as [-> T].
    destruct (Zod.array_of _ r) as [l'|] eqn:A; [|discriminate].
    inversion H; subst. intros x [<- | Hin].
    + split; [now apply truthy_nonempty|]. split; [apply trim_idem|].
      exists s. split; [now left | reflexivity].
    + destruct (IH l' eq_refl x Hin) as (H1 & H2 & s' & H3 & H4).
      split; [exact H1|]. split; [exact H2|]. exists s'. split; [now right | exact H4].
Qed.

(** X18. What [imagesSchema] lets through is a list without
    duplicates and with at least one entry; each entry is the trimmed
    form of a string of the array, not empty, and every string of the
    array has its trimmed form in the list. *)
Theorem imagesSchema_output (v : Json) (l : list string) :
  Services.imagesSchema v = Some l ->
  l <> [] /\ NoDup l
  /\ exists items,
       v = JArr items
       /\ (forall x, In x l ->
             x <> "" /\ Js.trim x = x /\ exists s, In (JStr s) items /\ x = Js.trim s)
       /\ (forall s, In (JStr s) items -> In (Js.trim s) l).
Proof.
  unfold Services.imagesSchema. intros H.
  destruct (Zod.array _ v) as [raw|] eqn:A; [|discriminate].
  destruct (0 <? length (Js.new_Set raw))%nat eqn:L; [|discriminate].
  inversion H; subst. split.
  - intros E. rewrite E in L. discriminate.
  - split; [apply new_Set_nodup|].
    unfold Zod.array in A. destruct v; try discriminate. exists items.
    split; [reflexivity|]. split.
    + intros x Hx. apply (proj1 (new_Set_In raw x)) in Hx.
      exact (array_of_trimmed items raw A x Hx).
    + intros s Hs. apply (proj2 (new_Set_In raw (Js.trim s))).
      clear L H. revert raw A. induction items as [|w r IH]; intros raw A; [destruct Hs|].
      simpl in A. unfold Zod.then_ at 1 2 in A. unfold Zod.str at 1 in A.
      destruct w; simpl in A; try discriminate.
      unfold Zod.trimmed at 1 in A.
      destruct (Zod.min 1 (Js.trim s0)) as [t|] eqn:M; [|discriminate].
      apply min1_truthy in M as [-> _].
      destruct (Zod.array_of _ r) as [l'|] eqn:A'; [|discriminate].
      inversion A; subst. destruct Hs as [E | Hs].
      * inversion E. now left.
      * right. now apply (IH Hs l').
Qed.

(** X19. [nullableStr(min)] of the doctors routes lets an absent key
    and [null] through as they are.  A string comes out trimmed, and
    only if what is left is not empty and has at least [min]
    characters: a string that is empty or all white space is an issue,
    not [null]. *)
Theorem nullableStr_outcomes (min : nat) :
  Doctors.nullableStr min None = Some None
  /\ Doctors.nullableStr min (Some JNull) = Some (Some Null)
  /\ (forall s, Js.trim s = "" -> Doctors.nullableStr min (Some (JStr s)) = None)
  /\ (forall s r, Doctors.nullableStr min (Some (JStr s)) = Some r ->
        r = Some (NotNull (Js.trim s)) /\ Js.trim s <> ""
        /\ (min <= String.length (Js.trim s))%nat).
Proof.
  split; [reflexivity|]. split; [reflexivity|]. split.
  - intros s E. unfold Doctors.nullableStr. simpl. unfold Zod.then_, Zod.str.
    now rewrite E.
  - intros s r H. unfold Doctors.nullableStr in H. simpl in H.
    unfold Zod.then_, Zod.str in H.
    destruct (Js.trim s) as [|c t] eqn:E; simpl in H; [discriminate|].
    unfold Doctors.pipe_string in H.
    destruct (0 <? min)%nat eqn:Z.
    + unfold Zod.min in H.
      destruct (min <=? String.length (String c t))%nat eqn:L; simpl in H; [|discriminate].
      inversion H. split; [reflexivity|]. split; [discriminate|].
      now apply Nat.leb_le.
    + simpl in H. inversion H. split; [reflexivity|]. split; [discriminate|].
      apply Nat.ltb_ge in Z. simpl. lia.
Qed.

Lemma required_check_inv (ok : string -> bool) (o : option Json) (r : string) :
  Zod.required (Zod.then_ Zod.str (Zod.check ok)) o = Some r ->
  o = Some (JStr r) /\ ok r = true.
Proof.
  destruct o as [v|]; simpl; [|discriminate].
  unfold Zod.then_, Zod.str, Zod.check. destruct v; try discriminate.
  destruct (ok s) eqn:E; [|discriminate]. intros H. inversion H; subst. now split.
Qed.

Lemma required_min_inv (n : nat) (o : option Json) (r : string) :
  Zod.required (Zod.then_ Zod.str (Zod.min n)) o = Some r ->
  o = Some (JStr r) /\ (n <= String.length r)%nat.
Proof.
  destruct o as [v|]; simpl; [|discriminate].
  unfold Zod.then_, Zod.str, Zod.min. destruct v; try discriminate.
  destruct (n <=? String.length s)%nat eqn:E; [|discriminate].
  intros H. inversion H; subst. split; [reflexivity | now apply Nat.leb_le].
Qed.

Lemma users_createSchema_inv (e : Env) (body : Json) (p : Users.CreatePayload) :
  Users.createSchema e body = Some p ->
  supplied "email" body = Some (JStr (Users.email p))
  /\ is_email e (Users.email p) = true
  /\ supplied "password" body = Some (JStr (Users.password p))
  /\ (6 <= String.length (Users.password p))%nat
  /\ (supplied "role" body = None -> Users.role p = None).
Proof.
  unfold Users.createSchema. intros H.
  destruct body; try discriminate H. cbn [Zod.object] in H.
  destruct (Zod.required _ (Zod.lookup "email" fields)) as [em|] eqn:E1; [|discriminate].
  destruct (Zod.optional _ (Zod.lookup "name" fields)) as [nm|] eqn:E2; [|discriminate].
  destruct (Zod.optional Users.role_enum (Zod.lookup "role" fields)) as [rl|] eqn:E3;
    [|discriminate].
  destruct (Zod.required _ (Zod.lookup "password" fields)) as [pw|] eqn:E4; [|discriminate].
  inversion H; subst. simpl.
  apply required_check_inv in E1 as [-> Hem].
  apply required_min_inv in E4 as [-> Hpw].
  repeat split; try assumption.
  intros Hr. rewrite Hr in E3. now inversion E3.
Qed.

End Fields.

Section UserCreate.
Import Prisma.

(** X20. A create of a user whose password has fewer than six
    characters is answered 400 and stores nothing.  A create answered
    201 appended one user: with the e-mail of the body, which passed
    the e-mail check and which no user of the table had; with the
    bcrypt hash of the password of the body, of six characters or
    more; and with role STAFF when the body has no [role] key. *)
Theorem user_create_outcomes (e : Env) (body : Json) (db : Db) :
  (forall pw, supplied "password" body = Some (JStr pw) ->
              (String.length pw < 6)%nat ->
              rejected 400 "Unable to create user" db (Users.POST e body db))
  /\ (forall u db',
        Users.POST e body db = (json (UserBody u) 201, db') ->
        supplied "email" body = Some (JStr (us_email u))
        /\ is_email e (us_email u) = true
        /\ (exists pw, supplied "password" body = Some (JStr pw)
                       /\ (6 <= String.length pw)%nat
                       /\ us_passwordHash u = bcrypt_hash e pw)
        /\ (supplied "role" body = None -> us_role u = STAFF)
        /\ users db' = (users db ++ [u])%list
        /\ forall v, In v (users db) -> us_email v <> us_email u).
Proof.
  split.
  - intros pw Hs Hl. unfold Users.POST, handler, Eff.bind, parse, rejected.
    destruct (Users.createSchema e body) as [p|] eqn:E; simpl; [|reflexivity].
    apply users_createSchema_inv in E as (_ & _ & Hp & Hlen & _).
    rewrite Hs in Hp. inversion Hp; subst. lia.
  - intros u db'. unfold Users.POST, handler, Eff.bind, parse.
    destruct (Users.createSchema e body) as [p|] eqn:E; simpl; [|intros H; inversion H].
    apply users_createSchema_inv in E as (He & Hem & Hp & Hlen & Hr).
    unfold user_create. simpl.
    destruct (exists_id us_id (users db) (cuid e 0)); simpl; [intros H; inversion H|].
    destruct (existsb _ (users db)) eqn:X; simpl; intros H; inversion H; subst.
    simpl. split; [exact He|]. split; [exact Hem|].
    split; [exists (Users.password p); now repeat split|].
    split; [intros N; now rewrite (Hr N)|]. split; [reflexivity|].
    intros v Hv Eq.
    assert (T : existsb (fun u0 => String.eqb (us_email u0) (Users.email p)) (users db) = true).
    { apply existsb_exists. exists v. split; [exact Hv | now apply String.eqb_eq]. }
    congruence.
Qed.

End UserCreate.

(** X18 at an image list with a repeated and padded entry. *)
Lemma imagesSchema_output_witness :
  Services.imagesSchema (JArr [JStr " /a.png"; JStr "/b.png"; JStr "/a.png "])
  = Some ["/a.png"; "/b.png"]
  /\ NoDup ["/a.png"; "/b.png"].
Proof.
  split; [reflexivity|].
  apply (imagesSchema_output (JArr [JStr " /a.png"; JStr "/b.png"; JStr "/a.png "])
           ["/a.png"; "/b.png"] eq_refl).
Defined.

(** X19 at the phone schema [nullableStr(5)]: a padded number passes,
    a blank string does not. *)
Lemma nullableStr_outcomes_witness :
  Doctors.nullableStr 5 (Some (JStr "   ")) = None
  /\ Some (NotNull "55512345") = Some (NotNull (Js.trim " 55512345 ")).
Proof.
  split.
  - apply (proj1 (proj2 (proj2 (nullableStr_outcomes 5)))). reflexivity.
  - apply (proj2 (proj2 (proj2 (nullableStr_outcomes 5))) " 55512345 "). reflexivity.
Defined.

(** X20 at a create with a five-character password. *)
Lemma user_create_outcomes_witness :
  rejected 400 "Unable to create user" Sample.db
    (Users.POST Sample.env SampleMore.short_password_body Sample.db).
Proof.
  apply (proj1 (user_create_outcomes Sample.env SampleMore.short_password_body Sample.db)
           "12345"); [reflexivity | simpl; lia].
Defined.
